(** * Scalar resolution of candiedyaml (resolver.go)

    A shallow embedding of [resolver.go]: the tables built by [init], the
    converters [resolve_bool], [resolve_int], [resolve_uint], [resolve_float],
    [resolve_time], the dispatcher [resolve] and the dynamic resolver
    [resolveInterface], followed by the properties of the specification.

    Go strings are byte sequences: they are [string]s, one [ascii] per byte.
    Go maps with string keys are [gmap string _].  A Go call either returns
    or panics; the functions that write through a [reflect.Value] and return
    an [error] are given an [outcome]: the value stored, the error returned,
    or a panic. *)

From Stdlib Require Import ZArith Ascii String List Lia SpecFloat.
From stdpp Require Import base option gmap strings.

Local Open Scope string_scope.
Local Open Scope Z_scope.

(** ** The pieces of the Go library that resolver.go calls *)

(** Package [strings], on the arguments resolver.go passes: separators and
    replaced texts are single bytes. *)
Module strings.

(** [strings.Replace(s, old, new, -1)] for a one-byte [old]. *)
Fixpoint Replace (s : string) (old : ascii) (new : string) : string :=
  match s with
  | EmptyString => EmptyString
  | String c r =>
      if Ascii.eqb c old then new +:+ Replace r old new
      else String c (Replace r old new)
  end.

Definition HasPrefix (s prefix : string) : bool := String.prefix prefix s.

(** [strings.Contains(s, sep)] for a one-byte [sep]. *)
Fixpoint Contains (s : string) (sep : ascii) : bool :=
  match s with
  | EmptyString => false
  | String c r => Ascii.eqb c sep || Contains r sep
  end.

(** [strings.Split(s, sep)] for a one-byte [sep]: the fields between the
    separators, in order; a text with n separators has n+1 fields. *)
Fixpoint Split (s : string) (sep : ascii) : list string :=
  match s with
  | EmptyString => [EmptyString]
  | String c r =>
      if Ascii.eqb c sep then EmptyString :: Split r sep
      else match Split r sep with
           | [] => [String c EmptyString]
           | f :: fs => String c f :: fs
           end
  end.

Definition lower_byte (c : ascii) : ascii :=
  let n := N_of_ascii c in
  if (65 <=? n)%N && (n <=? 90)%N then ascii_of_N (n + 32) else c.

(** [strings.ToLower].  ASCII capitals are lowered.  Go lowers runes, and
    exactly two runes outside ASCII have an ASCII lower case: U+0130
    (bytes C4 B0) gives [i] and U+212A (bytes E2 84 AA) gives [k].  Every
    other rune outside ASCII is mapped to a rune outside ASCII; the model
    leaves its bytes as they are, which is indistinguishable to
    resolver.go, where a lowered text is only compared with ASCII words. *)
Fixpoint ToLower (s : string) : string :=
  match s with
  | EmptyString => EmptyString
  | String "196" (String "176" r) => String "i" (ToLower r)
  | String "226" (String "132" (String "170" r)) => String "k" (ToLower r)
  | String c r => String (lower_byte c) (ToLower r)
  end.

End strings.

(** [s[0]] and [s[n:]] on a Go string: indexing past the end panics, so the
    first byte is an [option]; resolver.go slices only below the length. *)
Definition byte0 (s : string) : option ascii :=
  match s with
  | EmptyString => None
  | String c _ => Some c
  end.

Fixpoint slice_from (n : nat) (s : string) : string :=
  match n, s with
  | O, _ => s
  | S n', String _ r => slice_from n' r
  | S _, EmptyString => EmptyString
  end.

(** [errors.New] values are their messages; [nil] is [None]. *)
Definition error := option string.

(** ** The tables of [init] *)

Definition bool_values : gmap string bool :=
  <["off" := false]> (<["on" := true]> (<["false" := false]> (<["true" := true]>
  (<["no" := false]> (<["n" := false]> (<["yes" := true]> (<["y" := true]> ∅))))))).

Definition null_values : gmap string bool :=
  <["" := true]> (<["NULL" := true]> (<["Null" := true]> (<["null" := true]>
  (<["~" := true]> ∅)))).

(** [m[k]] on a [map[string]bool]: a missing key reads as [false]. *)
Definition index_bool (m : gmap string bool) (k : string) : bool :=
  default false (m !! k).

(** ** Machine integers

    [int64] and [uint64] values are the [Z] they denote; an operation that
    can leave the range is followed by its wrap-around. *)

Definition wrap_int (bits x : Z) : Z :=
  (x + 2 ^ (bits - 1)) mod 2 ^ bits - 2 ^ (bits - 1).

Definition wrap_uint (bits x : Z) : Z := x mod 2 ^ bits.

Definition mul64 (a b : Z) : Z := wrap_int 64 (a * b).
Definition add64 (a b : Z) : Z := wrap_int 64 (a + b).
Definition umul64 (a b : Z) : Z := wrap_uint 64 (a * b).
Definition uadd64 (a b : Z) : Z := wrap_uint 64 (a + b).

(** Package [strconv]: [ParseUint], [ParseInt] and [Atoi] with an explicit
    base from 2 to 36, as resolver.go calls them (it never passes base 0, so
    no prefix and no underscore is accepted by the parser itself). *)
Module strconv.

(** The size of [int] and [uint]: the platform is a 64-bit one. *)
Definition IntSize : Z := 64.

Inductive NumError := ErrSyntax | ErrRange | ErrBase.

Definition code (c : ascii) : Z := Z.of_N (N_of_ascii c).

(** The value of a digit byte: [0-9], then letters of either case from 10. *)
Definition digit (c : ascii) : option Z :=
  let n := code c in
  if (48 <=? n) && (n <=? 57) then Some (n - 48)
  else if (97 <=? Z.lor n 32) && (Z.lor n 32 <=? 122) then Some (Z.lor n 32 - 97 + 10)
  else None.

Fixpoint ParseUint_loop (s : string) (base maxVal cutoff n : Z)
  : Z * option NumError :=
  match s with
  | EmptyString => (n, None)
  | String c r =>
      match digit c with
      | None => (0, Some ErrSyntax)
      | Some d =>
          if d >=? base then (0, Some ErrSyntax)
          else if n >=? cutoff then (maxVal, Some ErrRange)
          else
            let n1 := n * base + d in
            if n1 >? maxVal then (maxVal, Some ErrRange)
            else ParseUint_loop r base maxVal cutoff n1
      end
  end.

Definition ParseUint (s : string) (base bitSize : Z) : Z * option NumError :=
  match s with
  | EmptyString => (0, Some ErrSyntax)
  | _ =>
      if (2 <=? base) && (base <=? 36) then
        let bitSize := if bitSize =? 0 then IntSize else bitSize in
        let cutoff := (2 ^ 64 - 1) / base + 1 in
        let maxVal := 2 ^ bitSize - 1 in
        ParseUint_loop s base maxVal cutoff 0
      else (0, Some ErrBase)
  end.

Definition ParseInt (s : string) (base bitSize : Z) : Z * option NumError :=
  match s with
  | EmptyString => (0, Some ErrSyntax)
  | String c r =>
      let neg := Ascii.eqb c "-" in
      let s' := if Ascii.eqb c "+" || neg then r else s in
      match ParseUint s' base bitSize with
      | (_, Some ErrSyntax) => (0, Some ErrSyntax)
      | (_, Some ErrBase) => (0, Some ErrBase)
      | (un, _) =>
          let bitSize := if bitSize =? 0 then IntSize else bitSize in
          let cutoff := 2 ^ (bitSize - 1) in
          if negb neg && (un >=? cutoff) then (cutoff - 1, Some ErrRange)
          else if neg && (un >? cutoff) then (- cutoff, Some ErrRange)
          else (if neg then - un else un, None)
      end
  end.

Definition Atoi (s : string) : Z * option NumError := ParseInt s 10 0.

End strconv.

(** Package [time]: [time.Date] with [time.UTC] or a [time.FixedZone].  A
    [Time] is the instant (seconds since the Unix epoch and nanoseconds
    within the second) with the location it is shown in. *)
Module time.

Inductive Location := UTC | FixedZone (name : string) (offset : Z).

Record Time := { unix : Z; nsec : Z; loc : Location }.

Definition Millisecond : Z := 1000000.

(** [norm]: carry [lo] into [hi] so that [0 <= lo < base]. *)
Definition norm (hi lo base : Z) : Z * Z :=
  let '(hi, lo) :=
    if lo <? 0 then
      let n := (- lo - 1) ÷ base + 1 in (hi - n, lo + n * base)
    else (hi, lo) in
  if lo >=? base then
    let n := lo ÷ base in (hi + n, lo - n * base)
  else (hi, lo).

Definition daysBefore : list Z :=
  [0; 31; 31 + 28; 31 + 28 + 31; 31 + 28 + 31 + 30; 31 + 28 + 31 + 30 + 31;
   31 + 28 + 31 + 30 + 31 + 30; 31 + 28 + 31 + 30 + 31 + 30 + 31;
   31 + 28 + 31 + 30 + 31 + 30 + 31 + 31;
   31 + 28 + 31 + 30 + 31 + 30 + 31 + 31 + 30;
   31 + 28 + 31 + 30 + 31 + 30 + 31 + 31 + 30 + 31;
   31 + 28 + 31 + 30 + 31 + 30 + 31 + 31 + 30 + 31 + 30;
   31 + 28 + 31 + 30 + 31 + 30 + 31 + 31 + 30 + 31 + 30 + 31].

Definition isLeap (year : Z) : bool :=
  (Z.rem year 4 =? 0) && (negb (Z.rem year 100 =? 0) || (Z.rem year 400 =? 0)).

Definition absoluteZeroYear : Z := -292277022399.
Definition secondsPerDay : Z := 86400.
Definition absoluteToInternal : Z := -9223371966579724800.
Definition internalToUnix : Z := -62135596800.

(** Days from 1 January of the absolute zero year to 1 January of [year]. *)
Definition daysSinceEpoch (year : Z) : Z :=
  let y := year - absoluteZeroYear in
  let n := y / 400 in
  let y := y - 400 * n in
  let d := 146097 * n in
  let n := y / 100 in
  let y := y - 100 * n in
  let d := d + 36524 * n in
  let n := y / 4 in
  let y := y - 4 * n in
  let d := d + 1461 * n in
  d + 365 * y.

(** [time.Date]: every field may be out of its usual range and is carried
    into the next one.  The sums are those of the Go code; its unsigned
    64-bit arithmetic is exact on them and the final conversion to [int64]
    is the wrap-around below. *)
Definition Date (year month day hour min sec nsec : Z) (loc : Location) : Time :=
  let m := month - 1 in
  let '(year, m) := norm year m 12 in
  let month := m + 1 in
  let '(sec, nsec) := norm sec nsec 1000000000 in
  let '(min, sec) := norm min sec 60 in
  let '(hour, min) := norm hour min 60 in
  let '(day, hour) := norm day hour 24 in
  let d := daysSinceEpoch year in
  let d := d + nth (Z.to_nat (month - 1)) daysBefore 0 in
  let d := if isLeap year && (month >=? 3) then d + 1 else d in
  let d := d + (day - 1) in
  let abs := d * secondsPerDay + (hour * 3600 + min * 60 + sec) in
  let unix := wrap_int 64 (abs + (absoluteToInternal + internalToUnix)) in
  let unix :=
    match loc with
    | UTC => unix
    | FixedZone _ offset => unix - offset
    end in
  {| unix := unix; nsec := nsec; loc := loc |}.

(** The zero [Time]: 1 January of year 1, 00:00:00 UTC. *)
Definition zero : Time := {| unix := -62135596800; nsec := 0; loc := UTC |}.

End time.

(** [float64] values are IEEE 754 binary64 numbers, [spec_float]s with
    precision 53 and exponent bound 1024; package [math] gives the special
    values. *)
Module math.

Definition float64 := spec_float.

Definition mul : float64 -> float64 -> float64 := SFmul 53 1024.
Definition add : float64 -> float64 -> float64 := SFadd 53 1024.
Definition ltb : float64 -> float64 -> bool := SFltb.
Definition leb : float64 -> float64 -> bool := SFleb.

(** The conversion [float64(n)] of an integer. *)
Definition of_int (n : Z) : float64 := binary_normalize 53 1024 n 0 false.

(** The conversion [float32(x)], kept as the [spec_float] it rounds to. *)
Definition to_float32 (x : float64) : spec_float :=
  match x with
  | S754_finite s m e => binary_normalize 24 128 (cond_Zopp s (Zpos m)) e s
  | _ => x
  end.

Definition Inf (sign : Z) : float64 := S754_infinity (sign <? 0).
Definition NaN : float64 := S754_nan.

Definition MaxFloat32 : float64 := binary_normalize 53 1024 (2 ^ 24 - 1) 104 false.
Definition MaxFloat64 : float64 := binary_normalize 53 1024 (2 ^ 53 - 1) 971 false.

End math.

(** Package [regexp], for the syntax the two patterns of [init] use:
    literals, classes, concatenation, alternation, greedy [?], [*] and [+],
    capturing and non-capturing groups.  Both patterns are anchored at both
    ends, so a match is a match of the whole text.  The matcher is the
    backtracking one, which prefers what Go's leftmost-first matching
    prefers: the first alternative, and one more repetition. *)
Module regexp.

Inductive Regexp :=
| Lit (c : ascii)                       (* a literal byte *)
| Class (ranges : list (ascii * ascii)) (* [a-bc-d...] *)
| Cat (r1 r2 : Regexp)                  (* r1r2 *)
| Alt (r1 r2 : Regexp)                  (* r1|r2 *)
| Quest (r : Regexp)                    (* r? *)
| Star (r : Regexp)                     (* r* *)
| Plus (r : Regexp)                     (* r+ *)
| Capture (i : nat) (r : Regexp)        (* (r), the i-th group *)
| Empty.                                (* the empty pattern *)

Definition in_class (c : ascii) (ranges : list (ascii * ascii)) : bool :=
  existsb (fun '(lo, hi) => (N_of_ascii lo <=? N_of_ascii c)%N
                            && (N_of_ascii c <=? N_of_ascii hi)%N) ranges.

(** The text consumed between the input [s] and the rest [s']. *)
Definition consumed (s s' : string) : string :=
  String.substring 0 (String.length s - String.length s') s.

Definition set_group (i : nat) (x : string) (caps : list string) : list string :=
  <[i := x]> caps.

Definition orelse {A} (x : option A) (y : option A) : option A :=
  match x with Some _ => x | None => y end.

(** The continuation of a match: what is left of the text, and the groups. *)
Definition cont := string -> list string -> option (list string).

(** Greedy repetition of the matcher [m], then [k]: one more [m] is tried
    before [k]; an iteration that consumes nothing is not repeated. *)
Fixpoint repeat_loop (m : string -> list string -> cont -> option (list string))
    (k : cont) (fuel : nat) (s : string) (caps : list string) : option (list string) :=
  match fuel with
  | O => k s caps
  | S fuel' =>
      orelse
        (m s caps (fun s' caps' =>
           if (String.length s' <? String.length s)%nat
           then repeat_loop m k fuel' s' caps' else None))
        (k s caps)
  end.

(** [run r s caps k]: match [r] at the start of [s], then continue with
    [k] on what is left; [caps] holds the text of the groups seen so far. *)
Fixpoint run (r : Regexp) (s : string) (caps : list string) (k : cont)
  : option (list string) :=
  match r with
  | Lit c =>
      match s with
      | String c' s' => if Ascii.eqb c c' then k s' caps else None
      | EmptyString => None
      end
  | Class ranges =>
      match s with
      | String c' s' => if in_class c' ranges then k s' caps else None
      | EmptyString => None
      end
  | Cat r1 r2 => run r1 s caps (fun s' caps' => run r2 s' caps' k)
  | Alt r1 r2 => orelse (run r1 s caps k) (run r2 s caps k)
  | Quest r1 => orelse (run r1 s caps k) (k s caps)
  | Star r1 => repeat_loop (run r1) k (String.length s) s caps
  | Plus r1 =>
      run r1 s caps (fun s1 caps1 =>
        repeat_loop (run r1) k (String.length s1) s1 caps1)
  | Capture i r1 =>
      run r1 s caps (fun s' caps' => k s' (set_group i (consumed s s') caps'))
  | Empty => k s caps
  end.

(** [^r$] with [n] groups: [FindStringSubmatch] gives the whole match and
    the text of each group (empty for a group that took no part), or
    [nil], here [None], when the text does not match. *)
Definition FindStringSubmatch (n : nat) (r : Regexp) (s : string)
  : option (list string) :=
  run r s (replicate (S n) EmptyString)
      (fun s' caps => match s' with
                      | EmptyString => Some (set_group 0 s caps)
                      | _ => None
                      end).

End regexp.

(** [matches[i]] on the result of a successful match (the index is always
    within the groups of the pattern). *)
Definition group (matches : list string) (i : nat) : string :=
  nth i matches EmptyString.

Import regexp.

Definition digit_class : Regexp := Class [("0", "9")]%char.
Definition blank_class : Regexp := Class [(" ", " "); ("009", "009")]%char.

Fixpoint cat (rs : list Regexp) : Regexp :=
  match rs with
  | [] => Empty
  | [r] => r
  | r :: rs' => Cat r (cat rs')
  end.

(** [^([0-9][0-9][0-9][0-9])-([0-9][0-9]?)-([0-9][0-9]?)$] *)
Definition ymd_regexp : Regexp :=
  cat [Capture 1 (cat [digit_class; digit_class; digit_class; digit_class]);
       Lit "-";
       Capture 2 (cat [digit_class; Quest digit_class]);
       Lit "-";
       Capture 3 (cat [digit_class; Quest digit_class])].

(** The second pattern, written here with the groups on lines of their own:
    {v
    ^ ([0-9][0-9][0-9][0-9]) - ([0-9][0-9]?) - ([0-9][0-9]?)
      (?: (?: [Tt] | [ \t]+ )
          ([0-9][0-9]?) : ([0-9][0-9]) : ([0-9][0-9])
          (?: \. ([0-9]* ) )?
          (?: [ \t]* (?: Z | ([-+][0-9][0-9]?) (?: : ([0-9][0-9])? )? ) )?
      )? $
    v} *)
Definition timestamp_regexp : Regexp :=
  cat [Capture 1 (cat [digit_class; digit_class; digit_class; digit_class]);
       Lit "-";
       Capture 2 (cat [digit_class; Quest digit_class]);
       Lit "-";
       Capture 3 (cat [digit_class; Quest digit_class]);
       Quest (cat
         [Alt (Class [("T", "T"); ("t", "t")]%char) (Plus blank_class);
          Capture 4 (cat [digit_class; Quest digit_class]);
          Lit ":";
          Capture 5 (cat [digit_class; digit_class]);
          Lit ":";
          Capture 6 (cat [digit_class; digit_class]);
          Quest (cat [Lit "."; Capture 7 (Star digit_class)]);
          Quest (cat
            [Star blank_class;
             Alt (Lit "Z")
                 (cat [Capture 8 (cat [Class [("-", "-"); ("+", "+")]%char;
                                       digit_class; Quest digit_class]);
                       Quest (cat [Lit ":";
                                   Quest (Capture 9 (cat [digit_class; digit_class]))])])])])].

(** Package [reflect]: the target of a conversion is a settable
    [reflect.Value]; the model keeps its type and gives back what is stored.
    A type is its kind and its name ([Type.String]); two types are the same
    when both agree.  An interface type has its method set besides. *)
Module reflect.

Inductive Kind :=
| Invalid | Bool | Int | Int8 | Int16 | Int32 | Int64
| Uint | Uint8 | Uint16 | Uint32 | Uint64 | Uintptr
| Float32 | Float64 | Complex64 | Complex128
| Array | Chan | Func | Interface | Map | Ptr | Slice | String_ | Struct
| UnsafePointer.

Definition Kind_String (k : Kind) : string :=
  match k with
  | Invalid => "invalid" | Bool => "bool" | Int => "int" | Int8 => "int8"
  | Int16 => "int16" | Int32 => "int32" | Int64 => "int64" | Uint => "uint"
  | Uint8 => "uint8" | Uint16 => "uint16" | Uint32 => "uint32"
  | Uint64 => "uint64" | Uintptr => "uintptr" | Float32 => "float32"
  | Float64 => "float64" | Complex64 => "complex64"
  | Complex128 => "complex128" | Array => "array" | Chan => "chan"
  | Func => "func" | Interface => "interface" | Map => "map" | Ptr => "ptr"
  | Slice => "slice" | String_ => "string" | Struct => "struct"
  | UnsafePointer => "unsafe.Pointer"
  end.

(** The method set of an interface type, as far as a store into it can
    tell for the values of resolver.go: [string], [bool], [int64],
    [float64] and [[]byte] have no method and implement only an interface
    type without methods; [time.Time] implements an interface type all of
    whose methods it has.  The field is not looked at on a type of another
    kind. *)
Inductive MethodSet :=
| NoMethod          (* interface{} and every interface type without methods *)
| MethodsOfTime     (* some methods, each of them one of time.Time *)
| OtherMethods.     (* a method that time.Time does not have *)

Record Type_ := { Kind_of : Kind; String_of : string; Methods_of : MethodSet }.

#[global] Instance Kind_eq_dec : EqDecision Kind.
Proof. solve_decision. Defined.

Definition Type_eqb (a b : Type_) : bool :=
  bool_decide (Kind_of a = Kind_of b) && String.eqb (String_of a) (String_of b).

Definition int8_type : Type_ := {| Kind_of := Int8; String_of := "int8"; Methods_of := NoMethod |}.
Definition uint8_type : Type_ := {| Kind_of := Uint8; String_of := "uint8"; Methods_of := NoMethod |}.
Definition int64_type : Type_ := {| Kind_of := Int64; String_of := "int64"; Methods_of := NoMethod |}.
Definition float64_type : Type_ := {| Kind_of := Float64; String_of := "float64"; Methods_of := NoMethod |}.
Definition bool_type : Type_ := {| Kind_of := Bool; String_of := "bool"; Methods_of := NoMethod |}.
Definition Time_type : Type_ := {| Kind_of := Struct; String_of := "time.Time"; Methods_of := NoMethod |}.

(** What a target can hold.  [VNil] is the nil interface; [VZero t] is the
    zero value of a type with no other representation here. *)
Inductive Value :=
| VNil
| VString (s : string)
| VBool (b : bool)
| VInt (n : Z)
| VUint (n : Z)
| VFloat (f : math.float64)
| VTime (t : time.Time)
| VBytes (b : string)
| VZero (t : Type_).

(** A call that writes through the target and returns an [error]:
    [Stored x] is "x was stored and nil returned", [Failed msg] is "the
    error msg was returned and nothing stored". *)
Inductive outcome :=
| Stored (x : Value)
| Failed (msg : string)
| Panic.

(** [reflect.Zero(t)] *)
Definition Zero (t : Type_) : Value :=
  match Kind_of t with
  | Bool => VBool false
  | Int | Int8 | Int16 | Int32 | Int64 => VInt 0
  | Uint | Uint8 | Uint16 | Uint32 | Uint64 | Uintptr => VUint 0
  | Float32 | Float64 => VFloat (S754_zero false)
  | String_ => VString ""
  | Interface => VNil
  | Struct => if Type_eqb t Time_type then VTime time.zero else VZero t
  | _ => VZero t
  end.

(** The size in bits of the integer kinds. *)
Definition int_bits (k : Kind) : option Z :=
  match k with
  | Int => Some strconv.IntSize
  | Int8 => Some 8 | Int16 => Some 16 | Int32 => Some 32 | Int64 => Some 64
  | _ => None
  end.

Definition uint_bits (k : Kind) : option Z :=
  match k with
  | Uint | Uintptr => Some strconv.IntSize
  | Uint8 => Some 8 | Uint16 => Some 16 | Uint32 => Some 32 | Uint64 => Some 64
  | _ => None
  end.

(** [Type.Bits]: panics ([None]) on a kind that is not a sized number. *)
Definition Bits (t : Type_) : option Z :=
  match Kind_of t with
  | Float32 => Some 32 | Float64 => Some 64
  | Complex64 => Some 64 | Complex128 => Some 128
  | k => match int_bits k with Some b => Some b | None => uint_bits k end
  end.

(** [Value.OverflowInt]: [x] differs from its low [bitSize] bits
    sign-extended, [(x << (64 - bitSize)) >> (64 - bitSize)]. *)
Definition OverflowInt (t : Type_) (x : Z) : option bool :=
  match int_bits (Kind_of t) with
  | Some bitSize =>
      let trunc := Z.shiftr (wrap_int 64 (Z.shiftl x (64 - bitSize))) (64 - bitSize) in
      Some (negb (x =? trunc))
  | None => None
  end.

Definition OverflowUint (t : Type_) (x : Z) : option bool :=
  match uint_bits (Kind_of t) with
  | Some bitSize =>
      let trunc := Z.shiftr (wrap_uint 64 (Z.shiftl x (64 - bitSize))) (64 - bitSize) in
      Some (negb (x =? trunc))
  | None => None
  end.

Definition overflowFloat32 (x : math.float64) : bool :=
  let x := if math.ltb x (S754_zero false) then SFopp x else x in
  math.ltb math.MaxFloat32 x && math.leb x math.MaxFloat64.

Definition OverflowFloat (t : Type_) (x : math.float64) : option bool :=
  match Kind_of t with
  | Float32 => Some (overflowFloat32 x)
  | Float64 => Some false
  | _ => None
  end.

(** The setters convert to the width of the target and panic on a target
    of another kind. *)
Definition SetInt (t : Type_) (x : Z) : outcome :=
  match int_bits (Kind_of t) with
  | Some bitSize => Stored (VInt (wrap_int bitSize x))
  | None => Panic
  end.

Definition SetUint (t : Type_) (x : Z) : outcome :=
  match uint_bits (Kind_of t) with
  | Some bitSize => Stored (VUint (wrap_uint bitSize x))
  | None => Panic
  end.

Definition SetFloat (t : Type_) (x : math.float64) : outcome :=
  match Kind_of t with
  | Float32 => Stored (VFloat (math.to_float32 x))
  | Float64 => Stored (VFloat x)
  | _ => Panic
  end.

Definition SetBool (t : Type_) (b : bool) : outcome :=
  match Kind_of t with
  | Bool => Stored (VBool b)
  | _ => Panic
  end.

Definition SetString (t : Type_) (s : string) : outcome :=
  match Kind_of t with
  | String_ => Stored (VString s)
  | _ => Panic
  end.

(** [v.Set(reflect.ValueOf(x))] on a target of kind [Interface].  The zero
    [Value] that [reflect.ValueOf(nil)] gives makes [Set] panic.  Another
    value is stored when its type implements the interface type of the
    target, and [Set] panics when it does not.  ([VUint], [VBytes] and
    [VZero], which resolver.go never stores into an interface, are values
    of types without methods.) *)
Definition Set_Interface (t : Type_) (x : Value) : outcome :=
  match x with
  | VNil => Panic
  | VTime _ =>
      match Methods_of t with
      | NoMethod | MethodsOfTime => Stored x
      | OtherMethods => Panic
      end
  | _ =>
      match Methods_of t with
      | NoMethod => Stored x
      | MethodsOfTime | OtherMethods => Panic
      end
  end.

(** [v.Set(reflect.ValueOf(x))] for a [time.Time]: the target is the
    type itself or an interface. *)
Definition Set_Time (t : Type_) (x : time.Time) : outcome :=
  if Type_eqb t Time_type then Stored (VTime x)
  else match Kind_of t with
       | Interface => Set_Interface t (VTime x)
       | _ => Panic
       end.

End reflect.

Import reflect.

(** ** resolver.go *)

(** The fields of [yaml_event_t] that the resolver reads. *)
Record yaml_event_t := { value : string; tag : string; implicit : bool }.

Definition signs : string := "-+".
Definition nulls : string := "~nN".
Definition bools : string := "tTfFyYnNoO".

(** [bytes.IndexByte(b, c) != -1] *)
Definition has_byte (b : string) (c : ascii) : bool := strings.Contains b c.

Definition byteSliceType : Type_ := {| Kind_of := Slice; String_of := "[]uint8"; Methods_of := NoMethod |}.

Definition resolve_bool (val : string) (v : Type_) : outcome :=
  match bool_values !! strings.ToLower val with
  | None => Failed ("Invalid boolean: " +:+ val)
  | Some b => SetBool v b
  end.

(** The loop of [resolve_int] over the groups of a sexagesimal text, last
    group first; [inl] is an early return, [inr] the sum after the loop. *)
Fixpoint resolve_int_groups (v : Type_) (val : string) (digits : list string)
    (value bes : Z) : outcome + Z :=
  match digits with
  | [] => inr value
  | d :: digits' =>
      let '(n, err) := strconv.ParseInt d 10 64 in
      let n := mul64 n bes in
      match err with
      | Some _ => inl (Failed ("Integer: " +:+ val))
      | None =>
          match OverflowInt v n with
          | None => inl Panic
          | Some true => inl (Failed ("Integer: " +:+ val))
          | Some false =>
              resolve_int_groups v val digits' (add64 value n) (mul64 bes 60)
          end
      end
  end.

(** The last lines of [resolve_int]: parse in the base, apply the sign,
    check, store. *)
Definition resolve_int_base (v : Type_) (val : string) (base sign : Z) : outcome :=
  let '(value, err) := strconv.ParseInt val base 64 in
  let value := mul64 value sign in
  match err with
  | Some _ => Failed ("Integer: " +:+ val)
  | None =>
      match OverflowInt v value with
      | None => Panic
      | Some true => Failed ("Integer: " +:+ val)
      | Some false => SetInt v value
      end
  end.

Definition resolve_int (val : string) (v : Type_) : outcome :=
  let val := strings.Replace val "_" "" in
  match byte0 val with
  | None => Panic
  | Some c =>
      let '(sign, val) :=
        if Ascii.eqb c "-" then (-1, slice_from 1 val)
        else if Ascii.eqb c "+" then (1, slice_from 1 val)
        else (1, val) in
      if String.eqb val "0" then Stored (Zero v)
      else if strings.HasPrefix val "0b" then resolve_int_base v (slice_from 2 val) 2 sign
      else if strings.HasPrefix val "0x" then resolve_int_base v (slice_from 2 val) 16 sign
      else
        match byte0 val with
        | None => Panic
        | Some c0 =>
            if Ascii.eqb c0 "0" then resolve_int_base v (slice_from 1 val) 8 sign
            else if strings.Contains val ":" then
              let digits := strings.Split val ":" in
              match resolve_int_groups v val (rev digits) 0 1 with
              | inl early => early
              | inr value => SetInt v (mul64 value sign)
              end
            else resolve_int_base v val 10 sign
        end
  end.

Fixpoint resolve_uint_groups (v : Type_) (val : string) (digits : list string)
    (value bes : Z) : outcome + Z :=
  match digits with
  | [] => inr value
  | d :: digits' =>
      let '(n, err) := strconv.ParseUint d 10 64 in
      let n := umul64 n bes in
      match err with
      | Some _ => inl (Failed ("Unsigned Integer: " +:+ val))
      | None =>
          match OverflowUint v n with
          | None => inl Panic
          | Some true => inl (Failed ("Unsigned Integer: " +:+ val))
          | Some false =>
              resolve_uint_groups v val digits' (uadd64 value n) (umul64 bes 60)
          end
      end
  end.

Definition resolve_uint_base (v : Type_) (val : string) (base : Z) : outcome :=
  let '(value, err) := strconv.ParseUint val base 64 in
  match err with
  | Some _ => Failed ("Unsigned Integer: " +:+ val)
  | None =>
      match OverflowUint v value with
      | None => Panic
      | Some true => Failed ("Unsigned Integer: " +:+ val)
      | Some false => SetUint v value
      end
  end.

Definition resolve_uint (val : string) (v : Type_) : outcome :=
  let val := strings.Replace val "_" "" in
  match byte0 val with
  | None => Panic
  | Some c =>
      if Ascii.eqb c "-" then Failed ("Unsigned int with negative value: " +:+ val)
      else
        let val := if Ascii.eqb c "+" then slice_from 1 val else val in
        if String.eqb val "0" then Stored (Zero v)
        else if strings.HasPrefix val "0b" then resolve_uint_base v (slice_from 2 val) 2
        else if strings.HasPrefix val "0x" then resolve_uint_base v (slice_from 2 val) 16
        else
          match byte0 val with
          | None => Panic
          | Some c0 =>
              if Ascii.eqb c0 "0" then resolve_uint_base v (slice_from 1 val) 8
              else if strings.Contains val ":" then
                let digits := strings.Split val ":" in
                match resolve_uint_groups v val (rev digits) 0 1 with
                | inl early => early
                | inr value => SetUint v value
                end
              else resolve_uint_base v val 10
          end
  end.

Definition resolve_time (val : string) (v : Type_) : outcome :=
  match FindStringSubmatch 3 ymd_regexp val with
  | Some matches =>
      let year := fst (strconv.Atoi (group matches 1)) in
      let month := fst (strconv.Atoi (group matches 2)) in
      let day := fst (strconv.Atoi (group matches 3)) in
      Set_Time v (time.Date year month day 0 0 0 0 time.UTC)
  | None =>
      match FindStringSubmatch 9 timestamp_regexp val with
      | None => Failed ("Unexpected timestamp: " +:+ val)
      | Some matches =>
          let year := fst (strconv.Atoi (group matches 1)) in
          let month := fst (strconv.Atoi (group matches 2)) in
          let day := fst (strconv.Atoi (group matches 3)) in
          let hour := fst (strconv.Atoi (group matches 4)) in
          let min := fst (strconv.Atoi (group matches 5)) in
          let sec := fst (strconv.Atoi (group matches 6)) in
          let nsec :=
            if negb (String.eqb (group matches 7) "") then
              let millis := fst (strconv.Atoi (group matches 7)) in
              mul64 millis time.Millisecond
            else 0 in
          let loc :=
            match group matches 8 with
            | EmptyString => time.UTC
            | String sign rest =>
                let hr := fst (strconv.Atoi rest) in
                let min :=
                  if negb (String.eqb (group matches 9) "")
                  then fst (strconv.Atoi (group matches 9)) else 0 in
                let zoneOffset := (hr * 60 + min) * 60 in
                let zoneOffset :=
                  if Ascii.eqb sign "-" then - zoneOffset else zoneOffset in
                time.FixedZone "" zoneOffset
            end in
          Set_Time v (time.Date year month day hour min sec nsec loc)
      end
  end.

(** What [resolveInterface] gives back: the value returned, or a panic. *)
Inductive returned :=
| Returns (x : Value)
| Panics.

(** A converter called on a fresh local of the type and tested with
    [== nil]: on success the local is returned, on an error the next
    attempt [otherwise] is made. *)
Definition attempt (o : outcome) (otherwise : returned) : returned :=
  match o with
  | Stored x => Returns x
  | Failed _ => otherwise
  | Panic => Panics
  end.

(** [strconv.ParseFloat] and [base64.StdEncoding.Decode] are taken as they
    are: whatever the library does, as functions of the text (and of the
    bit size).  [ParseFloat] gives the number and the error; [Decode] gives
    the decoded bytes [b[0:n]] and the error. *)
Section resolver.

Variable ParseFloat : string -> Z -> math.float64 * error.
Variable Decode : string -> string * error.

Fixpoint resolve_float_groups (v : Type_) (val : string) (bits : Z)
    (digits : list string) (value bes : math.float64) : outcome + math.float64 :=
  match digits with
  | [] => inr value
  | d :: digits' =>
      let '(n, err) := ParseFloat d bits in
      let n := math.mul n bes in
      match err with
      | Some _ => inl (Failed ("Float: " +:+ val))
      | None =>
          match OverflowFloat v n with
          | None => inl Panic
          | Some true => inl (Failed ("Float: " +:+ val))
          | Some false =>
              resolve_float_groups v val bits digits' (math.add value n)
                                   (math.mul bes (math.of_int 60))
          end
      end
  end.

Definition resolve_float (val : string) (v : Type_) : outcome :=
  let val := strings.Replace val "_" "" in
  match byte0 val with
  | None => Panic
  | Some c =>
      let '(sign, val) :=
        if Ascii.eqb c "-" then (-1, slice_from 1 val)
        else if Ascii.eqb c "+" then (1, slice_from 1 val)
        else (1, val) in
      let valLower := strings.ToLower val in
      if String.eqb valLower ".inf" then SetFloat v (math.Inf sign)
      else if String.eqb valLower ".nan" then SetFloat v math.NaN
      else
        match Bits v with
        | None => Panic
        | Some bits =>
            if strings.Contains val ":" then
              let digits := strings.Split val ":" in
              match resolve_float_groups v val bits (rev digits)
                      (S754_zero false) (math.of_int 1) with
              | inl early => early
              | inr value => SetFloat v (math.mul value (math.of_int sign))
              end
            else
              let '(value, err) := ParseFloat val bits in
              let value := math.mul value (math.of_int sign) in
              match err with
              | Some _ => Failed ("Float: " +:+ val)
              | None =>
                  match OverflowFloat v value with
                  | None => Panic
                  | Some true => Failed ("Float: " +:+ val)
                  | Some false => SetFloat v value
                  end
              end
        end
  end.

Definition resolveInterface (event : yaml_event_t) : returned :=
  if (String.length (value event) =? 0)%nat then Returns VNil
  else
    let val := value event in
    if (String.length (tag event) =? 0)%nat && negb (implicit event)
    then Returns (VString val)
    else
      match byte0 val with
      | None => Panics
      | Some c =>
          let numeric (sign : bool) :=
            attempt (resolve_int val int64_type)
              (attempt (resolve_float val float64_type)
                 (if negb sign
                  then attempt (resolve_time val Time_type)
                         (Returns (VString (value event)))
                  else Returns (VString (value event)))) in
          if has_byte signs c then numeric true
          else if (48 <=? strconv.code c) && (strconv.code c <=? 57) then numeric false
          else if has_byte nulls c then
            if index_bool null_values val then Returns VNil
            else attempt (resolve_bool val bool_type)
                   (Returns (VString (value event)))
          else if Ascii.eqb c "." then
            attempt (resolve_float val float64_type)
              (Returns (VString (value event)))
          else if has_byte bools c then
            attempt (resolve_bool val bool_type)
              (Returns (VString (value event)))
          else Returns (VString (value event))
      end.

Definition resolve (event : yaml_event_t) (v : Type_) : outcome :=
  let val := value event in
  if index_bool null_values val then Stored (Zero v)
  else
    match Kind_of v with
    | String_ => SetString v val
    | Bool => resolve_bool val v
    | Int | Int8 | Int16 | Int32 | Int64 => resolve_int val v
    | Uint | Uint8 | Uint16 | Uint32 | Uint64 => resolve_uint val v
    | Float32 | Float64 => resolve_float val v
    | Interface =>
        match resolveInterface event with
        | Panics => Panic
        | Returns x => Set_Interface v x
        end
    | Struct => resolve_time val v
    | Slice =>
        if negb (Type_eqb v byteSliceType)
        then Failed ("Cannot resolve into " +:+ String_of v)
        else
          let '(b, err) := Decode (value event) in
          match err with
          | Some msg => Failed msg
          | None => Stored (VBytes b)
          end
    | k => Failed ("Resolve failed for " +:+ Kind_String k)
    end.

End resolver.

(** ** Instances of the two library functions

    They are used to run the resolver on examples. *)

(** The digits of a decimal text, most significant first, as a number. *)
Fixpoint decimal_from (s : string) (acc : Z) : Z :=
  match s with
  | EmptyString => acc
  | String c r => decimal_from r (acc * 10 + (strconv.code c - 48))
  end.

Definition decimal (s : string) : Z := decimal_from s 0.

Definition is_digit (c : ascii) : bool :=
  (48 <=? strconv.code c) && (strconv.code c <=? 57).

Fixpoint all_digits (s : string) : bool :=
  match s with
  | EmptyString => true
  | String c r => is_digit c && all_digits r
  end.

(** [ParseFloat] on the plain decimal texts [digits], [digits.digits],
    [.digits] and [digits.], with an optional sign: the nearest number of
    the precision asked for, ties to even, as Go gives it.  Go accepts more
    (exponents, hexadecimal, inf, nan); here every other text is a syntax
    error. *)
Definition ParseFloat_plain (s : string) (bitSize : Z) : math.float64 * error :=
  let syntax := (S754_zero false, Some "strconv.ParseFloat: invalid syntax") in
  let range := Some "strconv.ParseFloat: value out of range" in
  let '(neg, body) :=
    match s with
    | String "-" r => (true, r)
    | String "+" r => (false, r)
    | _ => (false, s)
    end in
  match strings.Split body "." with
  | [whole] =>
      if all_digits whole && negb (String.eqb whole "") then
        let x := if bitSize =? 32
                 then binary_normalize 24 128 (decimal whole) 0 neg
                 else binary_normalize 53 1024 (decimal whole) 0 neg in
        match x with
        | S754_zero _ => (S754_zero neg, None)
        | S754_infinity _ => (S754_infinity neg, range)
        | _ => (if neg then SFopp x else x, None)
        end
      else syntax
  | [whole; frac] =>
      if all_digits whole && all_digits frac && negb (String.eqb (whole +:+ frac) "") then
        match decimal (whole +:+ frac) with
        | Zpos m =>
            let num := S754_finite neg m 0 in
            let den := S754_finite false (Z.to_pos (10 ^ Z.of_nat (String.length frac))) 0 in
            (if bitSize =? 32 then SFdiv 24 128 num den else SFdiv 53 1024 num den, None)
        | _ => (S754_zero neg, None)
        end
      else syntax
  | _ => syntax
  end.

(** [base64.StdEncoding.Decode] on padded input: groups of four bytes of the
    alphabet, the last one possibly ending in [=] or [==]; line breaks are
    skipped.  The offset that Go reports in the error is left out. *)
Definition base64_value (c : ascii) : option Z :=
  let n := strconv.code c in
  if (65 <=? n) && (n <=? 90) then Some (n - 65)
  else if (97 <=? n) && (n <=? 122) then Some (n - 97 + 26)
  else if (48 <=? n) && (n <=? 57) then Some (n - 48 + 52)
  else if n =? 43 then Some 62
  else if n =? 47 then Some 63
  else None.

Definition byte_of (n : Z) : ascii := ascii_of_N (Z.to_N (n mod 256)).

Fixpoint base64_groups (s : string) : option string :=
  match s with
  | EmptyString => Some EmptyString
  | String a (String b (String c (String d r))) =>
      match base64_value a, base64_value b with
      | Some x, Some y =>
          let b0 := byte_of (x * 4 + y / 16) in
          match base64_value c, base64_value d, r with
          | Some z, Some w, _ =>
              match base64_groups r with
              | Some out =>
                  Some (String b0 (String (byte_of (y * 16 + z / 4))
                          (String (byte_of (z * 64 + w)) out)))
              | None => None
              end
          | Some z, None, EmptyString =>
              if Ascii.eqb d "=" then
                Some (String b0 (String (byte_of (y * 16 + z / 4)) EmptyString))
              else None
          | None, None, EmptyString =>
              if Ascii.eqb c "=" && Ascii.eqb d "=" then Some (String b0 EmptyString)
              else None
          | _, _, _ => None
          end
      | _, _ => None
      end
  | _ => None
  end.

Definition Decode_std (s : string) : string * error :=
  let s := strings.Replace (strings.Replace s "010" "") "013" "" in
  match base64_groups s with
  | Some out => (out, None)
  | None => (EmptyString, Some "illegal base64 data")
  end.

(** ** The words of the specification *)

(** [s] is [w] up to the case of its ASCII letters. *)
Definition same_letter (a b : ascii) : bool :=
  Ascii.eqb (strings.lower_byte a) (strings.lower_byte b).

Fixpoint casing_of (w s : string) : bool :=
  match w, s with
  | EmptyString, EmptyString => true
  | String a w', String b s' => same_letter a b && casing_of w' s'
  | _, _ => false
  end.


(** The [float64] numbers 30.5 and 90.5, as 61/2 and 181/2. *)
Definition float_30_5 : math.float64 := binary_normalize 53 1024 61 (-1) false.
Definition float_90_5 : math.float64 := binary_normalize 53 1024 181 (-1) false.

(** Texts of two and of four given bytes. *)
Definition text2 (a b : ascii) : string := String a (String b "").
Definition text4 (a b c d : ascii) : string :=
  String a (String b (String c (String d ""))).

(** The instant of a [Time], without the location it is shown in. *)
Definition instant (t : time.Time) : Z * Z := (time.unix t, time.nsec t).



(** A text with neither [_] nor [:], which are no digits and no signs. *)
Definition clean_byte (c : ascii) : bool :=
  negb (Ascii.eqb c "_") && negb (Ascii.eqb c ":").

Fixpoint clean (s : string) : bool :=
  match s with
  | EmptyString => true
  | String c r => clean_byte c && clean r
  end.

(** Congruence modulo 2^64, for rewriting under [+], [*] and [-]. *)
Definition M64 : Z := 2 ^ 64.

#[local] Instance eqm_equiv : Equivalence (eqm M64) := eqm_setoid M64.
#[local] Instance add_eqm : Proper (eqm M64 ==> eqm M64 ==> eqm M64) Z.add := Zplus_eqm M64.
#[local] Instance mul_eqm : Proper (eqm M64 ==> eqm M64 ==> eqm M64) Z.mul := Zmult_eqm M64.
#[local] Instance opp_eqm : Proper (eqm M64 ==> eqm M64) Z.opp := Zopp_eqm M64.

(** The text is a sign followed by nothing but underscores. *)
Definition bare_sign (val : string) : bool :=
  match val with
  | String c r => has_byte signs c && String.eqb (strings.Replace r "_" "") ""
  | EmptyString => false
  end.

(** The text, once its underscores are removed, starts with a sign. *)
Definition leading_sign (body : string) : bool :=
  match byte0 (strings.Replace body "_" "") with
  | Some c => has_byte signs c
  | None => false
  end.

(** The outcome with the stored 64-bit integer negated. *)
Definition negated (o : outcome) : outcome :=
  match o with
  | Stored (VInt n) => Stored (VInt (wrap_int 64 (- n)))
  | _ => o
  end.



(** The text is read by [ParseInt] in the base as the 64-bit integer [n]. *)
Definition parses (base : Z) (body : string) (n : Z) : Prop :=
  strconv.ParseInt body base 64 = (n, None).

(** The text starts with a byte that is neither a sign nor [0]. *)
Definition starts_plain (s : string) : bool :=
  match byte0 s with
  | Some c => negb (has_byte "-+0" c)
  | None => false
  end.

(** [strings.Join(groups, sep)] *)
Fixpoint Join (groups : list string) (sep : string) : string :=
  match groups with
  | [] => EmptyString
  | [g] => g
  | g :: groups' => g +:+ sep +:+ Join groups' sep
  end.

(** ** More words, for the properties beyond the specification *)

(** The text is one of the five keys of [null_values]. *)
Definition null_spelling (val : string) : bool :=
  existsb (String.eqb val) [""; "~"; "null"; "Null"; "NULL"].

(** The test of [resolveInterface] for a quoted scalar: no tag and not
    implicit. *)
Definition quoted (event : yaml_event_t) : bool :=
  (String.length (tag event) =? 0)%nat && negb (implicit event).

(** The kinds that [resolve] sends to [resolve_int], [resolve_uint] or
    [resolve_float]. *)
Definition numeric_kind (k : Kind) : bool :=
  match k with
  | Int | Int8 | Int16 | Int32 | Int64
  | Uint | Uint8 | Uint16 | Uint32 | Uint64
  | Float32 | Float64 => true
  | _ => false
  end.

(** The kinds that no case of the switch of [resolve] names. *)
Definition unsupported_kind (k : Kind) : bool :=
  match k with
  | Invalid | Uintptr | Complex64 | Complex128 | Array | Chan | Func | Map | Ptr
  | UnsafePointer => true
  | _ => false
  end.
(** The text has a digit that is no octal digit. *)
Definition has_89 (s : string) : bool :=
  strings.Contains s "8" || strings.Contains s "9".
(** The text starts with four decimal digits and a [-]. *)
Definition date_head (s : string) : bool :=
  match s with
  | String a (String b (String c (String d (String e _)))) =>
      is_digit a && is_digit b && is_digit c && is_digit d && Ascii.eqb e "-"
  | _ => false
  end.

(** ** Words for widths, sexagesimal floats and fractions of a second *)



(** The factor of an optional sign: [-1] for [-], [1] for [+] and for
    none. *)
Definition with_sign (sg : string) : Z :=
  if String.eqb sg "-" then -1 else 1.



(** The binary64 number 60^k, by repeated multiplication. *)
Fixpoint float_pow60 (k : nat) : math.float64 :=
  match k with
  | O => math.of_int 1
  | S k' => math.mul (float_pow60 k') (math.of_int 60)
  end.

(** The base-60 combination of float groups in binary64 arithmetic: the sum
    of [group[i] * 60^(n-1-i)], added from the last group to the first.
    [float_sum_from] takes the groups last first, the first of them with
    the weight 60^j. *)
Fixpoint float_sum_from (groups : list math.float64) (j : nat) (acc : math.float64)
  : math.float64 :=
  match groups with
  | [] => acc
  | g :: rest =>
      float_sum_from rest (S j) (math.add acc (math.mul g (float_pow60 j)))
  end.

Definition float_sexagesimal (groups : list math.float64) : math.float64 :=
  float_sum_from (rev groups) 0 (S754_zero false).

(** Every term of that sum passes the overflow check of the target. *)
Fixpoint float_terms_fit (v : Type_) (groups : list math.float64) (j : nat) : bool :=
  match groups with
  | [] => true
  | g :: rest =>
      match OverflowFloat v (math.mul g (float_pow60 j)) with
      | Some false => float_terms_fit v rest (S j)
      | _ => false
      end
  end.

(** [ParseFloat] reads each text as the number beside it, without error. *)
Definition reads (ParseFloat : string -> Z -> math.float64 * error) (bits : Z)
    (texts : list string) (numbers : list math.float64) : Prop :=
  Forall2 (fun d f => ParseFloat d bits = (f, None)) texts numbers.

(** The pattern writes group 7 only as what [[0-9]*] matched. *)
Fixpoint fraction_group (r : Regexp) : bool :=
  match r with
  | Capture i r1 =>
      if (i =? 7)%nat then
        match r1 with
        | Star (Class [(lo, hi)]) => Ascii.eqb lo "0" && Ascii.eqb hi "9"
        | _ => false
        end
      else fraction_group r1
  | Cat r1 r2 | Alt r1 r2 => fraction_group r1 && fraction_group r2
  | Quest r1 | Star r1 | Plus r1 => fraction_group r1
  | Lit _ | Class _ | Empty => true
  end.

(** [strconv.Atoi] with its error dropped, as [resolve_time] calls it. *)
Definition number (s : string) : Z := fst (strconv.Atoi s).

(** The count of milliseconds that [resolve_time] reads in the digits after
    the [.]: the decimal number they spell, or the largest [int64] when
    they spell more ([Atoi] then reports a range error, which is dropped). *)
Definition milliseconds (frac : string) : Z := Z.min (decimal frac) (2 ^ 63 - 1).

(** The location that [resolve_time] makes of the groups 8 and 9. *)
Definition zone (offset minutes : string) : time.Location :=
  match offset with
  | EmptyString => time.UTC
  | String sign rest =>
      let seconds :=
        (number rest * 60 + (if String.eqb minutes "" then 0 else number minutes)) * 60 in
      time.FixedZone "" (if Ascii.eqb sign "-" then - seconds else seconds)
  end.

(** The text does not start with a decimal digit. *)
Definition no_digit_first (s : string) : bool :=
  match s with
  | EmptyString => true
  | String c _ => negb (is_digit c)
  end.

(** Group 7 holds decimal digits only. *)
Definition digits_in_7 (caps : list string) : Prop :=
  all_digits (nth 7 caps "") = true.

(** A matcher keeps that, seen from its continuation. *)
Definition keeps_digits (m : string -> list string -> cont -> option (list string))
  : Prop :=
  forall s caps (k : cont) res,
    digits_in_7 caps -> m s caps k = Some res ->
    exists s' caps', digits_in_7 caps' /\ k s' caps' = Some res.

(** ** Properties *)

(** *** The models run *)

Example Date_unix_epoch :
  time.Date 1970 1 1 0 0 0 0 time.UTC
  = {| time.unix := 0; time.nsec := 0; time.loc := time.UTC |}.
Proof. vm_compute. reflexivity. Qed.

Example Date_zero_time : time.Date 1 1 1 0 0 0 0 time.UTC = time.zero.
Proof. vm_compute. reflexivity. Qed.

Example ParseInt_min :
  strconv.ParseInt "-9223372036854775808" 10 64 = (- 2 ^ 63, None).
Proof. vm_compute. reflexivity. Qed.

Example ParseInt_out_of_range :
  strconv.ParseInt "99999999999999999999" 10 64 = (2 ^ 63 - 1, Some strconv.ErrRange).
Proof. vm_compute. reflexivity. Qed.

Example ymd_regexp_groups :
  FindStringSubmatch 3 ymd_regexp "2002-12-14"
  = Some ["2002-12-14"; "2002"; "12"; "14"].
Proof. vm_compute. reflexivity. Qed.

Example timestamp_regexp_groups :
  FindStringSubmatch 9 timestamp_regexp "2001-12-14t21:59:43.10-05:00"
  = Some ["2001-12-14t21:59:43.10-05:00";
          "2001"; "12"; "14"; "21"; "59"; "43"; "10"; "-05"; "00"].
Proof. vm_compute. reflexivity. Qed.

Example timestamp_regexp_blank_zone :
  FindStringSubmatch 9 timestamp_regexp "2001-1-1 1:00:00.  +5:"
  = Some ["2001-1-1 1:00:00.  +5:"; "2001"; "1"; "1"; "1"; "00"; "00"; ""; "+5"; ""].
Proof. vm_compute. reflexivity. Qed.

Example timestamp_regexp_rejects :
  FindStringSubmatch 9 timestamp_regexp "not-a-date" = None
  /\ FindStringSubmatch 9 timestamp_regexp "2001-12-14T21:59:43+053" = None.
Proof. split; vm_compute; reflexivity. Qed.

Example ParseFloat_plain_tenth :
  ParseFloat_plain "0.1" 64 = (S754_finite false 0x1999999999999a (-56), None).
Proof. vm_compute. reflexivity. Qed.

Example Decode_std_padding :
  Decode_std "aGVsbG8=" = ("hello", None)
  /\ Decode_std "YQ==" = ("a", None)
  /\ Decode_std "YWJj" = ("abc", None).
Proof. repeat split. Qed.

Example resolve_int_overflow_int8 :
  resolve_int "200" int8_type = Failed "Integer: 200".
Proof. vm_compute. reflexivity. Qed.

Example resolveInterface_infers :
  resolveInterface ParseFloat_plain {| value := "123"; tag := ""; implicit := true |}
  = Returns (VInt 123)
  /\ resolveInterface ParseFloat_plain {| value := "1.5"; tag := ""; implicit := true |}
     = Returns (VFloat (binary_normalize 53 1024 3 (-1) false))
  /\ resolveInterface ParseFloat_plain {| value := "yes"; tag := ""; implicit := true |}
     = Returns (VBool true)
  /\ resolveInterface ParseFloat_plain {| value := "-2001-12-15"; tag := ""; implicit := true |}
     = Returns (VString "-2001-12-15").
Proof.
  split; [vm_compute; reflexivity |]. split; [vm_compute; reflexivity |].
  split; vm_compute; reflexivity.
Qed.

(** The five null spellings, looked up in the table of [init]. *)
Lemma null_values_spellings (val : string) :
  val = "" \/ val = "~" \/ val = "null" \/ val = "Null" \/ val = "NULL" ->
  index_bool null_values val = true.
Proof.
  intros [-> | [-> | [-> | [-> | ->]]]]; vm_compute; reflexivity.
Qed.

(** C2.  A null spelling resolves to the zero value of the target type,
    whatever the kind of the target (also a kind that no converter
    supports) and whatever the library functions do: the table is consulted
    before the switch on the kind.  The zero value is the empty string for
    a string, 0 for the integer and float kinds, nil for an interface. *)
Theorem resolve_null_is_zero :
  forall ParseFloat Decode (event : yaml_event_t) (v : Type_),
    value event = "" \/ value event = "~" \/ value event = "null"
    \/ value event = "Null" \/ value event = "NULL" ->
    resolve ParseFloat Decode event v = Stored (Zero v)
    /\ (Kind_of v = String_ -> Zero v = VString "")
    /\ (Kind_of v = Bool -> Zero v = VBool false)
    /\ (is_Some (int_bits (Kind_of v)) -> Zero v = VInt 0)
    /\ (is_Some (uint_bits (Kind_of v)) -> Zero v = VUint 0)
    /\ (Kind_of v = Float32 \/ Kind_of v = Float64 -> Zero v = VFloat (S754_zero false))
    /\ (Kind_of v = Interface -> Zero v = VNil).
Proof.
  intros ParseFloat Decode event v Hnull.
  split.
  - unfold resolve. rewrite (null_values_spellings _ Hnull). reflexivity.
  - unfold Zero. destruct (Kind_of v); repeat split; intros H;
      try reflexivity; try discriminate;
      try (destruct H as [? H]; discriminate H);
      try (destruct H as [H | H]; discriminate H).
Qed.

Lemma resolve_null_is_zero_witness :
  resolve ParseFloat_plain Decode_std {| value := "null"; tag := ""; implicit := true |}
          int64_type = Stored (VInt 0)
  /\ resolve ParseFloat_plain Decode_std {| value := "~"; tag := ""; implicit := true |}
             {| Kind_of := String_; String_of := "string"; Methods_of := NoMethod |} = Stored (VString "")
  /\ resolve ParseFloat_plain Decode_std {| value := ""; tag := ""; implicit := false |}
             {| Kind_of := Interface; String_of := "interface {}"; Methods_of := NoMethod |} = Stored VNil
  /\ resolve ParseFloat_plain Decode_std {| value := "NULL"; tag := ""; implicit := true |}
             {| Kind_of := Map; String_of := "map[string]int"; Methods_of := NoMethod |}
     = Stored (VZero {| Kind_of := Map; String_of := "map[string]int"; Methods_of := NoMethod |}).
Proof.
  split; [| split; [| split]].
  - destruct (resolve_null_is_zero ParseFloat_plain Decode_std
                {| value := "null"; tag := ""; implicit := true |} int64_type)
      as (H & _ & _ & Hz & _); [cbn; tauto |].
    rewrite H, Hz; [reflexivity | cbn; eauto].
  - destruct (resolve_null_is_zero ParseFloat_plain Decode_std
                {| value := "~"; tag := ""; implicit := true |}
                {| Kind_of := String_; String_of := "string"; Methods_of := NoMethod |})
      as (H & Hz & _); [cbn; tauto |].
    rewrite H, Hz; reflexivity.
  - destruct (resolve_null_is_zero ParseFloat_plain Decode_std
                {| value := ""; tag := ""; implicit := false |}
                {| Kind_of := Interface; String_of := "interface {}"; Methods_of := NoMethod |})
      as (H & _ & _ & _ & _ & _ & Hz); [cbn; tauto |].
    rewrite H, Hz; reflexivity.
  - destruct (resolve_null_is_zero ParseFloat_plain Decode_std
                {| value := "NULL"; tag := ""; implicit := true |}
                {| Kind_of := Map; String_of := "map[string]int"; Methods_of := NoMethod |})
      as (H & _); [cbn; tauto |].
    rewrite H. reflexivity.
Defined.

(** C3.  In a sexagesimal text only each group, times its power of 60, is
    checked against the width of the target; the sum is not.  130 written
    [2:10] is stored in an [int8] as -126, 2^63 written
    [153722867280912930:8] is stored in an [int64] as -2^63, and 256 written
    [4:16] is stored in a [uint8] as 0, each with a nil error.  The path
    without [:] does return the error: [99999999999999999999] into an
    [int64], and 130 written [130] into an [int8]. *)
Theorem resolve_int_sexagesimal_sum_unchecked :
  resolve_int "2:10" int8_type = Stored (VInt (-126))
  /\ resolve_int "153722867280912930:8" int64_type = Stored (VInt (- 2 ^ 63))
  /\ resolve_uint "4:16" uint8_type = Stored (VUint 0)
  /\ resolve_int "99999999999999999999" int64_type
     = Failed "Integer: 99999999999999999999"
  /\ resolve_int "130" int8_type = Failed "Integer: 130".
Proof.
  repeat split; vm_compute; reflexivity.
Qed.

(** C5.  A non-empty scalar with no tag that was not implicit (a quoted
    scalar) is returned as the string it is, whatever its text looks
    like. *)
Theorem resolveInterface_quoted_is_string :
  forall ParseFloat (event : yaml_event_t),
    value event <> "" ->
    tag event = "" ->
    implicit event = false ->
    resolveInterface ParseFloat event = Returns (VString (value event)).
Proof.
  intros ParseFloat [val tg imp]; simpl. intros Hval -> ->.
  unfold resolveInterface; simpl.
  destruct val as [| c r]; [congruence |]. reflexivity.
Qed.

Lemma resolveInterface_quoted_is_string_witness :
  resolveInterface ParseFloat_plain {| value := "123"; tag := ""; implicit := false |}
  = Returns (VString "123").
Proof.
  apply (resolveInterface_quoted_is_string ParseFloat_plain
           {| value := "123"; tag := ""; implicit := false |});
    simpl; [discriminate | reflexivity | reflexivity].
Defined.

(** *** Lower-casing and the boolean table *)

Lemma ToLower_cons (c : ascii) (r : string) :
  exists c' r',
    strings.ToLower (String c r) = String c' (strings.ToLower r')
    /\ ((c' = strings.lower_byte c /\ r' = r)
        \/ (c' = "i" /\ c = "196")%char \/ (c' = "k" /\ c = "226")%char).
Proof.
  destruct c as [b0 b1 b2 b3 b4 b5 b6 b7].
  destruct b0, b1, b2, b3, b4, b5, b6, b7;
    try (eexists _, _; split; [reflexivity | left; split; reflexivity]).
  - (* 0xE2 *)
    destruct r as [| [c0 c1 c2 c3 c4 c5 c6 c7] r2];
      [eexists _, _; split; [reflexivity | left; split; reflexivity] |].
    destruct c0, c1, c2, c3, c4, c5, c6, c7;
      try (eexists _, _; split; [reflexivity | left; split; reflexivity]).
    destruct r2 as [| [d0 d1 d2 d3 d4 d5 d6 d7] r3];
      [eexists _, _; split; [reflexivity | left; split; reflexivity] |].
    destruct d0, d1, d2, d3, d4, d5, d6, d7;
      try (eexists _, _; split; [reflexivity | left; split; reflexivity]).
    exists "k"%char, r3. split; [reflexivity | right; right; split; reflexivity].
  - (* 0xC4 *)
    destruct r as [| [c0 c1 c2 c3 c4 c5 c6 c7] r2];
      [eexists _, _; split; [reflexivity | left; split; reflexivity] |].
    destruct c0, c1, c2, c3, c4, c5, c6, c7;
      try (eexists _, _; split; [reflexivity | left; split; reflexivity]).
    exists "i"%char, r2. split; [reflexivity | right; left; split; reflexivity].
Qed.



(** The table of [init], read as a function of the key. *)
Lemma bool_values_lookup (k : string) :
  bool_values !! k =
    if decide (k = "off") then Some false
    else if decide (k = "on") then Some true
    else if decide (k = "false") then Some false
    else if decide (k = "true") then Some true
    else if decide (k = "no") then Some false
    else if decide (k = "n") then Some false
    else if decide (k = "yes") then Some true
    else if decide (k = "y") then Some true
    else None.
Proof.
  unfold bool_values. rewrite !lookup_insert, lookup_empty.
  repeat (case_decide; [subst k; reflexivity |]).
  repeat (case_decide; [congruence |]). reflexivity.
Qed.


(** *** 64-bit arithmetic *)

Lemma wrap_int_eqm (x : Z) : eqm M64 (wrap_int 64 x) x.
Proof.
  unfold eqm, wrap_int, M64.
  rewrite Zminus_mod, Zmod_mod, <- Zminus_mod. f_equal. lia.
Qed.

Lemma eqm_wrap_int (x y : Z) : eqm M64 x y -> wrap_int 64 x = wrap_int 64 y.
Proof.
  unfold eqm, wrap_int, M64. intros H.
  rewrite (Z.add_mod x), H, <- Z.add_mod by lia. reflexivity.
Qed.

Lemma wrap_int_range (x : Z) : - 2 ^ 63 <= wrap_int 64 x < 2 ^ 63.
Proof.
  unfold wrap_int. change (64 - 1) with 63.
  pose proof (Z.mod_pos_bound (x + 2 ^ 63) (2 ^ 64) eq_refl). lia.
Qed.

Lemma wrap_int_small (x : Z) : - 2 ^ 63 <= x < 2 ^ 63 -> wrap_int 64 x = x.
Proof.
  intros H. unfold wrap_int. change (64 - 1) with 63.
  rewrite Z.mod_small; lia.
Qed.

Lemma wrap_int_idem (x : Z) : wrap_int 64 (wrap_int 64 x) = wrap_int 64 x.
Proof. apply wrap_int_small, wrap_int_range. Qed.


Lemma wrap_int_neg (x : Z) :
  wrap_int 64 (mul64 x (-1)) = wrap_int 64 (- wrap_int 64 (mul64 x 1)).
Proof.
  apply eqm_wrap_int. unfold mul64. rewrite !wrap_int_eqm.
  replace (x * -1) with (- (x * 1)) by ring. reflexivity.
Qed.

(** On a 64-bit target nothing overflows and the setter stores what it is
    given. *)
Lemma OverflowInt_64 (v : Type_) (x : Z) :
  int_bits (Kind_of v) = Some 64 ->
  OverflowInt v (wrap_int 64 x) = Some false.
Proof.
  intros Hv. unfold OverflowInt. rewrite Hv. change (64 - 64) with 0.
  rewrite Z.shiftl_0_r, Z.shiftr_0_r, wrap_int_idem, Z.eqb_refl. reflexivity.
Qed.

Lemma SetInt_64 (v : Type_) (x : Z) :
  int_bits (Kind_of v) = Some 64 ->
  SetInt v x = Stored (VInt (wrap_int 64 x)).
Proof. intros Hv. unfold SetInt. rewrite Hv. reflexivity. Qed.

Lemma Zero_64 (v : Type_) :
  int_bits (Kind_of v) = Some 64 -> Zero v = VInt 0.
Proof. unfold Zero. destruct (Kind_of v); intros H; try discriminate H; reflexivity. Qed.

(** *** What a text accepted by [ParseInt] looks like *)

Lemma digit_clean (c : ascii) (d : Z) :
  strconv.digit c = Some d -> clean_byte c = true /\ 0 <= d.
Proof.
  destruct c as [b0 b1 b2 b3 b4 b5 b6 b7].
  destruct b0, b1, b2, b3, b4, b5, b6, b7; vm_compute; intros H;
    solve [discriminate H | injection H as <-; split; [reflexivity | discriminate]].
Qed.

Lemma ParseUint_loop_ok (s : string) (base maxVal cutoff n r : Z) :
  strconv.ParseUint_loop s base maxVal cutoff n = (r, None) ->
  0 <= n -> 0 <= base ->
  clean s = true /\ 0 <= r.
Proof.
  revert n. induction s as [| c s IH]; intros n H Hn Hbase; cbn in H.
  - injection H as <-. split; [reflexivity | assumption].
  - destruct (strconv.digit c) as [d |] eqn:Hd; [| discriminate H].
    destruct (digit_clean c d Hd) as [Hc Hd0].
    destruct (d >=? base); [discriminate H |].
    destruct (n >=? cutoff); [discriminate H |].
    destruct (n * base + d >? maxVal); [discriminate H |].
    apply IH in H as [Hs Hr]; [| nia | assumption].
    split; [cbn; rewrite Hc, Hs; reflexivity | assumption].
Qed.

Lemma ParseUint_ok (s : string) (base r : Z) :
  strconv.ParseUint s base 64 = (r, None) -> clean s = true /\ 0 <= r.
Proof.
  unfold strconv.ParseUint. destruct s as [| c s]; [discriminate |].
  destruct ((2 <=? base) && (base <=? 36)) eqn:Hb; [| discriminate].
  intros H. apply ParseUint_loop_ok in H; [assumption | lia | lia].
Qed.

Lemma ParseUint_loop_range (s : string) (base maxVal cutoff n r : Z) :
  strconv.ParseUint_loop s base maxVal cutoff n = (r, Some strconv.ErrRange) ->
  r = maxVal.
Proof.
  revert n. induction s as [| c s IH]; intros n H; cbn in H; [discriminate H |].
  destruct (strconv.digit c) as [d |]; [| discriminate H].
  destruct (d >=? base); [discriminate H |].
  destruct (n >=? cutoff); [injection H as <-; reflexivity |].
  destruct (n * base + d >? maxVal); [injection H as <-; reflexivity |].
  exact (IH _ H).
Qed.

Lemma ParseUint_range (s : string) (base r : Z) :
  strconv.ParseUint s base 64 = (r, Some strconv.ErrRange) -> r = 2 ^ 64 - 1.
Proof.
  unfold strconv.ParseUint. destruct s as [| c s]; [discriminate |].
  destruct ((2 <=? base) && (base <=? 36)); [| discriminate].
  apply ParseUint_loop_range.
Qed.

Lemma ParseInt_ok (s : string) (base n : Z) :
  strconv.ParseInt s base 64 = (n, None) ->
  clean s = true /\ s <> "" /\ - 2 ^ 63 <= n < 2 ^ 63.
Proof.
  unfold strconv.ParseInt. destruct s as [| c s]; [discriminate |].
  set (neg := Ascii.eqb c "-").
  change (if 64 =? 0 then strconv.IntSize else 64) with 64.
  change (64 - 1) with 63.
  destruct (strconv.ParseUint (if Ascii.eqb c "+" || neg then s else String c s) base 64)
    as [un [[| |] |]] eqn:Hu; try discriminate.
  { apply ParseUint_range in Hu. subst un. destruct neg; cbn; discriminate. }
  apply ParseUint_ok in Hu as [Hclean Hun].
  destruct (negb neg && (un >=? 2 ^ 63)) eqn:H1; [discriminate |].
  destruct (neg && (un >? 2 ^ 63)) eqn:H2; [discriminate |].
  intros H. injection H as <-.
  split; [| split; [discriminate |]].
  - destruct (Ascii.eqb c "+") eqn:Hplus.
    + apply Ascii.eqb_eq in Hplus. subst c. cbn. exact Hclean.
    + subst neg. destruct (Ascii.eqb c "-") eqn:Hminus.
      * apply Ascii.eqb_eq in Hminus. subst c. cbn. exact Hclean.
      * exact Hclean.
  - destruct neg; cbn in H1, H2; lia.
Qed.

Lemma Replace_clean (s : string) :
  clean s = true -> strings.Replace s "_" "" = s.
Proof.
  induction s as [| c s IH]; [reflexivity |]. cbn [clean strings.Replace].
  intros H. apply andb_prop in H as [Hc Hs].
  unfold clean_byte in Hc. apply andb_prop in Hc as [Hc _].
  destruct (Ascii.eqb c "_"); [discriminate Hc |]. rewrite (IH Hs). reflexivity.
Qed.

Lemma Contains_clean (s : string) :
  clean s = true -> strings.Contains s ":" = false.
Proof.
  induction s as [| c s IH]; [reflexivity |]. cbn [clean strings.Contains].
  intros H. apply andb_prop in H as [Hc Hs].
  unfold clean_byte in Hc. apply andb_prop in Hc as [_ Hc].
  destruct (Ascii.eqb c ":"); [discriminate Hc |]. rewrite (IH Hs). reflexivity.
Qed.

(** *** Bases and sexagesimal groups *)

Lemma resolve_int_base_ok (v : Type_) (val : string) (base n : Z) :
  int_bits (Kind_of v) = Some 64 ->
  parses base val n ->
  resolve_int_base v val base 1 = Stored (VInt n).
Proof.
  intros Hv Hp. unfold resolve_int_base. rewrite Hp.
  unfold mul64. rewrite (OverflowInt_64 v _ Hv), (SetInt_64 v _ Hv).
  apply ParseInt_ok in Hp as (_ & _ & Hn).
  rewrite wrap_int_idem, Z.mul_1_r, wrap_int_small by exact Hn. reflexivity.
Qed.





Lemma Replace_app (a b : string) :
  strings.Replace (a +:+ b) "_" "" = strings.Replace a "_" "" +:+ strings.Replace b "_" "".
Proof.
  induction a as [| c a IH]; [reflexivity |].
  change (String c a +:+ b) with (String c (a +:+ b)).
  cbn [strings.Replace]. rewrite IH. destruct (Ascii.eqb c "_"); reflexivity.
Qed.

Lemma Split_clean (g : string) :
  clean g = true -> strings.Split g ":" = [g].
Proof.
  induction g as [| c g IH]; [reflexivity |]. cbn [clean strings.Split].
  intros H. apply andb_prop in H as [Hc Hg].
  unfold clean_byte in Hc. apply andb_prop in Hc as [_ Hc].
  destruct (Ascii.eqb c ":"); [discriminate Hc |]. rewrite (IH Hg). reflexivity.
Qed.

Lemma Split_app_clean (g rest : string) :
  clean g = true ->
  strings.Split (g +:+ String ":" rest) ":" = g :: strings.Split rest ":".
Proof.
  induction g as [| c g IH]; [reflexivity |].
  change (String c g +:+ String ":" rest) with (String c (g +:+ String ":" rest)).
  cbn [clean strings.Split]. intros H. apply andb_prop in H as [Hc Hg].
  unfold clean_byte in Hc. apply andb_prop in Hc as [_ Hc].
  destruct (Ascii.eqb c ":"); [discriminate Hc |]. rewrite (IH Hg). reflexivity.
Qed.

Lemma Contains_app_colon (g rest : string) :
  strings.Contains (g +:+ String ":" rest) ":" = true.
Proof.
  induction g as [| c g IH]; [reflexivity |].
  change (String c g +:+ String ":" rest) with (String c (g +:+ String ":" rest)).
  cbn [strings.Contains]. rewrite IH. apply orb_true_r.
Qed.

Lemma Join_cons (g g' : string) (groups : list string) :
  Join (g :: g' :: groups) ":" = g +:+ String ":" (Join (g' :: groups) ":").
Proof. reflexivity. Qed.

Lemma Split_Join (groups : list string) :
  groups <> [] ->
  Forall (fun g => clean g = true) groups ->
  strings.Split (Join groups ":") ":" = groups.
Proof.
  intros Hne Hall. induction Hall as [| g groups Hg Hall IH]; [congruence |].
  destruct groups as [| g' groups].
  - cbn [Join]. apply Split_clean, Hg.
  - rewrite Join_cons, (Split_app_clean _ _ Hg), IH by discriminate. reflexivity.
Qed.

Lemma Replace_Join (groups : list string) :
  Forall (fun g => clean g = true) groups ->
  strings.Replace (Join groups ":") "_" "" = Join groups ":".
Proof.
  induction 1 as [| g groups Hg Hall IH]; [reflexivity |].
  destruct groups as [| g' groups].
  - cbn [Join]. apply Replace_clean, Hg.
  - rewrite Join_cons, Replace_app, (Replace_clean _ Hg).
    cbn [strings.Replace]. change (Ascii.eqb ":" "_") with false. cbn iota.
    rewrite IH. reflexivity.
Qed.


Lemma prefix_nil (s : string) : String.prefix "" s = true.
Proof. destruct s; reflexivity. Qed.

Lemma not_sign_or_zero (c : ascii) :
  has_byte "-+0" c = false ->
  Ascii.eqb c "-" = false /\ Ascii.eqb c "+" = false /\ Ascii.eqb c "0" = false.
Proof.
  unfold has_byte. cbn [strings.Contains].
  rewrite (Ascii.eqb_sym "-"%char c), (Ascii.eqb_sym "+"%char c), (Ascii.eqb_sym "0"%char c).
  destruct (Ascii.eqb c "-"), (Ascii.eqb c "+"), (Ascii.eqb c "0"); cbn; intros H;
    solve [discriminate H | repeat split; reflexivity].
Qed.

(** [resolve_int] on a text without underscores that starts with neither a
    sign nor [0]: only the test for [:] is left. *)
Lemma resolve_int_plain (v : Type_) (s : string) :
  strings.Replace s "_" "" = s ->
  starts_plain s = true ->
  resolve_int s v =
    if strings.Contains s ":" then
      match resolve_int_groups v s (rev (strings.Split s ":")) 0 1 with
      | inl early => early
      | inr value => SetInt v (mul64 value 1)
      end
    else resolve_int_base v s 10 1.
Proof.
  intros Hrep Hs. unfold resolve_int. rewrite Hrep.
  unfold starts_plain in Hs. destruct s as [| c r]; [discriminate Hs |].
  cbn [byte0] in *. apply negb_true_iff, not_sign_or_zero in Hs as (Hm & Hp & Hz).
  rewrite Hm, Hp.
  assert (String.eqb (String c r) "0" = false) as ->
    by (cbn [String.eqb]; rewrite Hz; reflexivity).
  assert (forall p, strings.HasPrefix (String c r) (String "0" p) = false) as Hpre.
  { intros p. unfold strings.HasPrefix. cbn [String.prefix].
    destruct (ascii_dec "0" c) as [<- |]; [discriminate Hz | reflexivity]. }
  rewrite !Hpre. cbn [byte0]. rewrite Hz. reflexivity.
Qed.




(** *** Signs *)

Lemma not_sign (c : ascii) :
  has_byte signs c = false -> Ascii.eqb c "-" = false /\ Ascii.eqb c "+" = false.
Proof.
  unfold has_byte, signs. cbn [strings.Contains].
  rewrite (Ascii.eqb_sym "-"%char c), (Ascii.eqb_sym "+"%char c).
  destruct (Ascii.eqb c "-"), (Ascii.eqb c "+"); cbn; intros H;
    solve [discriminate H | split; reflexivity].
Qed.

Lemma resolve_int_base_neg (v : Type_) (val : string) (base : Z) :
  int_bits (Kind_of v) = Some 64 ->
  resolve_int_base v val base (-1) = negated (resolve_int_base v val base 1).
Proof.
  intros Hv. unfold resolve_int_base.
  destruct (strconv.ParseInt val base 64) as [value [e |]]; [reflexivity |].
  unfold mul64 at 1 3. rewrite !(OverflowInt_64 v _ Hv), !(SetInt_64 v _ Hv).
  cbn [negated]. rewrite wrap_int_neg. reflexivity.
Qed.

Lemma resolve_int_groups_early (v : Type_) (val : string) (digits : list string)
    (value bes : Z) (o : outcome) :
  resolve_int_groups v val digits value bes = inl o -> negated o = o.
Proof.
  revert value bes. induction digits as [| d digits IH]; intros value bes; cbn.
  - discriminate.
  - destruct (strconv.ParseInt d 10 64) as [n [e |]].
    + intros H. injection H as <-. reflexivity.
    + destruct (OverflowInt v (mul64 n bes)) as [[|] |].
      * intros H. injection H as <-. reflexivity.
      * apply IH.
      * intros H. injection H as <-. reflexivity.
Qed.

(** On a target of [bits] bits a value within the range does not overflow
    and is stored as it is. *)
Lemma OverflowInt_in_range (v : Type_) (bits x : Z) :
  int_bits (Kind_of v) = Some bits ->
  - 2 ^ (bits - 1) <= x < 2 ^ (bits - 1) ->
  OverflowInt v x = Some false /\ SetInt v x = Stored (VInt x).
Proof.
  intros Hv Hx. unfold OverflowInt, SetInt. rewrite Hv.
  assert (bits = 8 \/ bits = 16 \/ bits = 32 \/ bits = 64) as Hbits.
  { destruct (Kind_of v); cbn in Hv; try discriminate Hv;
      injection Hv as <-; unfold strconv.IntSize; tauto. }
  assert (wrap_int bits x = x) as ->.
  { unfold wrap_int. destruct Hbits as [-> | [-> | [-> | ->]]];
      rewrite Z.mod_small; cbn in *; lia. }
  split; [| reflexivity]. f_equal. apply negb_false_iff, Z.eqb_eq.
  rewrite Z.shiftl_mul_pow2, Z.shiftr_div_pow2
    by (destruct Hbits as [-> | [-> | [-> | ->]]]; lia).
  rewrite wrap_int_small, Z.div_mul; [reflexivity | | ];
    destruct Hbits as [-> | [-> | [-> | ->]]]; cbn in *; lia.
Qed.

Lemma ParseInt_unsigned_nonneg (c : ascii) (r : string) (base n : Z) :
  strconv.ParseInt (String c r) base 64 = (n, None) ->
  Ascii.eqb c "-" = false -> 0 <= n.
Proof.
  unfold strconv.ParseInt. intros H Hm. rewrite Hm in H.
  destruct (strconv.ParseUint (if Ascii.eqb c "+" || false then r else String c r) base 64)
    as [un [[| |] |]] eqn:Hu; try discriminate H.
  { apply ParseUint_range in Hu. subst un. vm_compute in H. discriminate H. }
  apply ParseUint_ok in Hu as [_ Hun].
  change (if 64 =? 0 then strconv.IntSize else 64) with 64 in H.
  destruct (negb false && (un >=? 2 ^ (64 - 1))); [discriminate H |].
  cbn [andb] in H. injection H as <-. exact Hun.
Qed.

(** [resolve_int] on [-] followed by a text without underscores that starts
    with neither a sign nor [0]. *)
Lemma resolve_int_minus_plain (v : Type_) (s : string) :
  strings.Replace s "_" "" = s ->
  starts_plain s = true ->
  resolve_int (String "-" s) v =
    if strings.Contains s ":" then
      match resolve_int_groups v s (rev (strings.Split s ":")) 0 1 with
      | inl early => early
      | inr value => SetInt v (mul64 value (-1))
      end
    else resolve_int_base v s 10 (-1).
Proof.
  intros Hrep Hs. unfold resolve_int.
  change (strings.Replace (String "-" s) "_" "")
    with (String "-" (strings.Replace s "_" "")).
  rewrite Hrep. cbn [byte0]. change (Ascii.eqb "-" "-") with true. cbn iota.
  cbn [slice_from].
  unfold starts_plain in Hs. destruct s as [| c r]; [discriminate Hs |].
  cbn [byte0] in *. apply negb_true_iff, not_sign_or_zero in Hs as (Hm & Hp & Hz).
  assert (String.eqb (String c r) "0" = false) as ->
    by (cbn [String.eqb]; rewrite Hz; reflexivity).
  assert (forall p, strings.HasPrefix (String c r) (String "0" p) = false) as Hpre.
  { intros p. unfold strings.HasPrefix. cbn [String.prefix].
    destruct (ascii_dec "0" c) as [<- |]; [discriminate Hz | reflexivity]. }
  rewrite !Hpre. rewrite Hz. reflexivity.
Qed.


(** *** Special floats *)

Ltac letter_cases H c :=
  let b0 := fresh in let b1 := fresh in let b2 := fresh in let b3 := fresh in
  let b4 := fresh in let b5 := fresh in let b6 := fresh in let b7 := fresh in
  destruct c as [b0 b1 b2 b3 b4 b5 b6 b7];
  destruct b0, b1, b2, b3, b4, b5, b6, b7; try discriminate H; clear H.

Lemma casing_of_4 (a1 a2 a3 a4 : ascii) (s : string) :
  casing_of (String a1 (String a2 (String a3 (String a4 ""))) ) s = true ->
  exists c1 c2 c3 c4,
    s = String c1 (String c2 (String c3 (String c4 "")))
    /\ same_letter a1 c1 = true /\ same_letter a2 c2 = true
    /\ same_letter a3 c3 = true /\ same_letter a4 c4 = true.
Proof.
  destruct s as [| c1 [| c2 [| c3 [| c4 [| c5 r]]]]]; cbn [casing_of];
    rewrite ?andb_false_r; try discriminate.
  intros H. apply andb_prop in H as [H1 H]. apply andb_prop in H as [H2 H].
  apply andb_prop in H as [H3 H]. apply andb_prop in H as [H4 _].
  exists c1, c2, c3, c4. auto.
Qed.

Lemma casing_of_inf (s : string) :
  casing_of ".inf" s = true ->
  In s [".inf"; ".inF"; ".iNf"; ".iNF"; ".Inf"; ".InF"; ".INf"; ".INF"].
Proof.
  intros H. apply casing_of_4 in H as (c1 & c2 & c3 & c4 & -> & H1 & H2 & H3 & H4).
  letter_cases H1 c1; letter_cases H2 c2; letter_cases H3 c3; letter_cases H4 c4;
    cbn [In]; tauto.
Qed.

Lemma casing_of_nan (s : string) :
  casing_of ".nan" s = true ->
  In s [".nan"; ".naN"; ".nAn"; ".nAN"; ".Nan"; ".NaN"; ".NAn"; ".NAN"].
Proof.
  intros H. apply casing_of_4 in H as (c1 & c2 & c3 & c4 & -> & H1 & H2 & H3 & H4).
  letter_cases H1 c1; letter_cases H2 c2; letter_cases H3 c3; letter_cases H4 c4;
    cbn [In]; tauto.
Qed.


(** *** Decimal texts and [Atoi] *)

Lemma is_digit_digit (c : ascii) :
  is_digit c = true ->
  strconv.digit c = Some (strconv.code c - 48) /\ 0 <= strconv.code c - 48 <= 9.
Proof.
  unfold is_digit, strconv.digit. intros H. rewrite H. split; [reflexivity | lia].
Qed.

Lemma is_digit_not_sign (c : ascii) :
  is_digit c = true -> Ascii.eqb c "+" = false /\ Ascii.eqb c "-" = false.
Proof.
  destruct (Ascii.eqb c "+") eqn:Hp; [apply Ascii.eqb_eq in Hp; subst c; discriminate |].
  destruct (Ascii.eqb c "-") eqn:Hm; [apply Ascii.eqb_eq in Hm; subst c; discriminate |].
  auto.
Qed.

Lemma ParseUint_loop_digits (s : string) (n : Z) :
  all_digits s = true ->
  0 <= n ->
  n * 10 ^ Z.of_nat (String.length s) + 10 ^ Z.of_nat (String.length s) - 1 < 2 ^ 63 ->
  strconv.ParseUint_loop s 10 (2 ^ 64 - 1) ((2 ^ 64 - 1) / 10 + 1) n
  = (decimal_from s n, None)
  /\ 0 <= decimal_from s n
     <= n * 10 ^ Z.of_nat (String.length s) + 10 ^ Z.of_nat (String.length s) - 1.
Proof.
  revert n. induction s as [| c s IH]; intros n Hs Hn Hb.
  - cbn. split; [reflexivity | lia].
  - cbn [all_digits] in Hs. apply andb_prop in Hs as [Hc Hs].
    destruct (is_digit_digit c Hc) as [Hd Hr].
    cbn [String.length] in Hb. rewrite Nat2Z.inj_succ, Z.pow_succ_r in Hb by lia.
    assert (0 < 10 ^ Z.of_nat (String.length s)) as Hpow by (apply Z.pow_pos_nonneg; lia).
    cbn [strconv.ParseUint_loop decimal_from String.length]. rewrite Hd.
    rewrite Nat2Z.inj_succ, Z.pow_succ_r by lia.
    change ((2 ^ 64 - 1) / 10 + 1) with 1844674407370955162 in *.
    change (2 ^ 64 - 1) with 18446744073709551615 in *.
    change (2 ^ 63) with 9223372036854775808 in *.
    destruct (Z.geb_spec (strconv.code c - 48) 10) as [? | _]; [lia |].
    destruct (Z.geb_spec n 1844674407370955162) as [? | _]; [nia |].
    destruct (Z.gtb_spec (n * 10 + (strconv.code c - 48)) 18446744073709551615) as [? | _];
      [nia |].
    destruct (IH (n * 10 + (strconv.code c - 48)) Hs) as [Heq Hbound]; [lia | nia |].
    split; [exact Heq | nia].
Qed.

Lemma Atoi_digits (s : string) :
  all_digits s = true -> s <> "" -> (String.length s <= 18)%nat ->
  strconv.Atoi s = (decimal s, None) /\ 0 <= decimal s < 10 ^ 18.
Proof.
  intros Hs Hne Hlen.
  assert (10 ^ Z.of_nat (String.length s) <= 10 ^ 18) as Hpow
    by (apply Z.pow_le_mono_r; lia).
  destruct (ParseUint_loop_digits s 0 Hs) as [Heq Hb]; [lia | lia |].
  destruct s as [| c r]; [congruence |].
  unfold strconv.Atoi, strconv.ParseInt.
  pose proof Hs as Hc. cbn [all_digits] in Hc. apply andb_prop in Hc as [Hc _].
  destruct (is_digit_not_sign c Hc) as [-> ->]. cbn [orb].
  unfold strconv.ParseUint.
  change ((2 <=? 10) && (10 <=? 36)) with true. cbn iota.
  change (if 0 =? 0 then strconv.IntSize else 0) with 64.
  rewrite Heq. fold (decimal (String c r)).
  change (negb false) with true. change (64 - 1) with 63. cbn [andb].
  destruct (Z.geb_spec (decimal (String c r)) (2 ^ 63)) as [? | _];
    [unfold decimal in *; lia |].
  split; [reflexivity | unfold decimal in *; lia].
Qed.

Lemma in_class_digit (c : ascii) : in_class c [("0", "9")]%char = is_digit c.
Proof.
  destruct c as [b0 b1 b2 b3 b4 b5 b6 b7].
  destruct b0, b1, b2, b3, b4, b5, b6, b7; reflexivity.
Qed.

Lemma run_digit (c : ascii) (s : string) (caps : list string) (k : cont) :
  is_digit c = true -> run digit_class (String c s) caps k = k s caps.
Proof. intros H. cbn [run digit_class]. rewrite in_class_digit, H. reflexivity. Qed.

(** *** Timestamps *)

Lemma digit_not_dash (c : ascii) : is_digit c = true -> Ascii.eqb "-" c = false.
Proof.
  intros H. destruct (Ascii.eqb "-" c) eqn:E; [| reflexivity].
  apply Ascii.eqb_eq in E. subst c. discriminate H.
Qed.

Ltac regexp_step :=
  repeat (progress
    (cbn [run cat]; rewrite ?run_digit by assumption;
     rewrite ?digit_not_dash by assumption;
     repeat change (Ascii.eqb "-" "-") with true;
     repeat change (Ascii.eqb ":" ":") with true;
     cbn [orelse])).

Lemma ymd_regexp_digits (y1 y2 y3 y4 m1 m2 d1 d2 : ascii) :
  is_digit y1 = true -> is_digit y2 = true -> is_digit y3 = true -> is_digit y4 = true ->
  is_digit m1 = true -> is_digit m2 = true -> is_digit d1 = true -> is_digit d2 = true ->
  FindStringSubmatch 3 ymd_regexp
    (text4 y1 y2 y3 y4 +:+ "-" +:+ text2 m1 m2 +:+ "-" +:+ text2 d1 d2)
  = Some [text4 y1 y2 y3 y4 +:+ "-" +:+ text2 m1 m2 +:+ "-" +:+ text2 d1 d2;
          text4 y1 y2 y3 y4; text2 m1 m2; text2 d1 d2].
Proof.
  intros. unfold FindStringSubmatch, ymd_regexp.
  cbv [String.append text4 text2]. regexp_step. reflexivity.
Qed.

Lemma ymd_regexp_not_time (y1 y2 y3 y4 m1 m2 d1 d2 : ascii) (rest : string) :
  is_digit y1 = true -> is_digit y2 = true -> is_digit y3 = true -> is_digit y4 = true ->
  is_digit m1 = true -> is_digit m2 = true -> is_digit d1 = true -> is_digit d2 = true ->
  FindStringSubmatch 3 ymd_regexp
    (text4 y1 y2 y3 y4 +:+ "-" +:+ text2 m1 m2 +:+ "-" +:+ text2 d1 d2 +:+ String "T" rest)
  = None.
Proof.
  intros. unfold FindStringSubmatch, ymd_regexp.
  cbv [String.append text4 text2]. regexp_step. reflexivity.
Qed.

Lemma timestamp_regexp_digits
    (y1 y2 y3 y4 m1 m2 d1 d2 h1 h2 n1 n2 s1 s2 : ascii) :
  is_digit y1 = true -> is_digit y2 = true -> is_digit y3 = true -> is_digit y4 = true ->
  is_digit m1 = true -> is_digit m2 = true -> is_digit d1 = true -> is_digit d2 = true ->
  is_digit h1 = true -> is_digit h2 = true -> is_digit n1 = true -> is_digit n2 = true ->
  is_digit s1 = true -> is_digit s2 = true ->
  FindStringSubmatch 9 timestamp_regexp
    (text4 y1 y2 y3 y4 +:+ "-" +:+ text2 m1 m2 +:+ "-" +:+ text2 d1 d2
     +:+ "T" +:+ text2 h1 h2 +:+ ":" +:+ text2 n1 n2 +:+ ":" +:+ text2 s1 s2)
  = Some [text4 y1 y2 y3 y4 +:+ "-" +:+ text2 m1 m2 +:+ "-" +:+ text2 d1 d2
          +:+ "T" +:+ text2 h1 h2 +:+ ":" +:+ text2 n1 n2 +:+ ":" +:+ text2 s1 s2;
          text4 y1 y2 y3 y4; text2 m1 m2; text2 d1 d2;
          text2 h1 h2; text2 n1 n2; text2 s1 s2; ""; ""; ""].
Proof.
  intros. unfold FindStringSubmatch, timestamp_regexp.
  cbv [String.append text4 text2]. regexp_step. reflexivity.
Qed.

Lemma norm_range (hi lo base : Z) :
  0 < base -> 0 <= snd (time.norm hi lo base) < base.
Proof.
  intros Hb. unfold time.norm.
  destruct (Z.ltb_spec lo 0) as [Hneg | Hpos].
  - rewrite Z.quot_div_nonneg by lia.
    pose proof (Z.div_mod (- lo - 1) base ltac:(lia)) as Hdm.
    pose proof (Z.mod_pos_bound (- lo - 1) base Hb) as Hm.
    destruct (Z.geb_spec (lo + ((- lo - 1) / base + 1) * base) base); cbn [snd]; nia.
  - destruct (Z.geb_spec lo base) as [Hge | Hlt]; cbn [snd]; [| lia].
    rewrite Z.quot_div_nonneg by lia.
    pose proof (Z.div_mod lo base ltac:(lia)) as Hdm.
    pose proof (Z.mod_pos_bound lo base Hb) as Hm. nia.
Qed.

Lemma Date_nsec_range (year month day hour min sec nsec : Z) (loc : time.Location) :
  0 <= time.nsec (time.Date year month day hour min sec nsec loc) < 1000000000.
Proof.
  unfold time.Date.
  destruct (time.norm year (month - 1) 12) as [year' m].
  pose proof (norm_range sec nsec 1000000000 eq_refl) as Hn.
  destruct (time.norm sec nsec 1000000000) as [sec' nsec'].
  destruct (time.norm min sec' 60) as [min' sec''].
  destruct (time.norm hour min' 60) as [hour' min''].
  destruct (time.norm day hour' 24) as [day' hour''].
  exact Hn.
Qed.

Lemma Date_month_14 (year day hour min sec nsec : Z) (loc : time.Location) :
  time.Date year 14 day hour min sec nsec loc
  = time.Date (year + 1) 2 day hour min sec nsec loc.
Proof. reflexivity. Qed.

Lemma all_digits_2 (a b : ascii) :
  is_digit a = true -> is_digit b = true -> all_digits (text2 a b) = true.
Proof. intros Ha Hb. cbn [all_digits text2]. rewrite Ha, Hb. reflexivity. Qed.

Lemma all_digits_4 (a b c d : ascii) :
  is_digit a = true -> is_digit b = true -> is_digit c = true -> is_digit d = true ->
  all_digits (text4 a b c d) = true.
Proof. intros Ha Hb Hc Hd. cbn [all_digits text4]. rewrite Ha, Hb, Hc, Hd. reflexivity. Qed.

Lemma Atoi_2 (a b : ascii) :
  is_digit a = true -> is_digit b = true ->
  fst (strconv.Atoi (text2 a b)) = decimal (text2 a b).
Proof.
  intros Ha Hb.
  destruct (Atoi_digits (text2 a b) (all_digits_2 a b Ha Hb)) as [-> _];
    [discriminate | cbn; lia | reflexivity].
Qed.

Lemma Atoi_4 (a b c d : ascii) :
  is_digit a = true -> is_digit b = true -> is_digit c = true -> is_digit d = true ->
  fst (strconv.Atoi (text4 a b c d)) = decimal (text4 a b c d).
Proof.
  intros Ha Hb Hc Hd.
  destruct (Atoi_digits (text4 a b c d) (all_digits_4 a b c d Ha Hb Hc Hd)) as [-> _];
    [discriminate | cbn; lia | reflexivity].
Qed.

(** C10.  [resolve_time] checks no range.  Every text that one of the two
    patterns matches is converted, to an instant whose nanoseconds are
    within the second.  In particular every date [dddd-dd-dd] and every
    timestamp [dddd-dd-ddTdd:dd:dd] of decimal digits is converted, months,
    days, hours, minutes and seconds up to 99 included, to what [time.Date]
    makes of the numbers.  [time.Date] carries what is out of range: month
    14 of a year is February of the next. *)
Theorem resolve_time_no_range_check :
  (forall val : string,
      FindStringSubmatch 3 ymd_regexp val <> None
      \/ FindStringSubmatch 9 timestamp_regexp val <> None ->
      exists t, resolve_time val Time_type = Stored (VTime t)
                /\ 0 <= time.nsec t < 1000000000)
  /\ (forall y1 y2 y3 y4 m1 m2 d1 d2 : ascii,
         is_digit y1 = true -> is_digit y2 = true ->
         is_digit y3 = true -> is_digit y4 = true ->
         is_digit m1 = true -> is_digit m2 = true ->
         is_digit d1 = true -> is_digit d2 = true ->
         resolve_time (text4 y1 y2 y3 y4 +:+ "-" +:+ text2 m1 m2 +:+ "-" +:+ text2 d1 d2)
                      Time_type
         = Stored (VTime (time.Date (decimal (text4 y1 y2 y3 y4)) (decimal (text2 m1 m2))
                                    (decimal (text2 d1 d2)) 0 0 0 0 time.UTC)))
  /\ (forall y1 y2 y3 y4 m1 m2 d1 d2 h1 h2 n1 n2 s1 s2 : ascii,
         is_digit y1 = true -> is_digit y2 = true ->
         is_digit y3 = true -> is_digit y4 = true ->
         is_digit m1 = true -> is_digit m2 = true ->
         is_digit d1 = true -> is_digit d2 = true ->
         is_digit h1 = true -> is_digit h2 = true ->
         is_digit n1 = true -> is_digit n2 = true ->
         is_digit s1 = true -> is_digit s2 = true ->
         resolve_time (text4 y1 y2 y3 y4 +:+ "-" +:+ text2 m1 m2 +:+ "-" +:+ text2 d1 d2
                       +:+ "T" +:+ text2 h1 h2 +:+ ":" +:+ text2 n1 n2
                       +:+ ":" +:+ text2 s1 s2)
                      Time_type
         = Stored (VTime (time.Date (decimal (text4 y1 y2 y3 y4)) (decimal (text2 m1 m2))
                                    (decimal (text2 d1 d2)) (decimal (text2 h1 h2))
                                    (decimal (text2 n1 n2)) (decimal (text2 s1 s2))
                                    0 time.UTC)))
  /\ (forall year day hour min sec nsec loc,
         time.Date year 14 day hour min sec nsec loc
         = time.Date (year + 1) 2 day hour min sec nsec loc)
  /\ resolve_time "2001-14-01" Time_type = resolve_time "2002-02-01" Time_type
  /\ resolve_time "2001-14-01" Time_type
     = Stored (VTime {| time.unix := 1012521600; time.nsec := 0; time.loc := time.UTC |})
  /\ resolve_time "2001-02-31" Time_type = resolve_time "2001-03-03" Time_type
  /\ resolve_time "2001-12-31T99:99:99Z" Time_type
     = resolve_time "2002-01-04T04:40:39Z" Time_type.
Proof.
  split; [| split; [| split; [| split]]].
  - intros val Hm. unfold resolve_time.
    destruct (FindStringSubmatch 3 ymd_regexp val) as [matches |].
    + eexists. split; [reflexivity | apply Date_nsec_range].
    + destruct Hm as [Hm | Hm]; [congruence |].
      destruct (FindStringSubmatch 9 timestamp_regexp val) as [matches |]; [| congruence].
      eexists. split; [reflexivity | apply Date_nsec_range].
  - intros. unfold resolve_time. rewrite ymd_regexp_digits by assumption.
    cbn [group nth]. rewrite Atoi_4, !Atoi_2 by assumption. reflexivity.
  - intros. unfold resolve_time.
    replace (text4 y1 y2 y3 y4 +:+ "-" +:+ text2 m1 m2 +:+ "-" +:+ text2 d1 d2
             +:+ "T" +:+ text2 h1 h2 +:+ ":" +:+ text2 n1 n2 +:+ ":" +:+ text2 s1 s2)
      with (text4 y1 y2 y3 y4 +:+ "-" +:+ text2 m1 m2 +:+ "-" +:+ text2 d1 d2
            +:+ String "T" (text2 h1 h2 +:+ ":" +:+ text2 n1 n2 +:+ ":" +:+ text2 s1 s2))
      at 1 by reflexivity.
    rewrite ymd_regexp_not_time by assumption.
    rewrite timestamp_regexp_digits by assumption.
    cbn [group nth]. rewrite Atoi_4, !Atoi_2 by assumption. reflexivity.
  - exact Date_month_14.
  - split; [vm_compute; reflexivity |].
    split; [vm_compute; reflexivity |].
    split; vm_compute; reflexivity.
Qed.

Lemma resolve_time_no_range_check_witness :
  (exists t, resolve_time "2001-99-99" Time_type = Stored (VTime t)
             /\ 0 <= time.nsec t < 1000000000)
  /\ resolve_time "2001-99-99" Time_type
     = Stored (VTime (time.Date 2001 99 99 0 0 0 0 time.UTC))
  /\ resolve_time "2001-12-31T99:99:99" Time_type
     = Stored (VTime (time.Date 2001 12 31 99 99 99 0 time.UTC)).
Proof.
  destruct resolve_time_no_range_check as (Hany & Hymd & Hfull & _).
  split; [apply Hany; left; vm_compute; discriminate |].
  split.
  - apply (Hymd "2" "0" "0" "1" "9" "9" "9" "9")%char; reflexivity.
  - apply (Hfull "2" "0" "0" "1" "1" "2" "3" "1" "9" "9" "9" "9" "9" "9")%char;
      reflexivity.
Defined.

(** *** The fraction of a second *)

Lemma append_cons (c : ascii) (a b : string) :
  String c a +:+ b = String c (a +:+ b).
Proof. reflexivity. Qed.

Lemma length_append (a b : string) :
  String.length (a +:+ b) = (String.length a + String.length b)%nat.
Proof.
  induction a as [| c a IH]; [reflexivity |].
  rewrite append_cons. cbn [String.length]. rewrite IH. reflexivity.
Qed.

Lemma substring_0_0 (s : string) : String.substring 0 0 s = "".
Proof. destruct s; reflexivity. Qed.

Lemma consumed_app (a b : string) : consumed (a +:+ b) b = a.
Proof.
  unfold consumed. rewrite length_append, Nat.add_sub.
  induction a as [| c a IH]; [apply substring_0_0 |].
  rewrite append_cons. cbn [String.length String.substring]. rewrite IH. reflexivity.
Qed.

Lemma consumed_cons (c : ascii) (s s' : string) :
  (String.length s' <= String.length s)%nat ->
  consumed (String c s) s' = String c (consumed s s').
Proof.
  intros H. unfold consumed. cbn [String.length].
  rewrite Nat.sub_succ_l by exact H. reflexivity.
Qed.

Lemma consumed_refl (s : string) : consumed s s = "".
Proof. unfold consumed. rewrite Nat.sub_diag. apply substring_0_0. Qed.

Ltac consumed_step :=
  repeat (rewrite consumed_refl
          || rewrite consumed_cons by (cbn [String.length]; lia)).

(** The greedy loop over a run of digits takes them all, when what follows
    the run is accepted by the continuation. *)
Lemma repeat_loop_digits (frac : string) (c : ascii) (rest : string) (k : cont)
    (caps res : list string) :
  all_digits frac = true ->
  is_digit c = false ->
  k (String c rest) caps = Some res ->
  forall fuel, (String.length frac <= fuel)%nat ->
    repeat_loop (run digit_class) k fuel (frac +:+ String c rest) caps = Some res.
Proof.
  intros Hfrac Hc Hk. induction frac as [| d frac IH]; intros fuel Hfuel.
  - change ("" +:+ String c rest) with (String c rest).
    destruct fuel as [| fuel]; cbn [repeat_loop]; [exact Hk |].
    cbn [run digit_class]. rewrite in_class_digit, Hc. cbn [orelse]. exact Hk.
  - cbn [all_digits] in Hfrac. apply andb_prop in Hfrac as [Hd Hfrac].
    cbn [String.length] in Hfuel.
    destruct fuel as [| fuel]; [lia |].
    rewrite append_cons. cbn [repeat_loop]. rewrite (run_digit d _ _ _ Hd).
    cbn [String.length].
    assert ((String.length (frac +:+ String c rest)
             <? S (String.length (frac +:+ String c rest)))%nat = true) as ->
      by (apply Nat.ltb_lt; lia).
    rewrite (IH Hfrac fuel) by lia. reflexivity.
Qed.

Lemma timestamp_regexp_fraction (frac : string) :
  all_digits frac = true ->
  FindStringSubmatch 9 timestamp_regexp ("2001-12-15T02:59:43." +:+ frac +:+ "Z")
  = Some ["2001-12-15T02:59:43." +:+ frac +:+ "Z";
          "2001"; "12"; "15"; "02"; "59"; "43"; frac; ""; ""].
Proof.
  intros Hfrac. unfold FindStringSubmatch, timestamp_regexp.
  rewrite !append_cons. change ("" +:+ frac +:+ "Z") with (frac +:+ "Z").
  cbn -[repeat_loop consumed set_group String.append].
  erewrite (repeat_loop_digits frac "Z" "" _ _ _ Hfrac eq_refl).
  - cbn [orelse]. reflexivity.
  - cbv beta. rewrite consumed_app. consumed_step. vm_compute. reflexivity.
  - rewrite length_append. lia.
Qed.

Lemma decimal_bound (s : string) :
  all_digits s = true -> (String.length s <= 18)%nat ->
  0 <= decimal s < 10 ^ Z.of_nat (String.length s).
Proof.
  intros Hs Hlen.
  assert (10 ^ Z.of_nat (String.length s) <= 10 ^ 18) as Hpow
    by (apply Z.pow_le_mono_r; lia).
  destruct (ParseUint_loop_digits s 0 Hs) as [_ Hb]; [lia | lia |].
  unfold decimal. lia.
Qed.

(** The fraction of a second is read as a count of milliseconds. *)
Lemma resolve_time_fraction (frac : string) :
  all_digits frac = true -> (String.length frac <= 12)%nat ->
  resolve_time ("2001-12-15T02:59:43." +:+ frac +:+ "Z") Time_type
  = Stored (VTime (time.Date 2001 12 15 2 59 43 (decimal frac * time.Millisecond)
                             time.UTC)).
Proof.
  intros Hfrac Hlen. unfold resolve_time.
  replace (FindStringSubmatch 3 ymd_regexp ("2001-12-15T02:59:43." +:+ frac +:+ "Z"))
    with (@None (list string)).
  2:{ symmetry.
      exact (ymd_regexp_not_time "2" "0" "0" "1" "1" "2" "1" "5"
               ("02:59:43." +:+ frac +:+ "Z")
               eq_refl eq_refl eq_refl eq_refl eq_refl eq_refl eq_refl eq_refl). }
  rewrite (timestamp_regexp_fraction frac Hfrac). cbn [group nth].
  change (fst (strconv.Atoi "2001")) with 2001.
  change (fst (strconv.Atoi "12")) with 12.
  change (fst (strconv.Atoi "15")) with 15.
  change (fst (strconv.Atoi "02")) with 2.
  change (fst (strconv.Atoi "59")) with 59.
  change (fst (strconv.Atoi "43")) with 43.
  destruct frac as [| c r]; [reflexivity |].
  change (negb (String.eqb (String c r) "")) with true. cbn iota.
  destruct (Atoi_digits (String c r) Hfrac) as [-> _]; [discriminate | lia |].
  cbn [fst]. unfold mul64.
  pose proof (decimal_bound (String c r) Hfrac ltac:(lia)) as Hb.
  assert (10 ^ Z.of_nat (String.length (String c r)) <= 10 ^ 12) as Hpow
    by (apply Z.pow_le_mono_r; lia).
  rewrite wrap_int_small by (unfold time.Millisecond; lia).
  reflexivity.
Qed.


(** *** Where the dynamic resolver panics *)

Lemma OverflowInt_int64 (x : Z) :
  OverflowInt int64_type (wrap_int 64 x) = Some false.
Proof. exact (OverflowInt_64 int64_type x eq_refl). Qed.

Lemma resolve_int_base_no_panic (val : string) (base sign : Z) :
  resolve_int_base int64_type val base sign <> Panic.
Proof.
  unfold resolve_int_base.
  destruct (strconv.ParseInt val base 64) as [value [e |]]; [discriminate |].
  unfold mul64. rewrite OverflowInt_int64. discriminate.
Qed.

Lemma resolve_int_groups_no_panic (val : string) (digits : list string) (value bes : Z) :
  resolve_int_groups int64_type val digits value bes <> inl Panic.
Proof.
  revert value bes.
  induction digits as [| d digits IH]; intros value bes; cbn [resolve_int_groups].
  - discriminate.
  - destruct (strconv.ParseInt d 10 64) as [n [e |]]; [discriminate |].
    unfold mul64 at 1. rewrite OverflowInt_int64. apply IH.
Qed.

(** [resolve_int] on an [int64] panics exactly when nothing is left of the
    text once its underscores and its sign are removed. *)
Lemma resolve_int_panic_iff (val : string) :
  resolve_int val int64_type = Panic
  <-> match strings.Replace val "_" "" with
      | EmptyString => True
      | String c r => has_byte signs c = true /\ r = ""
      end.
Proof.
  unfold resolve_int.
  assert (forall (sign : Z) (val : string),
             (if String.eqb val "0" then Stored (Zero int64_type)
              else if strings.HasPrefix val "0b"
                   then resolve_int_base int64_type (slice_from 2 val) 2 sign
              else if strings.HasPrefix val "0x"
                   then resolve_int_base int64_type (slice_from 2 val) 16 sign
              else match byte0 val with
                   | None => Panic
                   | Some c0 =>
                       if Ascii.eqb c0 "0"
                       then resolve_int_base int64_type (slice_from 1 val) 8 sign
                       else if strings.Contains val ":" then
                         match resolve_int_groups int64_type val
                                 (rev (strings.Split val ":")) 0 1 with
                         | inl early => early
                         | inr value => SetInt int64_type (mul64 value sign)
                         end
                       else resolve_int_base int64_type val 10 sign
                   end) = Panic <-> val = "") as Htail.
  { intros sign s. destruct s as [| c r]; [split; reflexivity |].
    split; [| discriminate]. intros H. exfalso. revert H.
    destruct (String.eqb (String c r) "0"); [discriminate |].
    destruct (strings.HasPrefix (String c r) "0b"); [apply resolve_int_base_no_panic |].
    destruct (strings.HasPrefix (String c r) "0x"); [apply resolve_int_base_no_panic |].
    cbn [byte0]. destruct (Ascii.eqb c "0"); [apply resolve_int_base_no_panic |].
    destruct (strings.Contains (String c r) ":"); [| apply resolve_int_base_no_panic].
    destruct (resolve_int_groups int64_type (String c r)
                (rev (strings.Split (String c r) ":")) 0 1) as [early | value] eqn:Hloop.
    - intros ->. exact (resolve_int_groups_no_panic _ _ _ _ Hloop).
    - discriminate. }
  destruct (strings.Replace val "_" "") as [| c r]; [split; trivial |].
  cbn [byte0]. unfold has_byte, signs. cbn [strings.Contains].
  rewrite (Ascii.eqb_sym "-"%char c), (Ascii.eqb_sym "+"%char c).
  destruct (Ascii.eqb c "-") eqn:Hm.
  - cbn [slice_from orb]. rewrite Htail. tauto.
  - destruct (Ascii.eqb c "+") eqn:Hp.
    + cbn [slice_from orb]. rewrite Htail. tauto.
    + cbn [orb]. rewrite Htail. split; [discriminate | intros [H _]; discriminate H].
Qed.

Lemma resolve_float_groups_no_panic ParseFloat (val : string) (bits : Z)
    (digits : list string) (value bes : math.float64) :
  resolve_float_groups ParseFloat float64_type val bits digits value bes <> inl Panic.
Proof.
  revert value bes.
  induction digits as [| d digits IH]; intros value bes; cbn [resolve_float_groups].
  - discriminate.
  - destruct (ParseFloat d bits) as [n [e |]]; [discriminate |].
    change (OverflowFloat float64_type (math.mul n bes)) with (Some false).
    apply IH.
Qed.

Lemma resolve_float_no_panic ParseFloat (val : string) :
  strings.Replace val "_" "" <> "" ->
  resolve_float ParseFloat val float64_type <> Panic.
Proof.
  intros Hne. unfold resolve_float.
  destruct (strings.Replace val "_" "") as [| c r]; [congruence |].
  cbn [byte0].
  assert (forall (sign : Z) (val : string),
             (if String.eqb (strings.ToLower val) ".inf"
              then SetFloat float64_type (math.Inf sign)
              else if String.eqb (strings.ToLower val) ".nan"
                   then SetFloat float64_type math.NaN
              else match Bits float64_type with
                   | None => Panic
                   | Some bits =>
                       if strings.Contains val ":" then
                         match resolve_float_groups ParseFloat float64_type val bits
                                 (rev (strings.Split val ":"))
                                 (S754_zero false) (math.of_int 1) with
                         | inl early => early
                         | inr value =>
                             SetFloat float64_type (math.mul value (math.of_int sign))
                         end
                       else
                         let '(value, err) := ParseFloat val bits in
                         let value := math.mul value (math.of_int sign) in
                         match err with
                         | Some _ => Failed ("Float: " +:+ val)
                         | None =>
                             match OverflowFloat float64_type value with
                             | None => Panic
                             | Some true => Failed ("Float: " +:+ val)
                             | Some false => SetFloat float64_type value
                             end
                         end
                   end) <> Panic) as Htail.
  { intros sign s.
    destruct (String.eqb (strings.ToLower s) ".inf"); [discriminate |].
    destruct (String.eqb (strings.ToLower s) ".nan"); [discriminate |].
    change (Bits float64_type) with (Some 64).
    destruct (strings.Contains s ":").
    - destruct (resolve_float_groups ParseFloat float64_type s 64
                  (rev (strings.Split s ":")) (S754_zero false) (math.of_int 1))
        as [early | value] eqn:Hloop; [| discriminate].
      intros ->. exact (resolve_float_groups_no_panic _ _ _ _ _ _ Hloop).
    - destruct (ParseFloat s 64) as [value [e |]]; discriminate. }
  destruct (Ascii.eqb c "-"); [apply Htail |].
  destruct (Ascii.eqb c "+"); apply Htail.
Qed.

Lemma resolve_time_no_panic (val : string) : resolve_time val Time_type <> Panic.
Proof.
  unfold resolve_time.
  destruct (FindStringSubmatch 3 ymd_regexp val); [discriminate |].
  destruct (FindStringSubmatch 9 timestamp_regexp val); discriminate.
Qed.

Lemma resolve_bool_no_panic (val : string) : resolve_bool val bool_type <> Panic.
Proof.
  unfold resolve_bool. destruct (bool_values !! strings.ToLower val); discriminate.
Qed.

Lemma attempt_Panics (o : outcome) (otherwise : returned) :
  attempt o otherwise = Panics <-> o = Panic \/ ((exists msg, o = Failed msg) /\ otherwise = Panics).
Proof.
  destruct o as [x | msg |]; cbn.
  - split; [discriminate | intros [H | [[m H] _]]; discriminate H].
  - split; [intros H; right; eauto | intros [H | [_ H]]; [discriminate H | exact H]].
  - split; [auto | reflexivity].
Qed.

Lemma Replace_cons_keep (c : ascii) (r : string) :
  Ascii.eqb c "_" = false ->
  strings.Replace (String c r) "_" "" = String c (strings.Replace r "_" "").
Proof. intros H. cbn [strings.Replace]. rewrite H. reflexivity. Qed.

(** C1.  The dynamic resolver is not total.  It gives back no error (its
    result is a value or a panic), and it panics exactly on a scalar that
    is not a quoted one and whose text is a sign followed by nothing, or by
    underscores only: [resolve_int] strips the sign and then reads the first
    byte of the empty text that is left.  This holds whatever [ParseFloat]
    does, since the integer attempt comes first.  On every other input a
    value is returned. *)
Theorem resolveInterface_panics_on_bare_sign :
  forall ParseFloat,
    (forall event : yaml_event_t,
        resolveInterface ParseFloat event = Panics
        <-> ((tag event <> "" \/ implicit event = true)
             /\ bare_sign (value event) = true))
    /\ resolveInterface ParseFloat {| value := "+"; tag := ""; implicit := true |} = Panics
    /\ resolveInterface ParseFloat {| value := "-"; tag := ""; implicit := true |} = Panics
    /\ resolveInterface ParseFloat {| value := "-_"; tag := "!!int"; implicit := false |}
       = Panics.
Proof.
  intros ParseFloat. split; [| repeat split; vm_compute; reflexivity].
  intros [val tg imp]. unfold resolveInterface. cbn [value tag implicit].
  destruct val as [| c r].
  { cbn. split; [discriminate | intros [_ H]; discriminate H]. }
  change ((String.length (String c r) =? 0)%nat) with false. cbn iota.
  destruct ((String.length tg =? 0)%nat && negb imp) eqn:Hq.
  { split; [discriminate |]. intros [[Ht | Hi] _]; exfalso.
    - destruct tg; [congruence | discriminate Hq].
    - subst imp. rewrite andb_false_r in Hq. discriminate Hq. }
  assert (tg <> "" \/ imp = true) as Hnq.
  { destruct tg; [right | left; discriminate]. destruct imp; [reflexivity | discriminate Hq]. }
  cbn [byte0 bare_sign].
  destruct (has_byte signs c) eqn:Hs.
  - (* a sign *)
    assert (Ascii.eqb c "_" = false) as Hu.
    { destruct (Ascii.eqb c "_") eqn:E; [| reflexivity].
      apply Ascii.eqb_eq in E. subst c. discriminate Hs. }
    rewrite attempt_Panics, resolve_int_panic_iff, (Replace_cons_keep c r Hu).
    rewrite attempt_Panics. cbn [andb].
    split.
    + intros [[_ ->] | [_ [H | [_ H]]]].
      * split; [exact Hnq | reflexivity].
      * exfalso. revert H. apply resolve_float_no_panic.
        rewrite (Replace_cons_keep c r Hu). discriminate.
      * discriminate H.
    + intros [_ H]. left. split; [exact Hs |].
      destruct (strings.Replace r "_" ""); [reflexivity | discriminate H].
  - (* not a sign *)
    cbn [andb]. split; [| intros [_ H]; discriminate H].
    intros H. exfalso. revert H.
    assert (Ascii.eqb c "_" = false ->
            strings.Replace (String c r) "_" "" <> "") as Hne
      by (intros Hu; rewrite (Replace_cons_keep c r Hu); discriminate).
    destruct ((48 <=? strconv.code c) && (strconv.code c <=? 57)) eqn:Hd.
    + assert (Ascii.eqb c "_" = false) as Hu.
      { destruct (Ascii.eqb c "_") eqn:E; [| reflexivity].
        apply Ascii.eqb_eq in E. subst c. discriminate Hd. }
      rewrite attempt_Panics, resolve_int_panic_iff, (Replace_cons_keep c r Hu), Hs.
      rewrite attempt_Panics. cbn [negb]. rewrite attempt_Panics.
      intros [[H _] | [_ [H | [_ [H | [_ H]]]]]].
      * discriminate H.
      * revert H. apply resolve_float_no_panic, Hne, Hu.
      * revert H. apply resolve_time_no_panic.
      * discriminate H.
    + destruct (has_byte nulls c).
      { destruct (index_bool null_values (String c r)); [discriminate |].
        rewrite attempt_Panics. intros [H | [_ H]]; [| discriminate H].
        revert H. apply resolve_bool_no_panic. }
      destruct (Ascii.eqb c ".") eqn:Hdot.
      { apply Ascii.eqb_eq in Hdot. subst c.
        rewrite attempt_Panics. intros [H | [_ H]]; [| discriminate H].
        revert H. apply resolve_float_no_panic, Hne. reflexivity. }
      destruct (has_byte bools c); [| discriminate].
      rewrite attempt_Panics. intros [H | [_ H]]; [| discriminate H].
      revert H. apply resolve_bool_no_panic.
Qed.

(** ** Properties beyond the specification *)

(** *** The dispatcher *)

(** The table of nulls, read as a function of the key. *)
Lemma null_values_lookup (k : string) :
  null_values !! k =
    if decide (k = "") then Some true
    else if decide (k = "NULL") then Some true
    else if decide (k = "Null") then Some true
    else if decide (k = "null") then Some true
    else if decide (k = "~") then Some true
    else None.
Proof.
  unfold null_values. rewrite !lookup_insert, lookup_empty.
  repeat (case_decide; [subst k; reflexivity |]).
  repeat (case_decide; [congruence |]). reflexivity.
Qed.

Lemma index_null_values (val : string) :
  index_bool null_values val = null_spelling val.
Proof.
  unfold index_bool, null_spelling. rewrite null_values_lookup. cbn [existsb].
  repeat (case_decide; [subst val; reflexivity |]).
  repeat match goal with
         | H : val <> ?w |- _ => apply String.eqb_neq in H; rewrite H; clear H
         end.
  reflexivity.
Qed.

Lemma null_spelling_Replace (val : string) :
  strings.Replace val "_" "" = "" -> val <> "" -> null_spelling val = false.
Proof.
  intros Hr Hne. unfold null_spelling. cbn [existsb].
  destruct (String.eqb_spec val "") as [-> | _]; [congruence |].
  destruct (String.eqb_spec val "~") as [-> | _]; [discriminate Hr |].
  destruct (String.eqb_spec val "null") as [-> | _]; [discriminate Hr |].
  destruct (String.eqb_spec val "Null") as [-> | _]; [discriminate Hr |].
  destruct (String.eqb_spec val "NULL") as [-> | _]; [discriminate Hr |].
  reflexivity.
Qed.

(** X1.  Into a string target every text is stored as it is, underscores,
    signs and blanks included, except the four non-empty null spellings,
    for which the empty string is stored. *)
Theorem resolve_string_verbatim :
  forall ParseFloat Decode (event : yaml_event_t) (v : Type_),
    Kind_of v = String_ ->
    resolve ParseFloat Decode event v
    = Stored (VString (if null_spelling (value event) then "" else value event)).
Proof.
  intros ParseFloat Decode event v Hk. unfold resolve.
  rewrite index_null_values. destruct (null_spelling (value event)).
  - unfold Zero. rewrite Hk. reflexivity.
  - rewrite Hk. unfold SetString. rewrite Hk. reflexivity.
Qed.

Lemma resolve_string_verbatim_witness :
  resolve ParseFloat_plain Decode_std {| value := " 1_000 "; tag := ""; implicit := true |}
          {| Kind_of := String_; String_of := "string"; Methods_of := NoMethod |} = Stored (VString " 1_000 ")
  /\ resolve ParseFloat_plain Decode_std {| value := "Null"; tag := ""; implicit := false |}
             {| Kind_of := String_; String_of := "string"; Methods_of := NoMethod |} = Stored (VString "").
Proof.
  split.
  - exact (resolve_string_verbatim ParseFloat_plain Decode_std
             {| value := " 1_000 "; tag := ""; implicit := true |}
             {| Kind_of := String_; String_of := "string"; Methods_of := NoMethod |} eq_refl).
  - exact (resolve_string_verbatim ParseFloat_plain Decode_std
             {| value := "Null"; tag := ""; implicit := false |}
             {| Kind_of := String_; String_of := "string"; Methods_of := NoMethod |} eq_refl).
Defined.

(** X2.  What [resolve] answers without a converter, on a text that is not
    a null spelling: the error "Resolve failed for " and the name of the
    kind on a kind the switch does not name ([uintptr] among them); the
    error "Cannot resolve into " and the name of the type on a slice that is
    not [[]byte]; and on [[]byte] what the base64 decoder gives, its bytes
    stored or its error returned unchanged. *)
Theorem resolve_without_converter :
  forall ParseFloat Decode (event : yaml_event_t) (v : Type_),
    null_spelling (value event) = false ->
    (unsupported_kind (Kind_of v) = true ->
     resolve ParseFloat Decode event v
     = Failed ("Resolve failed for " +:+ Kind_String (Kind_of v)))
    /\ (Kind_of v = Slice -> Type_eqb v byteSliceType = false ->
        resolve ParseFloat Decode event v = Failed ("Cannot resolve into " +:+ String_of v))
    /\ (v = byteSliceType ->
        resolve ParseFloat Decode event v
        = match Decode (value event) with
          | (b, None) => Stored (VBytes b)
          | (_, Some msg) => Failed msg
          end).
Proof.
  intros ParseFloat Decode event v Hn. unfold resolve.
  rewrite index_null_values, Hn. split; [| split].
  - destruct (Kind_of v); intros H; try discriminate H; reflexivity.
  - intros -> ->. reflexivity.
  - intros ->. cbn [Kind_of byteSliceType].
    change (Type_eqb byteSliceType byteSliceType) with true. cbn [negb].
    destruct (Decode (value event)) as [b [msg |]]; reflexivity.
Qed.

Lemma resolve_without_converter_witness :
  resolve ParseFloat_plain Decode_std {| value := "1"; tag := ""; implicit := true |}
          {| Kind_of := Uintptr; String_of := "uintptr"; Methods_of := NoMethod |}
  = Failed "Resolve failed for uintptr"
  /\ resolve ParseFloat_plain Decode_std {| value := "1"; tag := ""; implicit := true |}
             {| Kind_of := Slice; String_of := "[]int"; Methods_of := NoMethod |}
     = Failed "Cannot resolve into []int"
  /\ resolve ParseFloat_plain Decode_std {| value := "aGk="; tag := ""; implicit := true |}
             byteSliceType = Stored (VBytes "hi")
  /\ resolve ParseFloat_plain Decode_std {| value := "a"; tag := ""; implicit := true |}
             byteSliceType = Failed "illegal base64 data".
Proof.
  split; [| split; [| split]].
  - apply (resolve_without_converter ParseFloat_plain Decode_std
             {| value := "1"; tag := ""; implicit := true |}
             {| Kind_of := Uintptr; String_of := "uintptr"; Methods_of := NoMethod |} eq_refl). reflexivity.
  - apply (resolve_without_converter ParseFloat_plain Decode_std
             {| value := "1"; tag := ""; implicit := true |}
             {| Kind_of := Slice; String_of := "[]int"; Methods_of := NoMethod |} eq_refl); reflexivity.
  - exact (proj2 (proj2 (resolve_without_converter ParseFloat_plain Decode_std
             {| value := "aGk="; tag := ""; implicit := true |} byteSliceType eq_refl))
             eq_refl).
  - exact (proj2 (proj2 (resolve_without_converter ParseFloat_plain Decode_std
             {| value := "a"; tag := ""; implicit := true |} byteSliceType eq_refl))
             eq_refl).
Defined.

Lemma resolve_uint_empty (val : string) (v : Type_) :
  strings.Replace val "_" "" = "" -> resolve_uint val v = Panic.
Proof. intros H. unfold resolve_uint. rewrite H. reflexivity. Qed.

Lemma resolve_int_empty (val : string) (v : Type_) :
  strings.Replace val "_" "" = "" -> resolve_int val v = Panic.
Proof. intros H. unfold resolve_int. rewrite H. reflexivity. Qed.

Lemma resolve_float_empty ParseFloat (val : string) (v : Type_) :
  strings.Replace val "_" "" = "" -> resolve_float ParseFloat val v = Panic.
Proof. intros H. unfold resolve_float. rewrite H. reflexivity. Qed.

(** X3.  A text of underscores only is not a null spelling, and nothing is
    left of it once the underscores are removed: into a numeric target
    [resolve] panics on it, reading the first byte of an empty text, while
    [resolveInterface] returns it as a string. *)
Theorem resolve_underscores_only :
  forall ParseFloat Decode (event : yaml_event_t) (v : Type_),
    value event <> "" ->
    strings.Replace (value event) "_" "" = "" ->
    (numeric_kind (Kind_of v) = true -> resolve ParseFloat Decode event v = Panic)
    /\ resolveInterface ParseFloat event = Returns (VString (value event)).
Proof.
  intros ParseFloat Decode [val tg imp] v Hne Hr. cbn [value] in *. split.
  - intros Hk. unfold resolve. cbn [value].
    rewrite index_null_values, (null_spelling_Replace val Hr Hne).
    destruct (Kind_of v); try discriminate Hk;
      solve [apply resolve_int_empty, Hr | apply resolve_uint_empty, Hr
            | apply resolve_float_empty, Hr].
  - unfold resolveInterface. cbn [value tag implicit].
    destruct val as [| c r]; [congruence |].
    change ((String.length (String c r) =? 0)%nat) with false. cbn iota.
    destruct ((String.length tg =? 0)%nat && negb imp); [reflexivity |].
    cbn [byte0].
    assert (c = "_"%char) as ->.
    { cbn [strings.Replace] in Hr. destruct (Ascii.eqb_spec c "_") as [-> | _];
        [reflexivity | discriminate Hr]. }
    reflexivity.
Qed.

Lemma resolve_underscores_only_witness :
  resolve ParseFloat_plain Decode_std {| value := "_"; tag := ""; implicit := true |}
          int64_type = Panic
  /\ resolveInterface ParseFloat_plain {| value := "__"; tag := ""; implicit := true |}
     = Returns (VString "__").
Proof.
  split.
  - apply (resolve_underscores_only ParseFloat_plain Decode_std
             {| value := "_"; tag := ""; implicit := true |} int64_type);
      [discriminate | reflexivity | reflexivity].
  - apply (resolve_underscores_only ParseFloat_plain Decode_std
             {| value := "__"; tag := ""; implicit := true |} int64_type);
      [discriminate | reflexivity].
Defined.

(** *** What the dynamic resolver returns *)

Lemma resolve_int_groups_not_stored (v : Type_) (val : string) (digits : list string)
    (value bes : Z) (x : Value) :
  resolve_int_groups v val digits value bes <> inl (Stored x).
Proof.
  revert value bes.
  induction digits as [| d digits IH]; intros value bes; cbn [resolve_int_groups].
  - discriminate.
  - destruct (strconv.ParseInt d 10 64) as [n [e |]]; [discriminate |].
    destruct (OverflowInt v (mul64 n bes)) as [[|] |]; try discriminate. apply IH.
Qed.

Lemma resolve_int_base_stores (val : string) (base sign : Z) (x : Value) :
  resolve_int_base int64_type val base sign = Stored x ->
  exists n, x = VInt n /\ - 2 ^ 63 <= n < 2 ^ 63.
Proof.
  unfold resolve_int_base.
  destruct (strconv.ParseInt val base 64) as [value [e |]]; [discriminate |].
  unfold mul64. rewrite OverflowInt_int64, (SetInt_64 int64_type _ eq_refl).
  intros H. injection H as <-. eexists. split; [reflexivity | apply wrap_int_range].
Qed.

(** [resolve_int] on an [int64] stores a 64-bit integer, if anything. *)
Lemma resolve_int_stores (val : string) (x : Value) :
  resolve_int val int64_type = Stored x ->
  exists n, x = VInt n /\ - 2 ^ 63 <= n < 2 ^ 63.
Proof.
  unfold resolve_int.
  destruct (byte0 (strings.Replace val "_" "")) as [c |]; [| discriminate].
  destruct (if Ascii.eqb c "-" then (-1, slice_from 1 (strings.Replace val "_" ""))
            else if Ascii.eqb c "+" then (1, slice_from 1 (strings.Replace val "_" ""))
            else (1, strings.Replace val "_" "")) as [sign s].
  destruct (String.eqb s "0").
  { intros H. injection H as <-. exists 0. split; [reflexivity | lia]. }
  destruct (strings.HasPrefix s "0b"); [apply resolve_int_base_stores |].
  destruct (strings.HasPrefix s "0x"); [apply resolve_int_base_stores |].
  destruct (byte0 s) as [c0 |]; [| discriminate].
  destruct (Ascii.eqb c0 "0"); [apply resolve_int_base_stores |].
  destruct (strings.Contains s ":"); [| apply resolve_int_base_stores].
  destruct (resolve_int_groups int64_type s (rev (strings.Split s ":")) 0 1)
    as [early | value] eqn:Hloop.
  - intros ->. exfalso. exact (resolve_int_groups_not_stored _ _ _ _ _ _ Hloop).
  - rewrite (SetInt_64 int64_type _ eq_refl). intros H. injection H as <-.
    eexists. split; [reflexivity | apply wrap_int_range].
Qed.

Lemma resolve_float_groups_not_stored ParseFloat (v : Type_) (val : string) (bits : Z)
    (digits : list string) (value bes : math.float64) (x : Value) :
  resolve_float_groups ParseFloat v val bits digits value bes <> inl (Stored x).
Proof.
  revert value bes.
  induction digits as [| d digits IH]; intros value bes; cbn [resolve_float_groups].
  - discriminate.
  - destruct (ParseFloat d bits) as [n [e |]]; [discriminate |].
    destruct (OverflowFloat v (math.mul n bes)) as [[|] |]; try discriminate. apply IH.
Qed.

(** [resolve_float] on a [float64] stores a float, if anything. *)
Lemma resolve_float_stores ParseFloat (val : string) (x : Value) :
  resolve_float ParseFloat val float64_type = Stored x -> exists f, x = VFloat f.
Proof.
  unfold resolve_float.
  destruct (byte0 (strings.Replace val "_" "")) as [c |]; [| discriminate].
  destruct (if Ascii.eqb c "-" then (-1, slice_from 1 (strings.Replace val "_" ""))
            else if Ascii.eqb c "+" then (1, slice_from 1 (strings.Replace val "_" ""))
            else (1, strings.Replace val "_" "")) as [sign s].
  destruct (String.eqb (strings.ToLower s) ".inf").
  { intros H. injection H as <-. eauto. }
  destruct (String.eqb (strings.ToLower s) ".nan").
  { intros H. injection H as <-. eauto. }
  change (Bits float64_type) with (Some 64).
  destruct (strings.Contains s ":").
  - destruct (resolve_float_groups ParseFloat float64_type s 64
                (rev (strings.Split s ":")) (S754_zero false) (math.of_int 1))
      as [early | value] eqn:Hloop.
    + intros ->. exfalso. exact (resolve_float_groups_not_stored _ _ _ _ _ _ _ _ Hloop).
    + intros H. injection H as <-. eauto.
  - destruct (ParseFloat s 64) as [value [e |]]; [discriminate |].
    intros H. injection H as <-. eauto.
Qed.

Lemma resolve_time_stores (val : string) (x : Value) :
  resolve_time val Time_type = Stored x -> exists t, x = VTime t.
Proof.
  unfold resolve_time.
  destruct (FindStringSubmatch 3 ymd_regexp val).
  { intros H. injection H as <-. eauto. }
  destruct (FindStringSubmatch 9 timestamp_regexp val); [| discriminate].
  intros H. injection H as <-. eauto.
Qed.

Lemma resolve_bool_stores (val : string) (x : Value) :
  resolve_bool val bool_type = Stored x -> exists b, x = VBool b.
Proof.
  unfold resolve_bool. destruct (bool_values !! strings.ToLower val); [| discriminate].
  intros H. injection H as <-. eauto.
Qed.

Lemma attempt_Returns (o : outcome) (otherwise : returned) (x : Value) :
  attempt o otherwise = Returns x
  <-> o = Stored x \/ ((exists msg, o = Failed msg) /\ otherwise = Returns x).
Proof.
  destruct o as [y | msg |]; cbn.
  - split; [intros H; injection H as ->; auto |].
    intros [H | [[m H] _]]; [injection H as ->; reflexivity | discriminate H].
  - split; [intros H; right; eauto | intros [H | [_ H]]; [discriminate H | exact H]].
  - split; [discriminate | intros [H | [[m H] _]]; discriminate H].
Qed.

(** X4.  What [resolveInterface] can return: nil, the raw text as a string
    (never an altered text), a bool, a 64-bit integer, a float or a time;
    no unsigned integer and no bytes. *)
Theorem resolveInterface_returns :
  forall ParseFloat (event : yaml_event_t) (x : Value),
    resolveInterface ParseFloat event = Returns x ->
    x = VNil \/ x = VString (value event) \/ (exists b, x = VBool b)
    \/ (exists n, x = VInt n /\ - 2 ^ 63 <= n < 2 ^ 63)
    \/ (exists f, x = VFloat f) \/ (exists t, x = VTime t).
Proof.
  intros ParseFloat [val tg imp] x. unfold resolveInterface. cbn [value tag implicit].
  destruct ((String.length val =? 0)%nat); [intros H; injection H as <-; auto |].
  destruct ((String.length tg =? 0)%nat && negb imp); [intros H; injection H as <-; auto |].
  destruct (byte0 val) as [c |]; [| discriminate].
  assert (forall o, attempt o (Returns (VString val)) = Returns x ->
                    (forall y, o = Stored y ->
                       (exists b, y = VBool b) \/ (exists f, y = VFloat f)
                       \/ (exists t, y = VTime t)) ->
                    x = VNil \/ x = VString val \/ (exists b, x = VBool b)
                    \/ (exists n, x = VInt n /\ - 2 ^ 63 <= n < 2 ^ 63)
                    \/ (exists f, x = VFloat f) \/ (exists t, x = VTime t)) as Hlast.
  { intros o H Ho. apply attempt_Returns in H as [H | [_ H]].
    - destruct (Ho x H) as [? | [? | ?]]; auto 10.
    - injection H as <-. auto. }
  assert (forall sign : bool,
             attempt (resolve_int val int64_type)
               (attempt (resolve_float ParseFloat val float64_type)
                  (if negb sign
                   then attempt (resolve_time val Time_type) (Returns (VString val))
                   else Returns (VString val))) = Returns x ->
             x = VNil \/ x = VString val \/ (exists b, x = VBool b)
             \/ (exists n, x = VInt n /\ - 2 ^ 63 <= n < 2 ^ 63)
             \/ (exists f, x = VFloat f) \/ (exists t, x = VTime t)) as Hnum.
  { intros sign H. apply attempt_Returns in H as [H | [_ H]].
    { apply resolve_int_stores in H. auto 10. }
    apply attempt_Returns in H as [H | [_ H]].
    { apply resolve_float_stores in H. auto 10. }
    destruct sign; cbn [negb] in H; [injection H as <-; auto |].
    apply (Hlast _ H). intros y Hy. apply resolve_time_stores in Hy. auto. }
  destruct (has_byte signs c); [apply Hnum |].
  destruct ((48 <=? strconv.code c) && (strconv.code c <=? 57)); [apply Hnum |].
  destruct (has_byte nulls c).
  { destruct (index_bool null_values val); [intros H; injection H as <-; auto |].
    intros H. apply (Hlast _ H). intros y Hy. apply resolve_bool_stores in Hy. auto. }
  destruct (Ascii.eqb c ".").
  { intros H. apply (Hlast _ H). intros y Hy. apply resolve_float_stores in Hy. auto. }
  destruct (has_byte bools c); [| intros H; injection H as <-; auto].
  intros H. apply (Hlast _ H). intros y Hy. apply resolve_bool_stores in Hy. auto.
Qed.

Lemma resolveInterface_returns_witness :
  VInt 42 = VNil \/ VInt 42 = VString "42" \/ (exists b, VInt 42 = VBool b)
  \/ (exists n, VInt 42 = VInt n /\ - 2 ^ 63 <= n < 2 ^ 63)
  \/ (exists f, VInt 42 = VFloat f) \/ (exists t, VInt 42 = VTime t).
Proof.
  apply (resolveInterface_returns ParseFloat_plain
           {| value := "42"; tag := ""; implicit := true |} (VInt 42)).
  vm_compute. reflexivity.
Defined.

Lemma resolveInterface_nil_inv ParseFloat (event : yaml_event_t) :
  resolveInterface ParseFloat event = Returns VNil ->
  value event = "" \/ (quoted event = false /\ null_spelling (value event) = true).
Proof.
  destruct event as [val tg imp]. unfold quoted. cbn [value tag implicit].
  unfold resolveInterface. cbn [value tag implicit].
  destruct val as [| c r]; [auto |].
  change ((String.length (String c r) =? 0)%nat) with false. cbn iota.
  destruct ((String.length tg =? 0)%nat && negb imp); [discriminate |].
  cbn [byte0]. intros H. right. split; [reflexivity |]. revert H.
  assert (forall o, (forall y, o = Stored y -> y <> VNil) ->
                    attempt o (Returns (VString (String c r))) <> Returns VNil) as Hlast.
  { intros o Ho H. apply attempt_Returns in H as [H | [_ H]];
      [exact (Ho _ H eq_refl) | discriminate H]. }
  assert (forall sign : bool,
             attempt (resolve_int (String c r) int64_type)
               (attempt (resolve_float ParseFloat (String c r) float64_type)
                  (if negb sign
                   then attempt (resolve_time (String c r) Time_type)
                          (Returns (VString (String c r)))
                   else Returns (VString (String c r)))) <> Returns VNil) as Hnum.
  { intros sign H. apply attempt_Returns in H as [H | [_ H]].
    { apply resolve_int_stores in H as (n & H & _). discriminate H. }
    apply attempt_Returns in H as [H | [_ H]].
    { apply resolve_float_stores in H as (f & H). discriminate H. }
    destruct sign; cbn [negb] in H; [discriminate H |].
    revert H. apply Hlast. intros y Hy ->.
    apply resolve_time_stores in Hy as (t & Hy). discriminate Hy. }
  destruct (has_byte signs c); [intros H; exfalso; exact (Hnum true H) |].
  destruct ((48 <=? strconv.code c) && (strconv.code c <=? 57));
    [intros H; exfalso; exact (Hnum false H) |].
  destruct (has_byte nulls c).
  { rewrite index_null_values.
    destruct (null_spelling (String c r)); [reflexivity |].
    intros H. exfalso. revert H. apply Hlast. intros y Hy ->.
    apply resolve_bool_stores in Hy as (b & Hy). discriminate Hy. }
  destruct (Ascii.eqb c ".").
  { intros H. exfalso. revert H. apply Hlast. intros y Hy ->.
    apply resolve_float_stores in Hy as (f & Hy). discriminate Hy. }
  destruct (has_byte bools c); [| discriminate].
  intros H. exfalso. revert H. apply Hlast. intros y Hy ->.
  apply resolve_bool_stores in Hy as (b & Hy). discriminate Hy.
Qed.

(** X5.  [resolveInterface] returns nil exactly on the empty text and on a
    null spelling that is not quoted: a quoted [null] is the string. *)
Theorem resolveInterface_nil_iff :
  forall ParseFloat (event : yaml_event_t),
    resolveInterface ParseFloat event = Returns VNil
    <-> value event = "" \/ (quoted event = false /\ null_spelling (value event) = true).
Proof.
  intros ParseFloat [val tg imp]. unfold quoted. cbn [value tag implicit].
  split.
  - apply resolveInterface_nil_inv.
  - intros [-> | [Hq Hn]]; [reflexivity |].
    unfold resolveInterface. cbn [value tag implicit]. rewrite Hq.
    unfold null_spelling in Hn. cbn [existsb] in Hn.
    destruct (String.eqb_spec val "") as [-> | _]; [reflexivity |].
    destruct (String.eqb_spec val "~") as [-> | _]; [reflexivity |].
    destruct (String.eqb_spec val "null") as [-> | _]; [reflexivity |].
    destruct (String.eqb_spec val "Null") as [-> | _]; [reflexivity |].
    destruct (String.eqb_spec val "NULL") as [-> | _]; [reflexivity |].
    discriminate Hn.
Qed.


(** X6.  [resolve] into an interface target.  A null spelling gives nil,
    quoted or not.  On every other text [resolveInterface] returns no nil,
    so that the store of a nil value, which would panic, does not happen;
    what it returns is stored when its type implements the interface type
    of the target, and the store panics when it does not.  A type without
    methods ([interface{}]) holds every value; a type with methods holds no
    string, bool, integer or float, and holds a time when [time.Time] has
    all its methods. *)
Theorem resolve_interface_target :
  forall ParseFloat Decode (event : yaml_event_t) (v : Type_),
    Kind_of v = Interface ->
    resolve ParseFloat Decode event v =
      if null_spelling (value event) then Stored VNil
      else match resolveInterface ParseFloat event with
           | Panics => Panic
           | Returns x =>
               match Methods_of v with
               | NoMethod => Stored x
               | MethodsOfTime =>
                   match x with
                   | VTime _ => Stored x
                   | _ => Panic
                   end
               | OtherMethods => Panic
               end
           end.
Proof.
  intros ParseFloat Decode event v Hk. unfold resolve.
  rewrite index_null_values. destruct (null_spelling (value event)) eqn:Hn.
  - unfold Zero. rewrite Hk. reflexivity.
  - rewrite Hk.
    destruct (resolveInterface ParseFloat event) as [x |] eqn:Hr; [| reflexivity].
    unfold Set_Interface.
    destruct x; destruct (Methods_of v); try reflexivity;
      apply resolveInterface_nil_inv in Hr as [H | [_ H]];
      solve [congruence | rewrite H in Hn; discriminate Hn].
Qed.

Lemma resolve_interface_target_witness :
  resolve ParseFloat_plain Decode_std {| value := "null"; tag := ""; implicit := false |}
          {| Kind_of := Interface; String_of := "interface {}"; Methods_of := NoMethod |}
  = Stored VNil
  /\ resolveInterface ParseFloat_plain {| value := "null"; tag := ""; implicit := false |}
     = Returns (VString "null")
  /\ resolve ParseFloat_plain Decode_std {| value := "12"; tag := ""; implicit := true |}
             {| Kind_of := Interface; String_of := "interface {}"; Methods_of := NoMethod |}
     = Stored (VInt 12)
  /\ resolve ParseFloat_plain Decode_std {| value := "12"; tag := ""; implicit := true |}
             {| Kind_of := Interface; String_of := "error"; Methods_of := OtherMethods |}
     = Panic
  /\ resolve ParseFloat_plain Decode_std
             {| value := "2002-12-14"; tag := ""; implicit := true |}
             {| Kind_of := Interface; String_of := "fmt.Stringer";
                Methods_of := MethodsOfTime |}
     = Stored (VTime (time.Date 2002 12 14 0 0 0 0 time.UTC)).
Proof.
  split; [| split; [reflexivity | split; [| split]]].
  - exact (resolve_interface_target ParseFloat_plain Decode_std
             {| value := "null"; tag := ""; implicit := false |}
             {| Kind_of := Interface; String_of := "interface {}"; Methods_of := NoMethod |}
             eq_refl).
  - rewrite (resolve_interface_target ParseFloat_plain Decode_std
               {| value := "12"; tag := ""; implicit := true |}
               {| Kind_of := Interface; String_of := "interface {}";
                  Methods_of := NoMethod |} eq_refl).
    vm_compute. reflexivity.
  - rewrite (resolve_interface_target ParseFloat_plain Decode_std
               {| value := "12"; tag := ""; implicit := true |}
               {| Kind_of := Interface; String_of := "error";
                  Methods_of := OtherMethods |} eq_refl).
    vm_compute. reflexivity.
  - rewrite (resolve_interface_target ParseFloat_plain Decode_std
               {| value := "2002-12-14"; tag := ""; implicit := true |}
               {| Kind_of := Interface; String_of := "fmt.Stringer";
                  Methods_of := MethodsOfTime |} eq_refl).
    vm_compute. reflexivity.
Defined.

(** X7.  The tag only counts as present or absent: two scalars with the
    same text that are both not quoted resolve alike, whatever their tags.
    A scalar tagged as a string whose text is a number is returned as the
    number. *)
Theorem resolveInterface_ignores_tag :
  forall ParseFloat (val tag1 tag2 : string) (implicit1 implicit2 : bool),
    quoted {| value := val; tag := tag1; implicit := implicit1 |} = false ->
    quoted {| value := val; tag := tag2; implicit := implicit2 |} = false ->
    resolveInterface ParseFloat {| value := val; tag := tag1; implicit := implicit1 |}
    = resolveInterface ParseFloat {| value := val; tag := tag2; implicit := implicit2 |}.
Proof.
  intros ParseFloat val tag1 tag2 implicit1 implicit2. unfold quoted, resolveInterface.
  cbn [value tag implicit]. intros -> ->. reflexivity.
Qed.

Lemma resolveInterface_ignores_tag_witness :
  resolveInterface ParseFloat_plain {| value := "123"; tag := "!!str"; implicit := false |}
  = Returns (VInt 123).
Proof.
  rewrite (resolveInterface_ignores_tag ParseFloat_plain "123" "!!str" ""
             false true eq_refl eq_refl).
  vm_compute. reflexivity.
Defined.

(** *** Underscores *)

Lemma Replace_idem (s : string) :
  strings.Replace (strings.Replace s "_" "") "_" "" = strings.Replace s "_" "".
Proof.
  induction s as [| c s IH]; [reflexivity |]. cbn [strings.Replace].
  destruct (Ascii.eqb c "_") eqn:Hc; [exact IH |].
  cbn [strings.Replace]. rewrite Hc, IH. reflexivity.
Qed.

(** X8.  The numeric converters do not see underscores, wherever they are:
    before the sign, inside a base prefix, at the end.  A text and the text
    without its underscores have the same outcome, error message
    included. *)
Theorem underscores_are_ignored :
  forall ParseFloat (val : string) (v : Type_),
    resolve_int val v = resolve_int (strings.Replace val "_" "") v
    /\ resolve_uint val v = resolve_uint (strings.Replace val "_" "") v
    /\ resolve_float ParseFloat val v
       = resolve_float ParseFloat (strings.Replace val "_" "") v.
Proof.
  intros ParseFloat val v.
  unfold resolve_int, resolve_uint, resolve_float. rewrite !Replace_idem.
  repeat split.
Qed.

(** *** Decimal texts of any length *)

Lemma decimal_from_ge (s : string) (n : Z) :
  all_digits s = true -> 0 <= n -> n <= decimal_from s n.
Proof.
  revert n. induction s as [| c s IH]; intros n Hs Hn; cbn [decimal_from]; [lia |].
  cbn [all_digits] in Hs. apply andb_prop in Hs as [Hc Hs].
  destruct (is_digit_digit c Hc) as [_ Hd].
  specialize (IH (n * 10 + (strconv.code c - 48)) Hs). lia.
Qed.

Lemma ParseUint_loop_decimal (s : string) (n : Z) :
  all_digits s = true -> 0 <= n <= 2 ^ 64 - 1 ->
  strconv.ParseUint_loop s 10 (2 ^ 64 - 1) ((2 ^ 64 - 1) / 10 + 1) n
  = if decimal_from s n <=? 2 ^ 64 - 1 then (decimal_from s n, None)
    else (2 ^ 64 - 1, Some strconv.ErrRange).
Proof.
  change ((2 ^ 64 - 1) / 10 + 1) with 1844674407370955162.
  change (2 ^ 64 - 1) with 18446744073709551615.
  revert n. induction s as [| c s IH]; intros n Hs Hn.
  - cbn. destruct (Z.leb_spec n 18446744073709551615); [reflexivity | lia].
  - cbn [all_digits] in Hs. apply andb_prop in Hs as [Hc Hs].
    destruct (is_digit_digit c Hc) as [Hd Hr].
    cbn [strconv.ParseUint_loop decimal_from]. rewrite Hd.
    pose proof (decimal_from_ge s (n * 10 + (strconv.code c - 48)) Hs ltac:(lia)) as Hge.
    destruct (Z.geb_spec (strconv.code c - 48) 10) as [? | _]; [lia |].
    destruct (Z.geb_spec n 1844674407370955162) as [Hcut | Hcut].
    { destruct (Z.leb_spec (decimal_from s (n * 10 + (strconv.code c - 48)))
                  18446744073709551615); [lia | reflexivity]. }
    destruct (Z.gtb_spec (n * 10 + (strconv.code c - 48)) 18446744073709551615)
      as [Hbig | Hbig].
    { destruct (Z.leb_spec (decimal_from s (n * 10 + (strconv.code c - 48)))
                  18446744073709551615); [lia | reflexivity]. }
    apply IH; [exact Hs | lia].
Qed.

Lemma ParseUint_decimal (s : string) :
  all_digits s = true -> s <> "" ->
  strconv.ParseUint s 10 64
  = if decimal s <? 2 ^ 64 then (decimal s, None)
    else (2 ^ 64 - 1, Some strconv.ErrRange).
Proof.
  intros Hs Hne. unfold strconv.ParseUint. destruct s as [| c r]; [congruence |].
  change ((2 <=? 10) && (10 <=? 36)) with true. cbn iota.
  change (if 64 =? 0 then strconv.IntSize else 64) with 64.
  rewrite (ParseUint_loop_decimal _ 0 Hs) by lia. fold (decimal (String c r)).
  destruct (Z.leb_spec (decimal (String c r)) (2 ^ 64 - 1)),
           (Z.ltb_spec (decimal (String c r)) (2 ^ 64)); try reflexivity; lia.
Qed.

Lemma ParseInt_decimal (s : string) :
  all_digits s = true -> s <> "" ->
  strconv.ParseInt s 10 64
  = if decimal s <? 2 ^ 63 then (decimal s, None)
    else (2 ^ 63 - 1, Some strconv.ErrRange).
Proof.
  intros Hs Hne. pose proof (ParseUint_decimal s Hs Hne) as Hu.
  pose proof (decimal_from_ge s 0 Hs ltac:(lia)) as Hge. fold (decimal s) in Hge.
  destruct s as [| c r]; [congruence |]. unfold strconv.ParseInt.
  pose proof Hs as Hc. cbn [all_digits] in Hc. apply andb_prop in Hc as [Hc _].
  destruct (is_digit_not_sign c Hc) as [-> ->]. cbn [orb]. rewrite Hu.
  change (if 64 =? 0 then strconv.IntSize else 64) with 64. change (64 - 1) with 63.
  destruct (Z.ltb_spec (decimal (String c r)) (2 ^ 64)) as [H64 | H64];
    destruct (Z.ltb_spec (decimal (String c r)) (2 ^ 63)) as [H63 | H63];
    try lia; cbn [negb andb].
  - destruct (Z.geb_spec (decimal (String c r)) (2 ^ 63)); [lia | reflexivity].
  - destruct (Z.geb_spec (decimal (String c r)) (2 ^ 63)); [reflexivity | lia].
  - reflexivity.
Qed.

Lemma all_digits_clean (s : string) : all_digits s = true -> clean s = true.
Proof.
  induction s as [| c s IH]; [reflexivity |]. cbn [all_digits clean].
  intros H. apply andb_prop in H as [Hc Hs]. rewrite (IH Hs), andb_true_r.
  destruct (is_digit_digit c Hc) as [Hd _]. exact (proj1 (digit_clean c _ Hd)).
Qed.

(** *** The overflow checks, on every width *)

Lemma int_bits_cases (v : Type_) (bits : Z) :
  int_bits (Kind_of v) = Some bits -> bits = 8 \/ bits = 16 \/ bits = 32 \/ bits = 64.
Proof.
  destruct (Kind_of v); cbn; intros H; try discriminate H;
    injection H as <-; unfold strconv.IntSize; tauto.
Qed.

Lemma uint_bits_cases (v : Type_) (bits : Z) :
  uint_bits (Kind_of v) = Some bits -> bits = 8 \/ bits = 16 \/ bits = 32 \/ bits = 64.
Proof.
  destruct (Kind_of v); cbn; intros H; try discriminate H;
    injection H as <-; unfold strconv.IntSize; tauto.
Qed.

Lemma div_within (w K B : Z) :
  0 < K -> - (B * K) <= w < B * K -> - B <= w / K < B.
Proof.
  intros HK Hw. split.
  - apply Z.div_le_lower_bound; [exact HK | lia].
  - apply Z.div_lt_upper_bound; [exact HK | lia].
Qed.

(** [OverflowInt] on a 64-bit value says whether it leaves the width. *)
Lemma OverflowInt_spec (v : Type_) (bits x : Z) :
  int_bits (Kind_of v) = Some bits ->
  - 2 ^ 63 <= x < 2 ^ 63 ->
  OverflowInt v x = Some (negb ((- 2 ^ (bits - 1) <=? x) && (x <? 2 ^ (bits - 1)))).
Proof.
  intros Hv Hx. pose proof (int_bits_cases v bits Hv) as Hbits.
  destruct (Z.leb_spec (- 2 ^ (bits - 1)) x) as [Hlo | Hlo];
    destruct (Z.ltb_spec x (2 ^ (bits - 1))) as [Hhi | Hhi]; cbn [andb negb];
    try exact (proj1 (OverflowInt_in_range v bits x Hv (conj Hlo Hhi)));
    unfold OverflowInt; rewrite Hv; f_equal; apply negb_true_iff, Z.eqb_neq;
    pose proof (wrap_int_range (Z.shiftl x (64 - bits))) as Hw;
    rewrite Z.shiftr_div_pow2 by (destruct Hbits as [-> | [-> | [-> | ->]]]; lia);
    intros Heq;
    pose proof (div_within (wrap_int 64 (Z.shiftl x (64 - bits)))
                  (2 ^ (64 - bits)) (2 ^ (bits - 1))) as Hq;
    destruct Hbits as [-> | [-> | [-> | ->]]];
    specialize (Hq eq_refl Hw); lia.
Qed.

Lemma OverflowUint_spec (v : Type_) (bits x : Z) :
  uint_bits (Kind_of v) = Some bits ->
  0 <= x < 2 ^ 64 ->
  OverflowUint v x = Some (negb (x <? 2 ^ bits))
  /\ (x < 2 ^ bits -> SetUint v x = Stored (VUint x)).
Proof.
  intros Hv Hx. pose proof (uint_bits_cases v bits Hv) as Hbits.
  unfold OverflowUint, SetUint. rewrite Hv. split.
  - f_equal. f_equal.
    rewrite Z.shiftl_mul_pow2, Z.shiftr_div_pow2
      by (destruct Hbits as [-> | [-> | [-> | ->]]]; lia).
    unfold wrap_uint.
    destruct (Z.ltb_spec x (2 ^ bits)) as [Hlt | Hge].
    + apply Z.eqb_eq. rewrite Z.mod_small, Z.div_mul; [reflexivity | | ];
        destruct Hbits as [-> | [-> | [-> | ->]]]; cbn in *; lia.
    + apply Z.eqb_neq. intros Heq.
      pose proof (Z.mod_pos_bound (x * 2 ^ (64 - bits)) (2 ^ 64) eq_refl) as Hm.
      pose proof (div_within ((x * 2 ^ (64 - bits)) mod 2 ^ 64)
                    (2 ^ (64 - bits)) (2 ^ bits)) as Hq.
      destruct Hbits as [-> | [-> | [-> | ->]]];
        (specialize (Hq eq_refl);
         match type of Hq with
         | ?P -> _ =>
             assert P as Hr
               by (split; [transitivity 0; [apply Z.leb_le; reflexivity | apply Hm]
                          | exact (proj2 Hm)])
         end;
         specialize (Hq Hr); lia).
  - intros Hlt. unfold wrap_uint. rewrite Z.mod_small by lia. reflexivity.
Qed.

(** *** Decimal integers, on every width *)

(** [resolve_int] on a sign followed by a text without underscores that
    does not start with [0]. *)
Lemma resolve_int_signed (v : Type_) (sg : ascii) (sign : Z) (s : string) (c : ascii) :
  (sg = "-"%char /\ sign = -1) \/ (sg = "+"%char /\ sign = 1) ->
  strings.Replace s "_" "" = s ->
  byte0 s = Some c -> Ascii.eqb c "0" = false ->
  resolve_int (String sg s) v =
    if strings.Contains s ":" then
      match resolve_int_groups v s (rev (strings.Split s ":")) 0 1 with
      | inl early => early
      | inr value => SetInt v (mul64 value sign)
      end
    else resolve_int_base v s 10 sign.
Proof.
  intros Hsg Hrep Hc Hz. unfold resolve_int.
  assert (strings.Replace (String sg s) "_" "" = String sg s) as ->
    by (destruct Hsg as [[-> _] | [-> _]]; cbn [strings.Replace];
        [change (Ascii.eqb "-" "_") with false | change (Ascii.eqb "+" "_") with false];
        cbn iota; rewrite Hrep; reflexivity).
  cbn [byte0].
  assert ((if Ascii.eqb sg "-" then (-1, slice_from 1 (String sg s))
           else if Ascii.eqb sg "+" then (1, slice_from 1 (String sg s))
           else (1, String sg s)) = (sign, s)) as ->
    by (destruct Hsg as [[-> ->] | [-> ->]]; reflexivity).
  destruct s as [| c' r]; [discriminate Hc |]. cbn [byte0] in Hc. injection Hc as ->.
  assert (String.eqb (String c r) "0" = false) as ->
    by (cbn [String.eqb]; rewrite Hz; reflexivity).
  assert (forall p, strings.HasPrefix (String c r) (String "0" p) = false) as Hpre.
  { intros p. unfold strings.HasPrefix. cbn [String.prefix].
    destruct (ascii_dec "0" c) as [<- |]; [discriminate Hz | reflexivity]. }
  rewrite !Hpre. cbn [byte0]. rewrite Hz. reflexivity.
Qed.

(** [resolve_uint] on a text without underscores that starts with neither a
    sign nor [0], bare or after [+]. *)
Lemma resolve_uint_plain (v : Type_) (s : string) (c : ascii) :
  strings.Replace s "_" "" = s ->
  byte0 s = Some c -> Ascii.eqb c "0" = false ->
  (Ascii.eqb c "-" = false -> Ascii.eqb c "+" = false ->
   resolve_uint s v =
     if strings.Contains s ":" then
       match resolve_uint_groups v s (rev (strings.Split s ":")) 0 1 with
       | inl early => early
       | inr value => SetUint v value
       end
     else resolve_uint_base v s 10)
  /\ resolve_uint (String "+" s) v =
       if strings.Contains s ":" then
         match resolve_uint_groups v s (rev (strings.Split s ":")) 0 1 with
         | inl early => early
         | inr value => SetUint v value
         end
       else resolve_uint_base v s 10.
Proof.
  intros Hrep Hc Hz.
  destruct s as [| c' r]; [discriminate Hc |]. cbn [byte0] in Hc. injection Hc as ->.
  assert (String.eqb (String c r) "0" = false) as Heq
    by (cbn [String.eqb]; rewrite Hz; reflexivity).
  assert (forall p, strings.HasPrefix (String c r) (String "0" p) = false) as Hpre.
  { intros p. unfold strings.HasPrefix. cbn [String.prefix].
    destruct (ascii_dec "0" c) as [<- |]; [discriminate Hz | reflexivity]. }
  split.
  - intros Hm Hp. unfold resolve_uint. rewrite Hrep. cbn [byte0].
    rewrite Hm, Hp, Heq, !Hpre. cbn [byte0]. rewrite Hz. reflexivity.
  - unfold resolve_uint.
    change (strings.Replace (String "+" (String c r)) "_" "")
      with (String "+" (strings.Replace (String c r) "_" "")).
    rewrite Hrep. cbn [byte0]. change (Ascii.eqb "+" "-") with false.
    change (Ascii.eqb "+" "+") with true. cbn iota. cbn [slice_from].
    rewrite Heq, !Hpre. cbn [byte0]. rewrite Hz. reflexivity.
Qed.

Lemma starts_plain_inv (s : string) :
  starts_plain s = true ->
  exists c, byte0 s = Some c /\ Ascii.eqb c "-" = false
            /\ Ascii.eqb c "+" = false /\ Ascii.eqb c "0" = false.
Proof.
  unfold starts_plain. destruct (byte0 s) as [c |]; [| discriminate].
  intros H. apply negb_true_iff, not_sign_or_zero in H. eauto.
Qed.

Lemma pow2_width (bits : Z) :
  bits = 8 \/ bits = 16 \/ bits = 32 \/ bits = 64 ->
  0 < 2 ^ (bits - 1) <= 2 ^ 63 /\ 2 ^ bits = 2 * 2 ^ (bits - 1).
Proof. intros [-> | [-> | [-> | ->]]]; cbn; lia. Qed.

(** The last lines of [resolve_int] on decimal digits of any length. *)
Lemma resolve_int_base_decimal (v : Type_) (bits : Z) (s : string) :
  int_bits (Kind_of v) = Some bits ->
  all_digits s = true -> s <> "" ->
  forall sign, sign = 1 \/ sign = -1 ->
    resolve_int_base v s 10 sign
    = if (decimal s <? 2 ^ 63)
         && (- 2 ^ (bits - 1) <=? decimal s * sign)
         && (decimal s * sign <? 2 ^ (bits - 1))
      then Stored (VInt (decimal s * sign))
      else Failed ("Integer: " +:+ s).
Proof.
  intros Hv Hs Hne sign Hsign.
  pose proof (decimal_from_ge s 0 Hs ltac:(lia)) as Hge. fold (decimal s) in Hge.
  unfold resolve_int_base. rewrite (ParseInt_decimal s Hs Hne).
  destruct (Z.ltb_spec (decimal s) (2 ^ 63)) as [H63 | H63]; [| reflexivity].
  unfold mul64. rewrite wrap_int_small by (destruct Hsign as [-> | ->]; lia).
  rewrite (OverflowInt_spec v bits _ Hv) by (destruct Hsign as [-> | ->]; lia).
  cbn [andb].
  destruct ((- 2 ^ (bits - 1) <=? decimal s * sign)
            && (decimal s * sign <? 2 ^ (bits - 1))) eqn:Hin; cbn [negb];
    [| reflexivity].
  apply andb_prop in Hin as [Hlo Hhi]. apply Z.leb_le in Hlo. apply Z.ltb_lt in Hhi.
  exact (proj2 (OverflowInt_in_range v bits _ Hv (conj Hlo Hhi))).
Qed.

(** X9.  A decimal integer (digits, the first of them not 0) into a signed
    target of any width: bare or after [+] it is stored when it is below
    2^(bits-1) and rejected otherwise; after [-] its opposite is stored when
    the digits read at most 2^(bits-1) and less than 2^63, and rejected
    otherwise.  The digits are parsed as a positive 64-bit number before the
    sign is applied, so the least [int64], -9223372036854775808, is
    rejected, while -128 is stored in an [int8]. *)
Theorem resolve_int_decimal :
  forall (v : Type_) (bits : Z) (s : string),
    int_bits (Kind_of v) = Some bits ->
    all_digits s = true -> starts_plain s = true ->
    resolve_int s v
    = (if decimal s <? 2 ^ (bits - 1) then Stored (VInt (decimal s))
       else Failed ("Integer: " +:+ s))
    /\ resolve_int (String "+" s) v
       = (if decimal s <? 2 ^ (bits - 1) then Stored (VInt (decimal s))
          else Failed ("Integer: " +:+ s))
    /\ resolve_int (String "-" s) v
       = (if (decimal s <? 2 ^ 63) && (decimal s <=? 2 ^ (bits - 1))
          then Stored (VInt (- decimal s))
          else Failed ("Integer: " +:+ s)).
Proof.
  intros v bits s Hv Hs Hp.
  pose proof (all_digits_clean s Hs) as Hclean.
  pose proof (Replace_clean s Hclean) as Hrep.
  destruct (starts_plain_inv s Hp) as (c & Hc & _ & _ & Hz).
  assert (s <> "") as Hne by (intros ->; discriminate Hc).
  pose proof (decimal_from_ge s 0 Hs ltac:(lia)) as Hge. fold (decimal s) in Hge.
  destruct (pow2_width bits (int_bits_cases v bits Hv)) as [Hpow _].
  pose proof (resolve_int_base_decimal v bits s Hv Hs Hne) as Hbase.
  split; [| split].
  - rewrite (resolve_int_plain v s Hrep Hp), (Contains_clean s Hclean), (Hbase 1) by auto.
    rewrite Z.mul_1_r.
    destruct (Z.ltb_spec (decimal s) (2 ^ 63)), (Z.ltb_spec (decimal s) (2 ^ (bits - 1))),
             (Z.leb_spec (- 2 ^ (bits - 1)) (decimal s)); cbn [andb]; try reflexivity; lia.
  - rewrite (resolve_int_signed v "+" 1 s c) by auto.
    rewrite (Contains_clean s Hclean), (Hbase 1) by auto. rewrite Z.mul_1_r.
    destruct (Z.ltb_spec (decimal s) (2 ^ 63)), (Z.ltb_spec (decimal s) (2 ^ (bits - 1))),
             (Z.leb_spec (- 2 ^ (bits - 1)) (decimal s)); cbn [andb]; try reflexivity; lia.
  - rewrite (resolve_int_signed v "-" (-1) s c) by auto.
    rewrite (Contains_clean s Hclean), (Hbase (-1)) by auto.
    replace (decimal s * -1) with (- decimal s) by ring.
    destruct (Z.ltb_spec (decimal s) (2 ^ 63)), (Z.leb_spec (decimal s) (2 ^ (bits - 1))),
             (Z.leb_spec (- 2 ^ (bits - 1)) (- decimal s)),
             (Z.ltb_spec (- decimal s) (2 ^ (bits - 1)));
      cbn [andb]; try reflexivity; lia.
Qed.

Lemma resolve_int_decimal_witness :
  resolve_int "127" int8_type = Stored (VInt 127)
  /\ resolve_int "128" int8_type = Failed "Integer: 128"
  /\ resolve_int "-128" int8_type = Stored (VInt (-128))
  /\ resolve_int "-9223372036854775807" int64_type = Stored (VInt (-9223372036854775807))
  /\ resolve_int "-9223372036854775808" int64_type = Failed "Integer: 9223372036854775808".
Proof.
  split; [exact (proj1 (resolve_int_decimal int8_type 8 "127" eq_refl eq_refl eq_refl)) |].
  split; [exact (proj1 (resolve_int_decimal int8_type 8 "128" eq_refl eq_refl eq_refl)) |].
  split;
    [exact (proj2 (proj2 (resolve_int_decimal int8_type 8 "128" eq_refl eq_refl eq_refl))) |].
  split.
  - exact (proj2 (proj2 (resolve_int_decimal int64_type 64 "9223372036854775807"
                           eq_refl eq_refl eq_refl))).
  - exact (proj2 (proj2 (resolve_int_decimal int64_type 64 "9223372036854775808"
                           eq_refl eq_refl eq_refl))).
Defined.

(** X10.  A decimal integer (digits, the first of them not 0) into an
    unsigned target of any width, bare or after [+]: it is stored when it is
    below 2^bits and rejected otherwise, however long the text. *)
Theorem resolve_uint_decimal :
  forall (v : Type_) (bits : Z) (s : string),
    uint_bits (Kind_of v) = Some bits ->
    all_digits s = true -> starts_plain s = true ->
    resolve_uint s v
    = (if decimal s <? 2 ^ bits then Stored (VUint (decimal s))
       else Failed ("Unsigned Integer: " +:+ s))
    /\ resolve_uint (String "+" s) v
       = (if decimal s <? 2 ^ bits then Stored (VUint (decimal s))
          else Failed ("Unsigned Integer: " +:+ s)).
Proof.
  intros v bits s Hv Hs Hp.
  pose proof (all_digits_clean s Hs) as Hclean.
  pose proof (Replace_clean s Hclean) as Hrep.
  destruct (starts_plain_inv s Hp) as (c & Hc & Hm & Hpl & Hz).
  assert (s <> "") as Hne by (intros ->; discriminate Hc).
  pose proof (decimal_from_ge s 0 Hs ltac:(lia)) as Hge. fold (decimal s) in Hge.
  pose proof (uint_bits_cases v bits Hv) as Hbits.
  assert (2 ^ bits <= 2 ^ 64) as Hpow
    by (destruct Hbits as [-> | [-> | [-> | ->]]]; cbn; lia).
  assert (resolve_uint_base v s 10
          = if decimal s <? 2 ^ bits then Stored (VUint (decimal s))
            else Failed ("Unsigned Integer: " +:+ s)) as Hbase.
  { unfold resolve_uint_base. rewrite (ParseUint_decimal s Hs Hne).
    destruct (Z.ltb_spec (decimal s) (2 ^ 64)) as [H64 | H64].
    - destruct (OverflowUint_spec v bits (decimal s) Hv ltac:(lia)) as [-> Hset].
      destruct (Z.ltb_spec (decimal s) (2 ^ bits)) as [Hlt | Hlt]; cbn [negb];
        [exact (Hset Hlt) | reflexivity].
    - destruct (Z.ltb_spec (decimal s) (2 ^ bits)); [lia | reflexivity]. }
  destruct (resolve_uint_plain v s c Hrep Hc Hz) as [Hbare Hplus].
  rewrite (Hbare Hm Hpl), Hplus, (Contains_clean s Hclean), Hbase. split; reflexivity.
Qed.

Lemma resolve_uint_decimal_witness :
  resolve_uint "255" uint8_type = Stored (VUint 255)
  /\ resolve_uint "+256" uint8_type = Failed "Unsigned Integer: 256"
  /\ resolve_uint "18446744073709551616" {| Kind_of := Uint64; String_of := "uint64"; Methods_of := NoMethod |}
     = Failed "Unsigned Integer: 18446744073709551616".
Proof.
  split; [exact (proj1 (resolve_uint_decimal uint8_type 8 "255" eq_refl eq_refl eq_refl)) |].
  split; [exact (proj2 (resolve_uint_decimal uint8_type 8 "256" eq_refl eq_refl eq_refl)) |].
  exact (proj1 (resolve_uint_decimal {| Kind_of := Uint64; String_of := "uint64"; Methods_of := NoMethod |} 64
                  "18446744073709551616" eq_refl eq_refl eq_refl)).
Defined.

(** *** Leading zeros and second signs *)

Lemma ParseUint_loop_no_89 (s : string) (maxVal cutoff n r : Z) :
  strconv.ParseUint_loop s 8 maxVal cutoff n = (r, None) -> has_89 s = false.
Proof.
  revert n. induction s as [| c s IH]; intros n H; [reflexivity |].
  cbn [strconv.ParseUint_loop] in H.
  destruct (strconv.digit c) as [d |] eqn:Hd; [| discriminate H].
  destruct (d >=? 8) eqn:Hge; [discriminate H |].
  destruct (n >=? cutoff); [discriminate H |].
  destruct (n * 8 + d >? maxVal); [discriminate H |].
  apply IH in H. unfold has_89 in *. cbn [strings.Contains].
  destruct (Ascii.eqb_spec c "8") as [-> | _];
    [vm_compute in Hd; injection Hd as <-; discriminate Hge |].
  destruct (Ascii.eqb_spec c "9") as [-> | _];
    [vm_compute in Hd; injection Hd as <-; discriminate Hge |].
  exact H.
Qed.

Lemma ParseUint_octal_error (s : string) :
  has_89 s = true -> snd (strconv.ParseUint s 8 64) <> None.
Proof.
  intros H. unfold strconv.ParseUint. destruct s as [| c r]; [discriminate |].
  change ((2 <=? 8) && (8 <=? 36)) with true. cbn iota.
  destruct (strconv.ParseUint_loop (String c r) 8
              (2 ^ (if 64 =? 0 then strconv.IntSize else 64) - 1)
              ((2 ^ 64 - 1) / 8 + 1) 0) as [r0 [e |]] eqn:Hl; [discriminate |].
  apply ParseUint_loop_no_89 in Hl. congruence.
Qed.

Lemma ParseInt_octal_error (s : string) :
  all_digits s = true -> has_89 s = true -> snd (strconv.ParseInt s 8 64) <> None.
Proof.
  intros Hs H. pose proof (ParseUint_octal_error s H) as Hu.
  unfold strconv.ParseInt. destruct s as [| c r]; [discriminate |].
  pose proof Hs as Hc. cbn [all_digits] in Hc. apply andb_prop in Hc as [Hc _].
  destruct (is_digit_not_sign c Hc) as [-> ->]. cbn [orb].
  destruct (strconv.ParseUint (String c r) 8 64) as [un [[| |] |]] eqn:Hp;
    cbn [snd] in *; try discriminate; [| congruence].
  apply ParseUint_range in Hp. subst un. vm_compute. discriminate.
Qed.

(** X11.  A text of digits with a leading 0 is octal, so one that has an 8 or
    a 9 is rejected by both integer converters, whatever the target: [08]
    and [0129] are errors, not 8 and 129. *)
Theorem leading_zero_is_octal :
  forall (v : Type_) (body : string),
    all_digits body = true -> has_89 body = true ->
    resolve_int ("0" +:+ body) v = Failed ("Integer: " +:+ body)
    /\ resolve_uint ("0" +:+ body) v = Failed ("Unsigned Integer: " +:+ body).
Proof.
  intros v body Hs H89.
  pose proof (all_digits_clean body Hs) as Hclean.
  change ("0" +:+ body) with (String "0" body).
  assert (strings.Replace (String "0" body) "_" "" = String "0" body) as Hrep
    by (apply Replace_clean; exact Hclean).
  destruct body as [| c r]; [discriminate H89 |].
  pose proof Hs as Hc. cbn [all_digits] in Hc. apply andb_prop in Hc as [Hc _].
  assert (forall p, strings.HasPrefix (String "0" (String c r)) (String "0" (String p "")) = false
                    \/ c = p) as Hpre.
  { intros p. unfold strings.HasPrefix. cbn [String.prefix].
    destruct (ascii_dec "0" "0"); [| congruence].
    destruct (ascii_dec p c); [right; congruence | left; reflexivity]. }
  assert (strings.HasPrefix (String "0" (String c r)) "0b" = false) as Hb
    by (destruct (Hpre "b"%char) as [Hb | ->]; [exact Hb | discriminate Hc]).
  assert (strings.HasPrefix (String "0" (String c r)) "0x" = false) as Hx
    by (destruct (Hpre "x"%char) as [Hx | ->]; [exact Hx | discriminate Hc]).
  split.
  - unfold resolve_int. rewrite Hrep. cbn [byte0].
    change (Ascii.eqb "0" "-") with false. change (Ascii.eqb "0" "+") with false.
    cbn iota. change (String.eqb (String "0" (String c r)) "0") with false. cbn iota.
    rewrite Hb, Hx. cbn [byte0]. change (Ascii.eqb "0" "0") with true. cbn iota.
    cbn [slice_from]. unfold resolve_int_base.
    pose proof (ParseInt_octal_error (String c r) Hs H89) as He.
    destruct (strconv.ParseInt (String c r) 8 64) as [value [e |]];
      [reflexivity | cbn [snd] in He; congruence].
  - unfold resolve_uint. rewrite Hrep. cbn [byte0].
    change (Ascii.eqb "0" "-") with false. change (Ascii.eqb "0" "+") with false.
    cbn iota. change (String.eqb (String "0" (String c r)) "0") with false. cbn iota.
    rewrite Hb, Hx. cbn [byte0]. change (Ascii.eqb "0" "0") with true. cbn iota.
    cbn [slice_from]. unfold resolve_uint_base.
    pose proof (ParseUint_octal_error (String c r) H89) as He.
    destruct (strconv.ParseUint (String c r) 8 64) as [value [e |]];
      [reflexivity | cbn [snd] in He; congruence].
Qed.

Lemma leading_zero_is_octal_witness :
  resolve_int "08" int64_type = Failed "Integer: 8"
  /\ resolve_uint "0129" uint8_type = Failed "Unsigned Integer: 129".
Proof.
  split.
  - exact (proj1 (leading_zero_is_octal int64_type "8" eq_refl eq_refl)).
  - exact (proj2 (leading_zero_is_octal uint8_type "129" eq_refl eq_refl)).
Defined.

Lemma leading_sign_inv (body : string) :
  leading_sign body = true ->
  exists c, byte0 (strings.Replace body "_" "") = Some c
            /\ (c = "-" \/ c = "+")%char.
Proof.
  unfold leading_sign. destruct (byte0 (strings.Replace body "_" "")) as [c |];
    [| discriminate].
  intros H. exists c. split; [reflexivity |].
  destruct (ascii_dec c "-") as [-> | Hm]; [auto |].
  destruct (ascii_dec c "+") as [-> | Hp]; [auto |].
  exfalso. revert H. unfold has_byte, signs. cbn [strings.Contains].
  destruct (Ascii.eqb_spec "-"%char c); [congruence |].
  destruct (Ascii.eqb_spec "+"%char c); [congruence |]. discriminate.
Qed.

(** X12.  The signed converter strips one sign and hands the rest to
    [ParseInt], which accepts a sign of its own: a text with two signs is
    accepted, [--5] as 5 and [+-5] as -5.  The unsigned converter hands the
    rest to [ParseUint], which accepts none: [++5] is an error. *)
Theorem second_sign :
  forall (v : Type_) (body : string) (n : Z),
    parses 10 body n -> leading_sign body = true ->
    (int_bits (Kind_of v) = Some 64 -> - 2 ^ 63 < n ->
     resolve_int (String "-" body) v = Stored (VInt (- n))
     /\ resolve_int (String "+" body) v = Stored (VInt n))
    /\ resolve_uint (String "+" body) v = Failed ("Unsigned Integer: " +:+ body).
Proof.
  intros v body n Hp Hls.
  pose proof (ParseInt_ok _ _ _ Hp) as (Hclean & _ & Hn).
  pose proof (Replace_clean body Hclean) as Hrep.
  destruct (leading_sign_inv body Hls) as (c & Hc & Hsign). rewrite Hrep in Hc.
  assert (Ascii.eqb c "0" = false) as Hz by (destruct Hsign as [-> | ->]; reflexivity).
  split.
  - intros Hv Hmin.
    rewrite (resolve_int_signed v "-" (-1) body c), (resolve_int_signed v "+" 1 body c)
      by auto.
    rewrite (Contains_clean body Hclean). unfold resolve_int_base. rewrite Hp.
    unfold mul64. rewrite !(OverflowInt_64 v _ Hv), !(SetInt_64 v _ Hv).
    rewrite !wrap_int_idem, !wrap_int_small by lia.
    split; do 2 f_equal; ring.
  - destruct (resolve_uint_plain v body c Hrep Hc Hz) as [_ ->].
    rewrite (Contains_clean body Hclean). unfold resolve_uint_base.
    destruct body as [| c' r]; [discriminate Hc |]. cbn [byte0] in Hc.
    injection Hc as ->.
    destruct Hsign as [-> | ->]; reflexivity.
Qed.

Lemma second_sign_witness :
  resolve_int "--5" int64_type = Stored (VInt 5)
  /\ resolve_int "+-5" int64_type = Stored (VInt (-5))
  /\ resolve_uint "++5" uint8_type = Failed "Unsigned Integer: +5".
Proof.
  split; [| split].
  - exact (proj1 (proj1 (second_sign int64_type "-5" (-5) eq_refl eq_refl) eq_refl eq_refl)).
  - exact (proj2 (proj1 (second_sign int64_type "-5" (-5) eq_refl eq_refl) eq_refl eq_refl)).
  - exact (proj2 (second_sign uint8_type "+5" 5 eq_refl eq_refl)).
Defined.

(** *** What [resolveInterface] infers from the text *)

(** Only the text of an event that is not quoted matters. *)
Lemma resolveInterface_unquoted ParseFloat (event : yaml_event_t) (c : ascii) (r : string) :
  value event = String c r -> quoted event = false ->
  resolveInterface ParseFloat event
  = resolveInterface ParseFloat {| value := String c r; tag := ""; implicit := true |}.
Proof.
  destruct event as [val tg imp]. unfold quoted, resolveInterface.
  cbn [value tag implicit]. intros -> ->. reflexivity.
Qed.

Lemma bool_word_not_null (val : string) (b : bool) :
  bool_values !! strings.ToLower val = Some b -> null_spelling val = false.
Proof.
  intros H. destruct (null_spelling val) eqn:Hn; [| reflexivity].
  unfold null_spelling in Hn. cbn [existsb] in Hn.
  repeat match type of Hn with
         | (String.eqb val ?w || _) = true =>
             destruct (String.eqb_spec val w) as [-> | _];
             [vm_compute in H; discriminate H | cbn [orb] in Hn]
         end.
  discriminate Hn.
Qed.

Lemma bool_word_first (c : ascii) (r : string) (b : bool) :
  bool_values !! strings.ToLower (String c r) = Some b ->
  In c ["o"; "O"; "f"; "F"; "t"; "T"; "n"; "N"; "y"; "Y"]%char.
Proof.
  destruct (ToLower_cons c r) as (c' & r' & E & Hc). rewrite E, bool_values_lookup.
  intros H.
  assert (In c' ["o"; "f"; "t"; "n"; "y"]%char) as Hin.
  { repeat (case_decide;
            [match goal with
             | Hw : String c' _ = _ |- _ => injection Hw as -> _
             end; cbn [In]; tauto |]).
    discriminate H. }
  clear H E. cbn [In] in Hin.
  destruct Hc as [[-> _] | [[-> _] | [-> _]]];
    [| repeat (destruct Hin as [Hin | Hin]; [discriminate Hin |]); contradiction
     | repeat (destruct Hin as [Hin | Hin]; [discriminate Hin |]); contradiction].
  destruct c as [b0 b1 b2 b3 b4 b5 b6 b7].
  destruct b0, b1, b2, b3, b4, b5, b6, b7;
    try (cbn [In]; tauto);
    exfalso; repeat (destruct Hin as [Hin | Hin]; [discriminate Hin |]); contradiction.
Qed.

(** X13.  [resolveInterface] returns a bool exactly on the texts of the
    table of [init], in any casing, that are not quoted: the dispatch on the
    first byte loses none of them, and no other branch gives a bool. *)
Theorem resolveInterface_bool_iff :
  forall ParseFloat (event : yaml_event_t) (b : bool),
    resolveInterface ParseFloat event = Returns (VBool b)
    <-> quoted event = false
        /\ bool_values !! strings.ToLower (value event) = Some b.
Proof.
  intros ParseFloat [val tg imp] b. unfold quoted. cbn [value tag implicit]. split.
  - unfold resolveInterface. cbn [value tag implicit].
    destruct val as [| c r]; [discriminate |].
    change ((String.length (String c r) =? 0)%nat) with false. cbn iota.
    destruct ((String.length tg =? 0)%nat && negb imp); [discriminate |].
    cbn [byte0]. intros H. split; [reflexivity |]. revert H.
    assert (forall o, attempt o (Returns (VString (String c r))) = Returns (VBool b) ->
                      o = Stored (VBool b)) as Hlast.
    { intros o H. apply attempt_Returns in H as [H | [_ H]];
        [exact H | discriminate H]. }
    assert (resolve_bool (String c r) bool_type = Stored (VBool b) ->
            bool_values !! strings.ToLower (String c r) = Some b) as Hbool.
    { unfold resolve_bool.
      destruct (bool_values !! strings.ToLower (String c r)); [| discriminate].
      intros H. injection H as ->. reflexivity. }
    assert (forall o1 o2 rest,
               (forall y, o1 = Stored y -> y <> VBool b) ->
               (forall y, o2 = Stored y -> y <> VBool b) ->
               rest <> Returns (VBool b) ->
               attempt o1 (attempt o2 rest) <> Returns (VBool b)) as Hchain.
    { intros o1 o2 rest H1 H2 Hr H.
      apply attempt_Returns in H as [H | [_ H]]; [exact (H1 _ H eq_refl) |].
      apply attempt_Returns in H as [H | [_ H]]; [exact (H2 _ H eq_refl) | auto]. }
    assert (forall y, resolve_int (String c r) int64_type = Stored y -> y <> VBool b)
      as Hint.
    { intros y Hy. apply resolve_int_stores in Hy as (n & -> & _). discriminate. }
    assert (forall y, resolve_float ParseFloat (String c r) float64_type = Stored y ->
                      y <> VBool b) as Hfloat.
    { intros y Hy. apply resolve_float_stores in Hy as (f & ->). discriminate. }
    assert (forall sign : bool,
               attempt (resolve_int (String c r) int64_type)
                 (attempt (resolve_float ParseFloat (String c r) float64_type)
                    (if negb sign
                     then attempt (resolve_time (String c r) Time_type)
                            (Returns (VString (String c r)))
                     else Returns (VString (String c r)))) <> Returns (VBool b)) as Hnum.
    { intros sign. apply Hchain; [exact Hint | exact Hfloat |].
      destruct sign; cbn [negb]; [discriminate |].
      intros H. apply Hlast, resolve_time_stores in H as (t & H). discriminate H. }
    destruct (has_byte signs c); [intros H; exfalso; exact (Hnum true H) |].
    destruct ((48 <=? strconv.code c) && (strconv.code c <=? 57));
      [intros H; exfalso; exact (Hnum false H) |].
    destruct (has_byte nulls c).
    { destruct (index_bool null_values (String c r)); [discriminate |].
      intros H. exact (Hbool (Hlast _ H)). }
    destruct (Ascii.eqb c ".").
    { intros H. apply Hlast in H. exfalso. exact (Hfloat _ H eq_refl). }
    destruct (has_byte bools c); [| discriminate].
    intros H. exact (Hbool (Hlast _ H)).
  - intros [Hq Hb]. unfold resolveInterface. cbn [value tag implicit]. rewrite Hq.
    destruct val as [| c r]; [vm_compute in Hb; discriminate Hb |].
    change ((String.length (String c r) =? 0)%nat) with false. cbn iota. cbn [byte0].
    rewrite index_null_values, (bool_word_not_null _ _ Hb).
    unfold resolve_bool. rewrite Hb. change (SetBool bool_type b) with (Stored (VBool b)).
    cbn [attempt].
    pose proof (bool_word_first c r b Hb) as Hin. cbn [In] in Hin.
    repeat (destruct Hin as [<- | Hin]; [reflexivity |]). contradiction.
Qed.

(** A digit opens no special float. *)
Lemma ToLower_digit_first (s : string) (c : ascii) (w : string) :
  byte0 s = Some c -> is_digit c = true ->
  String.eqb (strings.ToLower s) (String "." w) = false.
Proof.
  destruct s as [| c0 r]; [discriminate |]. cbn [byte0]. intros H Hc.
  injection H as ->.
  destruct (ToLower_cons c r) as (c' & r' & E & Hcases). rewrite E.
  apply String.eqb_neq. intros H. injection H as -> _.
  destruct Hcases as [[Hl _] | [[Hl _] | [Hl _]]]; try discriminate Hl.
  destruct c as [b0 b1 b2 b3 b4 b5 b6 b7].
  destruct b0, b1, b2, b3, b4, b5, b6, b7; solve [discriminate Hc | discriminate Hl].
Qed.

Lemma all_digits_first (s : string) :
  all_digits s = true -> s <> "" -> exists c, byte0 s = Some c /\ is_digit c = true.
Proof.
  destruct s as [| c r]; [congruence |]. cbn [all_digits byte0].
  intros H _. apply andb_prop in H as [H _]. eauto.
Qed.

(** X14.  An integer is tried first: a text of decimal digits that is not
    quoted and does not start with 0 is returned as the [int64] it spells,
    with or without a sign, as long as the digits spell less than 2^63; from
    2^63 on it is handed to [ParseFloat] and what that accepts is returned
    as a float. *)
Theorem resolveInterface_decimal :
  forall ParseFloat (event : yaml_event_t) (s : string),
    quoted event = false -> all_digits s = true -> starts_plain s = true ->
    (decimal s < 2 ^ 63 ->
     (value event = s \/ value event = String "+" s ->
      resolveInterface ParseFloat event = Returns (VInt (decimal s)))
     /\ (value event = String "-" s ->
         resolveInterface ParseFloat event = Returns (VInt (- decimal s))))
    /\ (2 ^ 63 <= decimal s -> value event = s ->
        forall f, ParseFloat s 64 = (f, None) ->
                  resolveInterface ParseFloat event
                  = Returns (VFloat (math.mul f (math.of_int 1)))).
Proof.
  intros ParseFloat event s Hq Hs Hplain.
  pose proof (all_digits_clean s Hs) as Hclean.
  pose proof (Replace_clean s Hclean) as Hrep.
  destruct (starts_plain_inv s Hplain) as (c & Hc & Hm & Hp & Hz).
  assert (s <> "") as Hne by (intros ->; discriminate Hc).
  destruct (all_digits_first s Hs Hne) as (c1 & Hc1 & Hd). rewrite Hc in Hc1.
  injection Hc1 as <-.
  pose proof (resolve_int_base_decimal int64_type 64 s eq_refl Hs Hne) as Hbase.
  change (2 ^ (64 - 1)) with (2 ^ 63) in Hbase.
  pose proof (Hbase 1 (or_introl eq_refl)) as Hpos. rewrite Z.mul_1_r in Hpos.
  pose proof (Hbase (-1) (or_intror eq_refl)) as Hneg. clear Hbase.
  pose proof (decimal_from_ge s 0 Hs ltac:(lia)) as Hge. fold (decimal s) in Hge.
  assert (resolve_int s int64_type = resolve_int_base int64_type s 10 1) as Hbare.
  { rewrite (resolve_int_plain int64_type s Hrep Hplain), (Contains_clean s Hclean).
    reflexivity. }
  split.
  - intros Hlt.
    assert ((decimal s <? 2 ^ 63) = true) as Hb by (apply Z.ltb_lt; exact Hlt).
    split.
    + intros [Hv | Hv].
      * destruct s as [| c0 r]; [congruence |]. cbn [byte0] in Hc. injection Hc as ->.
        rewrite (resolveInterface_unquoted _ _ _ _ Hv Hq).
        unfold resolveInterface. cbn [value tag implicit byte0].
        change ((String.length (String c r) =? 0)%nat) with false. cbn iota.
        rewrite Hbare, Hpos, Hb.
        replace (- 2 ^ 63 <=? decimal (String c r)) with true
          by (symmetry; apply Z.leb_le; lia).
        cbn [andb attempt].
        destruct (has_byte signs c); [reflexivity |].
        fold (is_digit c). rewrite Hd. reflexivity.
      * rewrite (resolveInterface_unquoted _ _ _ _ Hv Hq).
        unfold resolveInterface. cbn [value tag implicit byte0].
        change ((String.length (String "+" s) =? 0)%nat) with false. cbn iota.
        change (has_byte signs "+") with true. cbn iota.
        rewrite (resolve_int_signed int64_type "+" 1 s c) by auto.
        rewrite (Contains_clean s Hclean), Hpos, Hb.
        replace (- 2 ^ 63 <=? decimal s) with true by (symmetry; apply Z.leb_le; lia).
        reflexivity.
    + intros Hv. rewrite (resolveInterface_unquoted _ _ _ _ Hv Hq).
      unfold resolveInterface. cbn [value tag implicit byte0].
      change ((String.length (String "-" s) =? 0)%nat) with false. cbn iota.
      change (has_byte signs "-") with true. cbn iota.
      rewrite (resolve_int_signed int64_type "-" (-1) s c) by auto.
      rewrite (Contains_clean s Hclean), Hneg, Hb.
      replace (- 2 ^ 63 <=? decimal s * -1) with true by (symmetry; apply Z.leb_le; lia).
      replace (decimal s * -1 <? 2 ^ 63) with true by (symmetry; apply Z.ltb_lt; lia).
      cbn [andb attempt]. do 2 f_equal. ring.
  - intros Hbig Hv f Hf.
    assert ((decimal s <? 2 ^ 63) = false) as Hb by (apply Z.ltb_ge; exact Hbig).
    pose proof (ToLower_digit_first s c "inf" Hc Hd) as Hinf.
    pose proof (ToLower_digit_first s c "nan" Hc Hd) as Hnan.
    destruct s as [| c0 r]; [congruence |]. cbn [byte0] in Hc. injection Hc as ->.
    rewrite (resolveInterface_unquoted _ _ _ _ Hv Hq).
    unfold resolveInterface. cbn [value tag implicit byte0].
    change ((String.length (String c r) =? 0)%nat) with false. cbn iota.
    rewrite Hbare, Hpos, Hb. cbn [andb attempt].
    assert (resolve_float ParseFloat (String c r) float64_type
            = Stored (VFloat (math.mul f (math.of_int 1)))) as ->.
    { unfold resolve_float. rewrite Hrep. cbn [byte0]. rewrite Hm, Hp, Hinf, Hnan.
      change (Bits float64_type) with (Some 64). cbn iota.
      rewrite (Contains_clean _ Hclean), Hf. reflexivity. }
    cbn [attempt].
    destruct (has_byte signs c); [reflexivity |].
    fold (is_digit c). rewrite Hd. reflexivity.
Qed.

Lemma resolveInterface_decimal_witness :
  resolveInterface ParseFloat_plain {| value := "-42"; tag := ""; implicit := true |}
  = Returns (VInt (-42))
  /\ resolveInterface ParseFloat_plain
       {| value := "9223372036854775808"; tag := ""; implicit := true |}
     = Returns (VFloat (math.mul (math.of_int (2 ^ 63)) (math.of_int 1))).
Proof.
  split.
  - exact (proj2 (proj1 (resolveInterface_decimal ParseFloat_plain
                           {| value := "-42"; tag := ""; implicit := true |} "42"
                           eq_refl eq_refl eq_refl) ltac:(vm_compute; reflexivity))
                 eq_refl).
  - exact (proj2 (resolveInterface_decimal ParseFloat_plain
                    {| value := "9223372036854775808"; tag := ""; implicit := true |}
                    "9223372036854775808" eq_refl eq_refl eq_refl)
                 ltac:(vm_compute; discriminate) eq_refl
                 (math.of_int (2 ^ 63)) ltac:(vm_compute; reflexivity)).
Defined.

(** X15.  The special floats are inferred too, whatever [ParseFloat] does:
    every casing of [.inf] that is not quoted is returned as positive
    infinity, bare or after [+], and as negative infinity after [-]; every
    casing of [.nan] as NaN, bare or after either sign.  After a sign the
    text is first refused as an integer. *)
Theorem resolveInterface_special_floats :
  forall ParseFloat (event : yaml_event_t) (s : string),
    quoted event = false ->
    (casing_of ".inf" s = true ->
     (value event = s \/ value event = String "+" s ->
      resolveInterface ParseFloat event = Returns (VFloat (S754_infinity false)))
     /\ (value event = String "-" s ->
         resolveInterface ParseFloat event = Returns (VFloat (S754_infinity true))))
    /\ (casing_of ".nan" s = true ->
        value event = s \/ value event = String "+" s \/ value event = String "-" s ->
        resolveInterface ParseFloat event = Returns (VFloat S754_nan)).
Proof.
  intros ParseFloat event s Hq. split.
  - intros Hs. apply casing_of_inf in Hs. cbn [In] in Hs.
    split.
    + intros [Hv | Hv];
        repeat (destruct Hs as [<- | Hs];
                [rewrite (resolveInterface_unquoted _ _ _ _ Hv Hq);
                 vm_compute; reflexivity |]);
        contradiction.
    + intros Hv.
      repeat (destruct Hs as [<- | Hs];
              [rewrite (resolveInterface_unquoted _ _ _ _ Hv Hq);
               vm_compute; reflexivity |]);
        contradiction.
  - intros Hs. apply casing_of_nan in Hs. cbn [In] in Hs.
    intros [Hv | [Hv | Hv]];
      repeat (destruct Hs as [<- | Hs];
              [rewrite (resolveInterface_unquoted _ _ _ _ Hv Hq);
               vm_compute; reflexivity |]);
      contradiction.
Qed.

Lemma resolveInterface_special_floats_witness :
  resolveInterface ParseFloat_plain {| value := "-.Inf"; tag := ""; implicit := true |}
  = Returns (VFloat (S754_infinity true))
  /\ resolveInterface ParseFloat_plain {| value := ".NaN"; tag := ""; implicit := true |}
     = Returns (VFloat S754_nan).
Proof.
  split.
  - exact (proj2 (proj1 (resolveInterface_special_floats ParseFloat_plain
                           {| value := "-.Inf"; tag := ""; implicit := true |} ".Inf"
                           eq_refl) eq_refl) eq_refl).
  - exact (proj2 (resolveInterface_special_floats ParseFloat_plain
                    {| value := ".NaN"; tag := ""; implicit := true |} ".NaN"
                    eq_refl) eq_refl (or_introl eq_refl)).
Defined.

(** X16.  [resolveInterface] looks at the first byte of the raw text, the
    converters at the first byte left once the underscores are removed: a
    number written after a leading underscore is returned as a string by
    [resolveInterface], quoted or not, and stored as the number by
    [resolve_int]. *)
Theorem leading_underscore :
  forall ParseFloat (event : yaml_event_t) (s : string),
    value event = String "_" s ->
    resolveInterface ParseFloat event = Returns (VString (String "_" s))
    /\ (all_digits s = true -> starts_plain s = true -> decimal s < 2 ^ 63 ->
        resolve_int (value event) int64_type = Stored (VInt (decimal s))).
Proof.
  intros ParseFloat [val tg imp] s. cbn [value]. intros ->. split.
  - unfold resolveInterface. cbn [value tag implicit byte0].
    change ((String.length (String "_" s) =? 0)%nat) with false. cbn iota.
    destruct ((String.length tg =? 0)%nat && negb imp); reflexivity.
  - intros Hs Hplain Hlt.
    pose proof (all_digits_clean s Hs) as Hclean.
    pose proof (Replace_clean s Hclean) as Hrep.
    assert (s <> "") as Hne by (intros ->; discriminate Hplain).
    transitivity (resolve_int s int64_type).
    { unfold resolve_int. cbn [strings.Replace]. change (Ascii.eqb "_" "_") with true.
      reflexivity. }
    rewrite (resolve_int_plain int64_type s Hrep Hplain), (Contains_clean s Hclean).
    rewrite (resolve_int_base_decimal int64_type 64 s eq_refl Hs Hne 1 (or_introl eq_refl)).
    pose proof (decimal_from_ge s 0 Hs ltac:(lia)) as Hge. fold (decimal s) in Hge.
    change (2 ^ (64 - 1)) with (2 ^ 63). rewrite Z.mul_1_r.
    replace (decimal s <? 2 ^ 63) with true by (symmetry; apply Z.ltb_lt; lia).
    replace (- 2 ^ 63 <=? decimal s) with true by (symmetry; apply Z.leb_le; lia).
    reflexivity.
Qed.

Lemma leading_underscore_witness :
  resolveInterface ParseFloat_plain {| value := "_1"; tag := ""; implicit := true |}
  = Returns (VString "_1")
  /\ resolve_int "_1" int64_type = Stored (VInt 1).
Proof.
  pose proof (leading_underscore ParseFloat_plain
                {| value := "_1"; tag := ""; implicit := true |} "1" eq_refl) as [H1 H2].
  split; [exact H1 | exact (H2 eq_refl eq_refl ltac:(vm_compute; reflexivity))].
Defined.

(** *** Dates in [resolve_time] and in [resolveInterface] *)

(** Both patterns start with the four digits of the year and a [-]. *)
Lemma date_head_run (rest : Regexp) (s : string) (caps : list string) (k : cont) :
  date_head s = false ->
  run (Cat (Capture 1 (cat [digit_class; digit_class; digit_class; digit_class]))
           (Cat (Lit "-") rest)) s caps k = None.
Proof.
  unfold date_head, digit_class. cbn [run cat].
  destruct s as [| a s]; [reflexivity |]. cbn [run]. rewrite in_class_digit.
  destruct (is_digit a); [| reflexivity].
  destruct s as [| b s]; [reflexivity |]. cbn [run]. rewrite in_class_digit.
  destruct (is_digit b); [| reflexivity].
  destruct s as [| c s]; [reflexivity |]. cbn [run]. rewrite in_class_digit.
  destruct (is_digit c); [| reflexivity].
  destruct s as [| d s]; [reflexivity |]. cbn [run]. rewrite in_class_digit.
  destruct (is_digit d); [| reflexivity].
  destruct s as [| e s]; [reflexivity |]. cbn [run andb].
  rewrite (Ascii.eqb_sym "-"%char e). intros ->. reflexivity.
Qed.

(** X17.  A timestamp starts with a year of four digits and a [-]: every
    other text is rejected by [resolve_time] with the error "Unexpected
    timestamp: " followed by the text, whatever the target; a year of two
    digits or another separator is no date. *)
Theorem resolve_time_needs_date_head :
  forall (v : Type_) (val : string),
    date_head val = false ->
    resolve_time val v = Failed ("Unexpected timestamp: " +:+ val).
Proof.
  intros v val H. unfold resolve_time, FindStringSubmatch.
  unfold ymd_regexp at 1. cbn [cat]. fold digit_class.
  change (Cat digit_class (Cat digit_class (Cat digit_class digit_class)))
    with (cat [digit_class; digit_class; digit_class; digit_class]).
  rewrite (date_head_run _ val _ _ H).
  unfold timestamp_regexp at 1. cbn [cat]. fold digit_class.
  change (Cat digit_class (Cat digit_class (Cat digit_class digit_class)))
    with (cat [digit_class; digit_class; digit_class; digit_class]).
  rewrite (date_head_run _ val _ _ H). reflexivity.
Qed.

Lemma resolve_time_needs_date_head_witness :
  resolve_time "02-12-14" Time_type = Failed "Unexpected timestamp: 02-12-14"
  /\ resolve_time "2002/12/14" Time_type = Failed "Unexpected timestamp: 2002/12/14".
Proof.
  split.
  - exact (resolve_time_needs_date_head Time_type "02-12-14" eq_refl).
  - exact (resolve_time_needs_date_head Time_type "2002/12/14" eq_refl).
Defined.

(** A byte that is no digit of any base stops the parsers. *)
Lemma ParseUint_loop_bad_byte (b : ascii) (s : string) (base maxVal cutoff n r : Z) :
  strconv.digit b = None ->
  strconv.ParseUint_loop s base maxVal cutoff n = (r, None) ->
  strings.Contains s b = false.
Proof.
  intros Hb. revert n. induction s as [| c s IH]; intros n H; [reflexivity |].
  cbn [strconv.ParseUint_loop] in H. cbn [strings.Contains].
  destruct (Ascii.eqb_spec c b) as [-> | _]; [rewrite Hb in H; discriminate H |].
  destruct (strconv.digit c) as [d |]; [| discriminate H].
  destruct (d >=? base); [discriminate H |].
  destruct (n >=? cutoff); [discriminate H |].
  destruct (n * base + d >? maxVal); [discriminate H |].
  exact (IH _ H).
Qed.

Lemma ParseUint_bad_byte (b : ascii) (s : string) (base : Z) :
  strconv.digit b = None -> strings.Contains s b = true ->
  snd (strconv.ParseUint s base 64) <> None.
Proof.
  intros Hb Hs. unfold strconv.ParseUint. destruct s as [| c r]; [discriminate |].
  destruct ((2 <=? base) && (base <=? 36)); [| discriminate].
  destruct (strconv.ParseUint_loop (String c r) base
              (2 ^ (if 64 =? 0 then strconv.IntSize else 64) - 1)
              ((2 ^ 64 - 1) / base + 1) 0) as [r0 [e |]] eqn:Hl; [discriminate |].
  apply (ParseUint_loop_bad_byte b) in Hl; [congruence | exact Hb].
Qed.

Lemma ParseInt_bad_byte (b c : ascii) (r : string) (base : Z) :
  strconv.digit b = None -> strings.Contains r b = true ->
  snd (strconv.ParseInt (String c r) base 64) <> None.
Proof.
  intros Hb Hr. unfold strconv.ParseInt.
  assert (strings.Contains
            (if Ascii.eqb c "+" || Ascii.eqb c "-" then r else String c r) b = true) as Hs.
  { destruct (Ascii.eqb c "+" || Ascii.eqb c "-"); [exact Hr |].
    cbn [strings.Contains]. rewrite Hr. apply orb_true_r. }
  pose proof (ParseUint_bad_byte b _ base Hb Hs) as Hu.
  destruct (strconv.ParseUint
              (if Ascii.eqb c "+" || Ascii.eqb c "-" then r else String c r) base 64)
    as [un [[| |] |]] eqn:Hp; cbn [snd] in *; try discriminate; [| congruence].
  apply ParseUint_range in Hp. subst un.
  destruct (Ascii.eqb c "-"); vm_compute; discriminate.
Qed.

Lemma resolve_int_base_error (v : Type_) (val : string) (base sign : Z) :
  snd (strconv.ParseInt val base 64) <> None ->
  resolve_int_base v val base sign = Failed ("Integer: " +:+ val).
Proof.
  unfold resolve_int_base.
  destruct (strconv.ParseInt val base 64) as [value [e |]]; [reflexivity |].
  cbn [snd]. congruence.
Qed.

Lemma is_digit_clean_byte (c : ascii) : is_digit c = true -> clean_byte c = true.
Proof.
  destruct c as [b0 b1 b2 b3 b4 b5 b6 b7].
  destruct b0, b1, b2, b3, b4, b5, b6, b7; intros H;
    solve [reflexivity | discriminate H].
Qed.

Lemma digit_no_sign (c : ascii) : is_digit c = true -> has_byte signs c = false.
Proof.
  destruct c as [b0 b1 b2 b3 b4 b5 b6 b7].
  destruct b0, b1, b2, b3, b4, b5, b6, b7; intros H;
    solve [reflexivity | discriminate H].
Qed.

Lemma HasPrefix_second (c0 c p : ascii) (r : string) :
  c <> p -> strings.HasPrefix (String c0 (String c r)) (String "0" (String p "")) = false.
Proof.
  intros Hne. unfold strings.HasPrefix. cbn [String.prefix].
  destruct (ascii_dec "0" c0); [| reflexivity].
  destruct (ascii_dec p c); [congruence | reflexivity].
Qed.

(** A text that starts with two digits and has a [-] further on, and no
    [:], is no integer. *)
Lemma resolve_int_dashed (v : Type_) (y1 y2 : ascii) (rest : string) :
  is_digit y1 = true -> is_digit y2 = true ->
  clean rest = true -> strings.Contains rest "-" = true ->
  exists msg, resolve_int (String y1 (String y2 rest)) v = Failed msg.
Proof.
  intros H1 H2 Hclean Hdash.
  assert (clean (String y1 (String y2 rest)) = true) as Hall.
  { cbn [clean]. rewrite (is_digit_clean_byte y1 H1), (is_digit_clean_byte y2 H2), Hclean.
    reflexivity. }
  unfold resolve_int. rewrite (Replace_clean _ Hall). cbn [byte0].
  destruct (is_digit_not_sign y1 H1) as [-> ->]. cbn iota.
  assert (String.eqb (String y1 (String y2 rest)) "0" = false) as ->.
  { cbn [String.eqb]. destruct (Ascii.eqb y1 "0"); reflexivity. }
  rewrite (HasPrefix_second y1 y2 "b" rest), (HasPrefix_second y1 y2 "x" rest)
    by (intros ->; discriminate H2).
  cbn [byte0]. destruct (Ascii.eqb y1 "0").
  - cbn [slice_from]. eexists. apply resolve_int_base_error.
    apply (ParseInt_bad_byte "-"); [reflexivity | exact Hdash].
  - rewrite (Contains_clean _ Hall). eexists. apply resolve_int_base_error.
    apply (ParseInt_bad_byte "-"); [reflexivity |].
    cbn [strings.Contains]. rewrite Hdash. apply orb_true_r.
Qed.

(** A text without [_] and [:] that starts with a digit and that
    [ParseFloat] rejects is no float. *)
Lemma resolve_float_rejected ParseFloat (val : string) (c : ascii) :
  clean val = true -> byte0 val = Some c -> is_digit c = true ->
  snd (ParseFloat val 64) <> None ->
  resolve_float ParseFloat val float64_type = Failed ("Float: " +:+ val).
Proof.
  intros Hclean Hc Hd Hpf. unfold resolve_float.
  rewrite (Replace_clean _ Hclean), Hc.
  destruct (is_digit_not_sign c Hd) as [-> ->]. cbn iota.
  rewrite (ToLower_digit_first val c "inf" Hc Hd), (ToLower_digit_first val c "nan" Hc Hd).
  change (Bits float64_type) with (Some 64). cbn iota.
  rewrite (Contains_clean _ Hclean).
  destruct (ParseFloat val 64) as [f [e |]]; [reflexivity | cbn [snd] in Hpf; congruence].
Qed.

Lemma resolve_time_ymd (y1 y2 y3 y4 m1 m2 d1 d2 : ascii) :
  is_digit y1 = true -> is_digit y2 = true -> is_digit y3 = true -> is_digit y4 = true ->
  is_digit m1 = true -> is_digit m2 = true -> is_digit d1 = true -> is_digit d2 = true ->
  resolve_time (text4 y1 y2 y3 y4 +:+ "-" +:+ text2 m1 m2 +:+ "-" +:+ text2 d1 d2) Time_type
  = Stored (VTime (time.Date (decimal (text4 y1 y2 y3 y4)) (decimal (text2 m1 m2))
                             (decimal (text2 d1 d2)) 0 0 0 0 time.UTC)).
Proof.
  intros. unfold resolve_time. rewrite ymd_regexp_digits by assumption.
  cbn [group nth]. rewrite Atoi_4, !Atoi_2 by assumption. reflexivity.
Qed.

(** X18.  A date [dddd-dd-dd] of decimal digits that is not quoted is
    returned by [resolveInterface] as the time [time.Date] makes of its
    numbers, at midnight UTC, provided [ParseFloat] rejects the text: it is
    first refused as an integer, for its [-], and as a float. *)
Theorem resolveInterface_date :
  forall ParseFloat (event : yaml_event_t) (y1 y2 y3 y4 m1 m2 d1 d2 : ascii),
    is_digit y1 = true -> is_digit y2 = true ->
    is_digit y3 = true -> is_digit y4 = true ->
    is_digit m1 = true -> is_digit m2 = true ->
    is_digit d1 = true -> is_digit d2 = true ->
    quoted event = false ->
    value event = text4 y1 y2 y3 y4 +:+ "-" +:+ text2 m1 m2 +:+ "-" +:+ text2 d1 d2 ->
    snd (ParseFloat (value event) 64) <> None ->
    resolveInterface ParseFloat event
    = Returns (VTime (time.Date (decimal (text4 y1 y2 y3 y4)) (decimal (text2 m1 m2))
                                (decimal (text2 d1 d2)) 0 0 0 0 time.UTC)).
Proof.
  intros ParseFloat event y1 y2 y3 y4 m1 m2 d1 d2 Hy1 Hy2 Hy3 Hy4 Hm1 Hm2 Hd1 Hd2 Hq Hv Hpf.
  pose proof (resolve_time_ymd y1 y2 y3 y4 m1 m2 d1 d2 Hy1 Hy2 Hy3 Hy4 Hm1 Hm2 Hd1 Hd2)
    as Htime.
  rewrite Hv in Hpf. revert Hv Hpf Htime.
  cbv [String.append text4 text2].
  set (rest := String y3 (String y4 (String "-"%char (String m1 (String m2
                 (String "-"%char (String d1 (String d2 "")))))))).
  intros Hv Hpf Htime.
  assert (clean rest = true) as Hrest.
  { unfold rest. cbn [clean].
    repeat match goal with
           | H : is_digit ?c = true |- _ => rewrite (is_digit_clean_byte c H)
           end. reflexivity. }
  assert (strings.Contains rest "-" = true) as Hdash.
  { unfold rest. cbn [strings.Contains].
    change (Ascii.eqb "-" "-") with true. rewrite !orb_true_r. reflexivity. }
  assert (clean (String y1 (String y2 rest)) = true) as Hall.
  { cbn [clean]. repeat match goal with
           | H : is_digit ?c = true |- _ => rewrite (is_digit_clean_byte c H)
           end. exact Hrest. }
  destruct (resolve_int_dashed int64_type y1 y2 rest Hy1 Hy2 Hrest Hdash) as [msg Hint].
  pose proof (resolve_float_rejected ParseFloat _ y1 Hall eq_refl Hy1 Hpf) as Hfloat.
  rewrite (resolveInterface_unquoted _ _ _ _ Hv Hq).
  unfold resolveInterface. cbn [value tag implicit byte0].
  change ((String.length (String y1 (String y2 rest)) =? 0)%nat) with false. cbn iota.
  rewrite (digit_no_sign y1 Hy1). fold (is_digit y1). rewrite Hy1. cbn iota.
  rewrite Hint, Hfloat, Htime. reflexivity.
Qed.

Lemma resolveInterface_date_witness :
  resolveInterface ParseFloat_plain {| value := "2002-12-14"; tag := ""; implicit := true |}
  = Returns (VTime (time.Date 2002 12 14 0 0 0 0 time.UTC)).
Proof.
  exact (resolveInterface_date ParseFloat_plain
           {| value := "2002-12-14"; tag := ""; implicit := true |}
           "2" "0" "0" "2" "1" "2" "1" "4"
           eq_refl eq_refl eq_refl eq_refl eq_refl eq_refl eq_refl eq_refl
           eq_refl eq_refl ltac:(vm_compute; discriminate)).
Defined.

(** *** Zone offsets *)

Ltac ground_byte a :=
  lazymatch a with
  | Ascii ?b0 ?b1 ?b2 ?b3 ?b4 ?b5 ?b6 ?b7 =>
      lazymatch constr:((b0, b1, b2, b3, b4, b5, b6, b7)) with
      | context [?x] => lazymatch x with
                        | true => idtac | false => idtac | (_, _) => idtac
                        | _ => is_var x; fail 2
                        end
      | _ => idtac
      end
  end.

Ltac ground_tests :=
  repeat match goal with
         | |- context [Ascii.eqb ?a ?b] =>
             ground_byte a; ground_byte b;
             let v := eval vm_compute in (Ascii.eqb a b) in
             change (Ascii.eqb a b) with v
         | |- context [in_class ?a ?l] =>
             ground_byte a;
             let v := eval vm_compute in (in_class a l) in
             change (in_class a l) with v
         | |- context [Nat.ltb ?a ?b] =>
             let v := eval vm_compute in (Nat.ltb a b) in
             match v with
             | true => change (Nat.ltb a b) with true
             | false => change (Nat.ltb a b) with false
             end
         end.

Ltac zone_step :=
  repeat (progress
    (cbn [run cat repeat_loop String.length orelse];
     rewrite ?run_digit by assumption;
     rewrite ?digit_not_dash by assumption;
     ground_tests;
     cbn [orelse])).

Lemma timestamp_regexp_zone
    (y1 y2 y3 y4 m1 m2 d1 d2 h1 h2 n1 n2 s1 s2 sg z1 z2 : ascii) (tail : string) :
  is_digit y1 = true -> is_digit y2 = true -> is_digit y3 = true -> is_digit y4 = true ->
  is_digit m1 = true -> is_digit m2 = true -> is_digit d1 = true -> is_digit d2 = true ->
  is_digit h1 = true -> is_digit h2 = true -> is_digit n1 = true -> is_digit n2 = true ->
  is_digit s1 = true -> is_digit s2 = true ->
  sg = "+"%char \/ sg = "-"%char ->
  is_digit z1 = true -> is_digit z2 = true ->
  tail = "" \/ tail = ":" \/
  (exists w1 w2, is_digit w1 = true /\ is_digit w2 = true
                 /\ tail = String ":" (text2 w1 w2)) ->
  FindStringSubmatch 9 timestamp_regexp
    (text4 y1 y2 y3 y4 +:+ "-" +:+ text2 m1 m2 +:+ "-" +:+ text2 d1 d2
     +:+ "T" +:+ text2 h1 h2 +:+ ":" +:+ text2 n1 n2 +:+ ":" +:+ text2 s1 s2
     +:+ String sg (text2 z1 z2) +:+ tail)
  = Some [text4 y1 y2 y3 y4 +:+ "-" +:+ text2 m1 m2 +:+ "-" +:+ text2 d1 d2
          +:+ "T" +:+ text2 h1 h2 +:+ ":" +:+ text2 n1 n2 +:+ ":" +:+ text2 s1 s2
          +:+ String sg (text2 z1 z2) +:+ tail;
          text4 y1 y2 y3 y4; text2 m1 m2; text2 d1 d2;
          text2 h1 h2; text2 n1 n2; text2 s1 s2; ""; String sg (text2 z1 z2);
          slice_from 1 tail].
Proof.
  intros ? ? ? ? ? ? ? ? ? ? ? ? ? ? Hsg ? ? Htail.
  unfold FindStringSubmatch, timestamp_regexp, blank_class.
  destruct Htail as [-> | [-> | (w1 & w2 & ? & ? & ->)]];
    destruct Hsg as [-> | ->];
    cbv [String.append text4 text2 slice_from]; zone_step; reflexivity.
Qed.

Lemma Date_zone (year month day hour min sec nsec : Z) (name : string) (offset : Z) :
  time.unix (time.Date year month day hour min sec nsec (time.FixedZone name offset))
  = time.unix (time.Date year month day hour min sec nsec time.UTC) - offset.
Proof.
  unfold time.Date.
  destruct (time.norm year (month - 1) 12) as [year' m].
  destruct (time.norm sec nsec 1000000000) as [sec' nsec'].
  destruct (time.norm min sec' 60) as [min' sec''].
  destruct (time.norm hour min' 60) as [hour' min''].
  destruct (time.norm day hour' 24) as [day' hour''].
  reflexivity.
Qed.

(** X19.  The zone of a timestamp [dddd-dd-ddTdd:dd:dd] of decimal digits:
    after a sign, two digits of hours and, after a [:], two digits of
    minutes give a fixed zone of (hours * 60 + minutes) * 60 seconds, negated
    after [-]; without the minutes, and with the [:] alone, the minutes are
    0.  Neither number is checked against a range: [+99:99] is a zone.  The
    instant is the one of the same numbers in UTC, less the offset. *)
Theorem resolve_time_zone :
  forall (y1 y2 y3 y4 m1 m2 d1 d2 h1 h2 n1 n2 s1 s2 sg z1 z2 w1 w2 : ascii),
    is_digit y1 = true -> is_digit y2 = true ->
    is_digit y3 = true -> is_digit y4 = true ->
    is_digit m1 = true -> is_digit m2 = true ->
    is_digit d1 = true -> is_digit d2 = true ->
    is_digit h1 = true -> is_digit h2 = true ->
    is_digit n1 = true -> is_digit n2 = true ->
    is_digit s1 = true -> is_digit s2 = true ->
    sg = "+"%char \/ sg = "-"%char ->
    is_digit z1 = true -> is_digit z2 = true ->
    is_digit w1 = true -> is_digit w2 = true ->
    let stamp :=
      text4 y1 y2 y3 y4 +:+ "-" +:+ text2 m1 m2 +:+ "-" +:+ text2 d1 d2
      +:+ "T" +:+ text2 h1 h2 +:+ ":" +:+ text2 n1 n2 +:+ ":" +:+ text2 s1 s2 in
    let zoned (minutes : Z) :=
      let seconds := (decimal (text2 z1 z2) * 60 + minutes) * 60 in
      time.Date (decimal (text4 y1 y2 y3 y4)) (decimal (text2 m1 m2))
                (decimal (text2 d1 d2)) (decimal (text2 h1 h2))
                (decimal (text2 n1 n2)) (decimal (text2 s1 s2)) 0
                (time.FixedZone "" (if Ascii.eqb sg "-" then - seconds else seconds)) in
    resolve_time (stamp +:+ String sg (text2 z1 z2) +:+ ":" +:+ text2 w1 w2) Time_type
    = Stored (VTime (zoned (decimal (text2 w1 w2))))
    /\ resolve_time (stamp +:+ String sg (text2 z1 z2)) Time_type
       = Stored (VTime (zoned 0))
    /\ resolve_time (stamp +:+ String sg (text2 z1 z2) +:+ ":") Time_type
       = Stored (VTime (zoned 0))
    /\ (forall minutes,
          time.unix (zoned minutes)
          = time.unix (time.Date (decimal (text4 y1 y2 y3 y4)) (decimal (text2 m1 m2))
                                 (decimal (text2 d1 d2)) (decimal (text2 h1 h2))
                                 (decimal (text2 n1 n2)) (decimal (text2 s1 s2)) 0
                                 time.UTC)
            - (if Ascii.eqb sg "-"
               then - ((decimal (text2 z1 z2) * 60 + minutes) * 60)
               else (decimal (text2 z1 z2) * 60 + minutes) * 60)).
Proof.
  intros y1 y2 y3 y4 m1 m2 d1 d2 h1 h2 n1 n2 s1 s2 sg z1 z2 w1 w2
         Hy1 Hy2 Hy3 Hy4 Hm1 Hm2 Hd1 Hd2 Hh1 Hh2 Hn1 Hn2 Hs1 Hs2 Hsg Hz1 Hz2 Hw1 Hw2
         stamp zoned.
  assert (forall tail,
             FindStringSubmatch 3 ymd_regexp (stamp +:+ String sg (text2 z1 z2) +:+ tail)
             = None) as Hymd.
  { intros tail.
    exact (ymd_regexp_not_time y1 y2 y3 y4 m1 m2 d1 d2
             (text2 h1 h2 +:+ ":" +:+ text2 n1 n2 +:+ ":" +:+ text2 s1 s2
              +:+ String sg (text2 z1 z2) +:+ tail)
             Hy1 Hy2 Hy3 Hy4 Hm1 Hm2 Hd1 Hd2). }
  assert (forall tail,
             tail = "" \/ tail = ":" \/
             (exists a b, is_digit a = true /\ is_digit b = true
                          /\ tail = String ":" (text2 a b)) ->
             resolve_time (stamp +:+ String sg (text2 z1 z2) +:+ tail) Time_type
             = Stored (VTime (zoned (if negb (String.eqb (slice_from 1 tail) "")
                                     then fst (strconv.Atoi (slice_from 1 tail))
                                     else 0)))) as Hall.
  { intros tail Htail. unfold resolve_time. rewrite Hymd.
    pose proof (timestamp_regexp_zone y1 y2 y3 y4 m1 m2 d1 d2 h1 h2 n1 n2 s1 s2 sg z1 z2
                  tail Hy1 Hy2 Hy3 Hy4 Hm1 Hm2 Hd1 Hd2 Hh1 Hh2 Hn1 Hn2 Hs1 Hs2
                  Hsg Hz1 Hz2 Htail) as Hmatch.
    change (FindStringSubmatch 9 timestamp_regexp
              (stamp +:+ String sg (text2 z1 z2) +:+ tail) = Some
              [stamp +:+ String sg (text2 z1 z2) +:+ tail;
               text4 y1 y2 y3 y4; text2 m1 m2; text2 d1 d2;
               text2 h1 h2; text2 n1 n2; text2 s1 s2; ""; String sg (text2 z1 z2);
               slice_from 1 tail]) in Hmatch.
    rewrite Hmatch. cbn [group nth].
    rewrite Atoi_4, !Atoi_2 by assumption. reflexivity. }
  split; [| split; [| split]].
  - change (stamp +:+ String sg (text2 z1 z2) +:+ ":" +:+ text2 w1 w2)
      with (stamp +:+ String sg (text2 z1 z2) +:+ String ":" (text2 w1 w2)).
    rewrite Hall by (right; right; eauto).
    change (slice_from 1 (String ":" (text2 w1 w2))) with (text2 w1 w2).
    change (negb (String.eqb (text2 w1 w2) "")) with true. cbn iota.
    rewrite Atoi_2 by assumption. reflexivity.
  - change (stamp +:+ String sg (text2 z1 z2))
      with (stamp +:+ String sg (text2 z1 z2) +:+ "").
    rewrite Hall by (left; reflexivity). reflexivity.
  - rewrite Hall by (right; left; reflexivity). reflexivity.
  - intros minutes. apply Date_zone.
Qed.

Lemma resolve_time_zone_witness :
  resolve_time "2001-12-14T21:59:43-05:30" Time_type
  = Stored (VTime (time.Date 2001 12 14 21 59 43 0
                             (time.FixedZone "" (- ((5 * 60 + 30) * 60)))))
  /\ resolve_time "2001-12-14T21:59:43+99" Time_type
     = Stored (VTime (time.Date 2001 12 14 21 59 43 0
                                (time.FixedZone "" ((99 * 60 + 0) * 60)))).
Proof.
  split.
  - exact (proj1 (resolve_time_zone "2" "0" "0" "1" "1" "2" "1" "4" "2" "1" "5" "9"
                    "4" "3" "-" "0" "5" "3" "0"
                    eq_refl eq_refl eq_refl eq_refl eq_refl eq_refl eq_refl eq_refl
                    eq_refl eq_refl eq_refl eq_refl eq_refl eq_refl
                    (or_intror eq_refl) eq_refl eq_refl eq_refl eq_refl)).
  - exact (proj1 (proj2 (resolve_time_zone "2" "0" "0" "1" "1" "2" "1" "4" "2" "1"
                           "5" "9" "4" "3" "+" "9" "9" "0" "0"
                           eq_refl eq_refl eq_refl eq_refl eq_refl eq_refl eq_refl eq_refl
                           eq_refl eq_refl eq_refl eq_refl eq_refl eq_refl
                           (or_introl eq_refl) eq_refl eq_refl eq_refl eq_refl))).
Defined.

(** *** Two sexagesimal groups, on every width *)

Lemma pow2_divides_64 (bits : Z) :
  bits = 8 \/ bits = 16 \/ bits = 32 \/ bits = 64 -> (2 ^ bits | 2 ^ 64).
Proof.
  intros [-> | [-> | [-> | ->]]];
    [exists (2 ^ 56) | exists (2 ^ 48) | exists (2 ^ 32) | exists 1]; reflexivity.
Qed.

Lemma wrap_int_narrow (bits x : Z) :
  bits = 8 \/ bits = 16 \/ bits = 32 \/ bits = 64 ->
  wrap_int bits (wrap_int 64 x) = wrap_int bits x.
Proof.
  intros Hb. pose proof (pow2_divides_64 bits Hb) as Hd.
  unfold wrap_int. f_equal. change (64 - 1) with 63.
  replace ((x + 2 ^ 63) mod 2 ^ 64 - 2 ^ 63 + 2 ^ (bits - 1))
    with ((x + 2 ^ 63) mod 2 ^ 64 + (2 ^ (bits - 1) - 2 ^ 63)) by ring.
  rewrite <- Zplus_mod_idemp_l, (Z.mod_mod_divide _ _ _ Hd), Zplus_mod_idemp_l.
  f_equal. ring.
Qed.

Lemma app_colon_clean (a b : string) :
  clean a = true -> clean b = true ->
  strings.Replace (a +:+ String ":" b) "_" "" = a +:+ String ":" b
  /\ strings.Contains (a +:+ String ":" b) ":" = true
  /\ rev (strings.Split (a +:+ String ":" b) ":") = [b; a].
Proof.
  intros Ha Hb. split; [| split].
  - rewrite Replace_app, (Replace_clean a Ha). cbn [strings.Replace].
    change (Ascii.eqb ":" "_") with false. cbn iota. rewrite (Replace_clean b Hb).
    reflexivity.
  - apply Contains_app_colon.
  - rewrite (Split_app_clean a b Ha), (Split_clean b Hb). reflexivity.
Qed.

Lemma byte0_app (a b : string) (c : ascii) :
  byte0 a = Some c -> byte0 (a +:+ b) = Some c.
Proof. destruct a as [| c0 r]; [discriminate |]. intros H. exact H. Qed.

(** X20.  A text of two sexagesimal groups of decimal digits, [a:b], on a
    target of any width: each group, the first one times 60, is checked
    against the width, and the sum is stored without a check, reduced to the
    width.  Into an unsigned target of [bits] bits the sum modulo 2^bits is
    stored, into a signed one its wrap-around. *)
Theorem sexagesimal_two_groups :
  forall (v : Type_) (bits : Z) (a b : string),
    all_digits a = true -> starts_plain a = true ->
    all_digits b = true -> b <> "" ->
    (uint_bits (Kind_of v) = Some bits ->
     decimal a * 60 < 2 ^ bits -> decimal b < 2 ^ bits ->
     resolve_uint (a +:+ String ":" b) v
     = Stored (VUint ((decimal a * 60 + decimal b) mod 2 ^ bits)))
    /\ (int_bits (Kind_of v) = Some bits ->
        decimal a * 60 < 2 ^ (bits - 1) -> decimal b < 2 ^ (bits - 1) ->
        resolve_int (a +:+ String ":" b) v
        = Stored (VInt (wrap_int bits (decimal a * 60 + decimal b)))).
Proof.
  intros v bits a b Ha Hplain Hb Hbne.
  pose proof (all_digits_clean a Ha) as Hca.
  pose proof (all_digits_clean b Hb) as Hcb.
  destruct (app_colon_clean a b Hca Hcb) as (Hrep & Hcolon & Hsplit).
  destruct (starts_plain_inv a Hplain) as (c & Hc & Hm & Hp & Hz).
  assert (a <> "") as Hane by (intros ->; discriminate Hc).
  pose proof (byte0_app a (String ":" b) c Hc) as Hc'.
  pose proof (decimal_from_ge a 0 Ha ltac:(lia)) as Hage. fold (decimal a) in Hage.
  pose proof (decimal_from_ge b 0 Hb ltac:(lia)) as Hbge. fold (decimal b) in Hbge.
  split.
  - intros Hv Ha60 Hbw.
    pose proof (uint_bits_cases v bits Hv) as Hbits.
    assert (2 ^ bits <= 2 ^ 64) as Hw
      by (destruct Hbits as [-> | [-> | [-> | ->]]]; lia).
    destruct (resolve_uint_plain v _ c Hrep Hc' Hz) as [Hbare _].
    rewrite (Hbare Hm Hp).
    rewrite Hcolon, Hsplit. cbn [resolve_uint_groups].
    rewrite (ParseUint_decimal b Hb Hbne), (ParseUint_decimal a Ha Hane).
    replace (decimal b <? 2 ^ 64) with true by (symmetry; apply Z.ltb_lt; lia).
    replace (decimal a <? 2 ^ 64) with true by (symmetry; apply Z.ltb_lt; lia).
    assert (umul64 (decimal b) 1 = decimal b) as ->
      by (unfold umul64, wrap_uint; rewrite Z.mul_1_r; apply Z.mod_small; lia).
    destruct (OverflowUint_spec v bits (decimal b) Hv ltac:(lia)) as [-> _].
    replace (decimal b <? 2 ^ bits) with true by (symmetry; apply Z.ltb_lt; lia).
    cbn [negb]. change (umul64 1 60) with 60.
    assert (uadd64 0 (decimal b) = decimal b) as ->
      by (unfold uadd64, wrap_uint; apply Z.mod_small; lia).
    assert (umul64 (decimal a) 60 = decimal a * 60) as ->
      by (unfold umul64, wrap_uint; apply Z.mod_small; lia).
    destruct (OverflowUint_spec v bits (decimal a * 60) Hv ltac:(lia)) as [-> _].
    replace (decimal a * 60 <? 2 ^ bits) with true by (symmetry; apply Z.ltb_lt; lia).
    cbn [negb]. unfold SetUint. rewrite Hv. unfold uadd64, wrap_uint.
    rewrite (Z.mod_mod_divide _ _ _ (pow2_divides_64 bits Hbits)).
    do 3 f_equal. ring.
  - intros Hv Ha60 Hbw.
    pose proof (int_bits_cases v bits Hv) as Hbits.
    destruct (pow2_width bits Hbits) as [Hpos Hdouble].
    assert (starts_plain (a +:+ String ":" b) = true) as Hplain'
      by (unfold starts_plain in *; rewrite Hc'; rewrite Hc in Hplain; exact Hplain).
    rewrite (resolve_int_plain v _ Hrep Hplain').
    rewrite Hcolon, Hsplit. cbn [resolve_int_groups].
    rewrite (ParseInt_decimal b Hb Hbne), (ParseInt_decimal a Ha Hane).
    replace (decimal b <? 2 ^ 63) with true by (symmetry; apply Z.ltb_lt; lia).
    replace (decimal a <? 2 ^ 63) with true by (symmetry; apply Z.ltb_lt; lia).
    assert (mul64 (decimal b) 1 = decimal b) as ->
      by (unfold mul64; rewrite Z.mul_1_r; apply wrap_int_small; lia).
    destruct (OverflowInt_in_range v bits (decimal b) Hv ltac:(lia)) as [-> _].
    change (mul64 1 60) with 60.
    assert (add64 0 (decimal b) = decimal b) as ->
      by (unfold add64; apply wrap_int_small; lia).
    assert (mul64 (decimal a) 60 = decimal a * 60) as ->
      by (unfold mul64; apply wrap_int_small; lia).
    destruct (OverflowInt_in_range v bits (decimal a * 60) Hv ltac:(lia)) as [-> _].
    unfold SetInt. rewrite Hv. unfold mul64, add64.
    rewrite Z.mul_1_r, wrap_int_idem, (wrap_int_narrow bits _ Hbits).
    do 3 f_equal. ring.
Qed.

Lemma sexagesimal_two_groups_witness :
  resolve_uint "4:20" uint8_type = Stored (VUint 4)
  /\ resolve_int "1:30" int64_type = Stored (VInt 90).
Proof.
  split.
  - exact (proj1 (sexagesimal_two_groups uint8_type 8 "4" "20"
                    eq_refl eq_refl eq_refl ltac:(discriminate))
                 eq_refl ltac:(vm_compute; reflexivity) ltac:(vm_compute; reflexivity)).
  - exact (proj2 (sexagesimal_two_groups int64_type 64 "1" "30"
                    eq_refl eq_refl eq_refl ltac:(discriminate))
                 eq_refl ltac:(vm_compute; reflexivity) ltac:(vm_compute; reflexivity)).
Defined.

(** *** Binary, hexadecimal and octal into an unsigned target *)

Lemma ParseUint_loop_le (s : string) (base maxVal cutoff n r : Z) :
  strconv.ParseUint_loop s base maxVal cutoff n = (r, None) -> n <= maxVal -> r <= maxVal.
Proof.
  revert n. induction s as [| c s IH]; intros n H Hn; cbn [strconv.ParseUint_loop] in H.
  - injection H as <-. exact Hn.
  - destruct (strconv.digit c) as [d |]; [| discriminate H].
    destruct (d >=? base); [discriminate H |].
    destruct (n >=? cutoff); [discriminate H |].
    destruct (Z.gtb_spec (n * base + d) maxVal) as [| Hle]; [discriminate H |].
    exact (IH _ H Hle).
Qed.

Lemma ParseUint_first (c : ascii) (r : string) (base n : Z) :
  strconv.ParseUint (String c r) base 64 = (n, None) ->
  n < 2 ^ 64 /\ exists d, strconv.digit c = Some d /\ d < base.
Proof.
  unfold strconv.ParseUint.
  destruct ((2 <=? base) && (base <=? 36)); [| discriminate].
  change (if 64 =? 0 then strconv.IntSize else 64) with 64. intros H. split.
  - apply ParseUint_loop_le in H; lia.
  - cbn [strconv.ParseUint_loop] in H.
    destruct (strconv.digit c) as [d |]; [| discriminate H].
    destruct (Z.geb_spec d base) as [| Hlt]; [discriminate H |]. eauto.
Qed.

Lemma resolve_uint_base_ok (v : Type_) (bits : Z) (body : string) (base n : Z) :
  uint_bits (Kind_of v) = Some bits ->
  strconv.ParseUint body base 64 = (n, None) ->
  resolve_uint_base v body base
  = if n <? 2 ^ bits then Stored (VUint n)
    else Failed ("Unsigned Integer: " +:+ body).
Proof.
  intros Hv Hp. unfold resolve_uint_base. rewrite Hp.
  pose proof (ParseUint_ok _ _ _ Hp) as [_ Hn0].
  destruct body as [| c r]; [discriminate Hp |].
  destruct (ParseUint_first c r base n Hp) as [Hn _].
  destruct (OverflowUint_spec v bits n Hv (conj Hn0 Hn)) as [-> Hset].
  destruct (Z.ltb_spec n (2 ^ bits)) as [Hlt | _]; [exact (Hset Hlt) | reflexivity].
Qed.

Lemma HasPrefix_two (a b : ascii) (body : string) :
  strings.HasPrefix (String a (String b body)) (String a (String b "")) = true.
Proof.
  unfold strings.HasPrefix. cbn [String.prefix].
  destruct (ascii_dec a a); [| congruence].
  destruct (ascii_dec b b); [| congruence]. apply prefix_nil.
Qed.

(** X21.  The prefixes of the unsigned converter, on a target of any width:
    after [0b] the rest is read in base 2, after [0x] in base 16 and after a
    single [0] in base 8, bare or after [+]; what [ParseUint] reads is stored
    when it is below 2^bits and is otherwise rejected, with an error that
    shows the text without its prefix. *)
Theorem resolve_uint_bases :
  forall (v : Type_) (bits : Z) (body : string) (n : Z),
    uint_bits (Kind_of v) = Some bits ->
    let result :=
      if n <? 2 ^ bits then Stored (VUint n)
      else Failed ("Unsigned Integer: " +:+ body) in
    (strconv.ParseUint body 2 64 = (n, None) ->
     resolve_uint ("0b" +:+ body) v = result
     /\ resolve_uint ("+0b" +:+ body) v = result)
    /\ (strconv.ParseUint body 16 64 = (n, None) ->
        resolve_uint ("0x" +:+ body) v = result
        /\ resolve_uint ("+0x" +:+ body) v = result)
    /\ (strconv.ParseUint body 8 64 = (n, None) ->
        resolve_uint ("0" +:+ body) v = result
        /\ resolve_uint ("+0" +:+ body) v = result).
Proof.
  intros v bits body n Hv result.
  assert (forall (p : ascii) (base : Z),
             strconv.ParseUint body base 64 = (n, None) ->
             (p = "b"%char /\ base = 2) \/ (p = "x"%char /\ base = 16) ->
             resolve_uint (String "0" (String p body)) v = result
             /\ resolve_uint (String "+" (String "0" (String p body))) v = result)
    as Hprefixed.
  { intros p base Hp Hcase.
    pose proof (ParseUint_ok _ _ _ Hp) as [Hclean _].
    pose proof (resolve_uint_base_ok v bits body base n Hv Hp) as Hbase.
    fold result in Hbase.
    assert (clean (String "0" (String p body)) = true) as Hall
      by (destruct Hcase as [[-> _] | [-> _]]; cbn [clean]; rewrite Hclean; reflexivity).
    assert (clean (String "+" (String "0" (String p body))) = true) as Hall'
      by (cbn [clean] in *; rewrite Hall; reflexivity).
    unfold resolve_uint. rewrite (Replace_clean _ Hall), (Replace_clean _ Hall').
    cbn [byte0]. change (Ascii.eqb "0" "-") with false. change (Ascii.eqb "0" "+") with false.
    change (Ascii.eqb "+" "-") with false. change (Ascii.eqb "+" "+") with true.
    cbn iota. cbn [slice_from].
    change (String.eqb (String "0" (String p body)) "0") with false. cbn iota.
    destruct Hcase as [[-> ->] | [-> ->]].
    - rewrite (HasPrefix_two "0" "b" body). cbn [slice_from]. split; exact Hbase.
    - rewrite (HasPrefix_second "0" "x" "b" body) by discriminate.
      rewrite (HasPrefix_two "0" "x" body). cbn [slice_from]. split; exact Hbase. }
  split; [| split].
  - intros Hp. exact (Hprefixed "b"%char 2 Hp (or_introl (conj eq_refl eq_refl))).
  - intros Hp. exact (Hprefixed "x"%char 16 Hp (or_intror (conj eq_refl eq_refl))).
  - intros Hp.
    pose proof (ParseUint_ok _ _ _ Hp) as [Hclean _].
    pose proof (resolve_uint_base_ok v bits body 8 n Hv Hp) as Hbase.
    fold result in Hbase.
    destruct body as [| c r]; [discriminate Hp |].
    destruct (ParseUint_first c r 8 n Hp) as [_ (d & Hd & Hd8)].
    assert (c <> "b"%char) as Hb
      by (intros ->; vm_compute in Hd; injection Hd as <-; lia).
    assert (c <> "x"%char) as Hx
      by (intros ->; vm_compute in Hd; injection Hd as <-; lia).
    assert (clean (String "0" (String c r)) = true) as Hall
      by (cbn [clean] in *; rewrite Hclean; reflexivity).
    assert (clean (String "+" (String "0" (String c r))) = true) as Hall'
      by (cbn [clean] in *; rewrite Hclean; reflexivity).
    change ("0" +:+ String c r) with (String "0" (String c r)).
    change ("+0" +:+ String c r) with (String "+" (String "0" (String c r))).
    unfold resolve_uint. rewrite (Replace_clean _ Hall), (Replace_clean _ Hall').
    cbn [byte0]. change (Ascii.eqb "0" "-") with false. change (Ascii.eqb "0" "+") with false.
    change (Ascii.eqb "+" "-") with false. change (Ascii.eqb "+" "+") with true.
    cbn iota. cbn [slice_from].
    change (String.eqb (String "0" (String c r)) "0") with false. cbn iota.
    rewrite (HasPrefix_second "0" c "b" r Hb), (HasPrefix_second "0" c "x" r Hx).
    cbn [byte0]. change (Ascii.eqb "0" "0") with true. cbn iota. cbn [slice_from].
    split; exact Hbase.
Qed.

Lemma resolve_uint_bases_witness :
  resolve_uint "0xff" uint8_type = Stored (VUint 255)
  /\ resolve_uint "+0b100000000" uint8_type = Failed "Unsigned Integer: 100000000"
  /\ resolve_uint "017" uint8_type = Stored (VUint 15).
Proof.
  split; [| split].
  - exact (proj1 (proj1 (proj2 (resolve_uint_bases uint8_type 8 "ff" 255 eq_refl)) eq_refl)).
  - exact (proj2 (proj1 (resolve_uint_bases uint8_type 8 "100000000" 256 eq_refl) eq_refl)).
  - exact (proj1 (proj2 (proj2 (resolve_uint_bases uint8_type 8 "17" 15 eq_refl)) eq_refl)).
Defined.

(** *** Signs, on every width *)

(** C9.  An unsigned conversion fails on every text that starts with [-],
    with the message "Unsigned int with negative value: " and the text
    without its underscores.  A leading [+] is dropped by both conversions:
    the outcome is that of the text after it, and a decimal text that reads
    as [n] is stored as [n], with or without the [+], in an unsigned target
    and in a signed one that can hold it.  A leading [-] is accepted by
    the signed conversion: on a 64-bit target the outcome is that of the text
    after it with the integer negated (the text after the sign being one
    that does not itself start with a sign); and on a signed target of any
    width, [-] before a decimal text that reads as [n] stores [-n] when
    [-n] is within the width, so that [-128] is stored in an [int8]. *)
Theorem sign_handling :
  (forall (rest : string) (v : Type_),
      resolve_uint (String "-" rest) v
      = Failed ("Unsigned int with negative value: "
                +:+ strings.Replace (String "-" rest) "_" ""))
  /\ resolve_uint "-1" uint8_type = Failed "Unsigned int with negative value: -1"
  /\ (forall (body : string) (v : Type_),
         leading_sign body = false ->
         resolve_uint (String "+" body) v = resolve_uint body v)
  /\ (forall (body : string) (v : Type_),
         leading_sign body = false ->
         resolve_int (String "+" body) v = resolve_int body v)
  /\ (forall (body : string) (v : Type_),
         leading_sign body = false ->
         int_bits (Kind_of v) = Some 64 ->
         resolve_int (String "-" body) v = negated (resolve_int body v))
  /\ (forall (body : string) (n bits : Z) (v : Type_),
         int_bits (Kind_of v) = Some bits ->
         starts_plain body = true ->
         parses 10 body n ->
         - 2 ^ (bits - 1) <= - n ->
         resolve_int (String "-" body) v = Stored (VInt (- n)))
  /\ resolve_int "-128" int8_type = Stored (VInt (-128))
  /\ (forall (body : string) (n bits : Z) (v : Type_),
         uint_bits (Kind_of v) = Some bits ->
         starts_plain body = true ->
         strconv.ParseUint body 10 64 = (n, None) ->
         n < 2 ^ bits ->
         resolve_uint (String "+" body) v = Stored (VUint n)
         /\ resolve_uint body v = Stored (VUint n))
  /\ (forall (body : string) (n bits : Z) (v : Type_),
         int_bits (Kind_of v) = Some bits ->
         starts_plain body = true ->
         parses 10 body n ->
         n < 2 ^ (bits - 1) ->
         resolve_int (String "+" body) v = Stored (VInt n)
         /\ resolve_int body v = Stored (VInt n))
  /\ resolve_uint "+7" uint8_type = Stored (VUint 7)
  /\ resolve_int "+7" int8_type = Stored (VInt 7).
Proof.
  assert (forall (body : string) (n bits : Z) (v : Type_),
             uint_bits (Kind_of v) = Some bits ->
             starts_plain body = true ->
             strconv.ParseUint body 10 64 = (n, None) ->
             n < 2 ^ bits ->
             resolve_uint (String "+" body) v = Stored (VUint n)
             /\ resolve_uint body v = Stored (VUint n)) as Huplus.
  { intros body n bits v Hv Hs Hp Hfit.
    pose proof (ParseUint_ok _ _ _ Hp) as [Hc _].
    destruct (starts_plain_inv body Hs) as (c & Hc0 & Hm & Hpl & Hz).
    destruct (resolve_uint_plain v body c (Replace_clean _ Hc) Hc0 Hz) as [Hbare Hplus].
    rewrite (Hbare Hm Hpl), Hplus, (Contains_clean _ Hc).
    rewrite (resolve_uint_base_ok v bits body 10 n Hv Hp).
    replace (n <? 2 ^ bits) with true by (symmetry; apply Z.ltb_lt; exact Hfit).
    split; reflexivity. }
  assert (forall (body : string) (n bits : Z) (v : Type_),
             int_bits (Kind_of v) = Some bits ->
             starts_plain body = true ->
             parses 10 body n ->
             n < 2 ^ (bits - 1) ->
             resolve_int (String "+" body) v = Stored (VInt n)
             /\ resolve_int body v = Stored (VInt n)) as Hiplus.
  { intros body n bits v Hv Hs Hp Hfit.
    pose proof (ParseInt_ok _ _ _ Hp) as (Hc & _ & Hn).
    destruct (starts_plain_inv body Hs) as (c & Hc0 & Hm & Hpl & Hz).
    assert (0 <= n) as Hn0.
    { destruct body as [| c' r]; [discriminate Hc0 |].
      cbn [byte0] in Hc0. injection Hc0 as ->.
      exact (ParseInt_unsigned_nonneg _ _ _ _ Hp Hm). }
    rewrite (resolve_int_signed v "+" 1 body c (or_intror (conj eq_refl eq_refl))
               (Replace_clean _ Hc) Hc0 Hz).
    rewrite (resolve_int_plain v body (Replace_clean _ Hc) Hs).
    rewrite (Contains_clean _ Hc). unfold resolve_int_base. rewrite Hp.
    unfold mul64. rewrite Z.mul_1_r, wrap_int_small by lia.
    assert (0 < 2 ^ (bits - 1)) as Hpos
      by (destruct (pow2_width bits (int_bits_cases v bits Hv)) as [[H _] _]; exact H).
    destruct (OverflowInt_in_range v bits n Hv ltac:(lia)) as [-> ->].
    split; reflexivity. }
  assert (forall (body : string) (n bits : Z) (v : Type_),
             int_bits (Kind_of v) = Some bits ->
             starts_plain body = true ->
             parses 10 body n ->
             - 2 ^ (bits - 1) <= - n ->
             resolve_int (String "-" body) v = Stored (VInt (- n))) as Hminus.
  { intros body n bits v Hv Hs Hp Hfit.
    pose proof (ParseInt_ok _ _ _ Hp) as (Hc & _ & Hn).
    rewrite (resolve_int_minus_plain v body (Replace_clean _ Hc) Hs).
    rewrite (Contains_clean _ Hc). unfold resolve_int_base. rewrite Hp.
    assert (0 <= n) as Hn0.
    { unfold starts_plain in Hs. destruct body as [| c r]; [discriminate Hs |].
      cbn [byte0] in Hs. apply negb_true_iff, not_sign_or_zero in Hs as (Hm & _ & _).
      exact (ParseInt_unsigned_nonneg _ _ _ _ Hp Hm). }
    unfold mul64. rewrite wrap_int_small by lia.
    replace (n * -1) with (- n) by ring.
    assert (0 < 2 ^ (bits - 1)) as Hpos
      by (apply Z.pow_pos_nonneg; [lia |];
          destruct (Kind_of v); cbn in Hv; try discriminate Hv;
          injection Hv as <-; unfold strconv.IntSize; lia).
    destruct (OverflowInt_in_range v bits (- n) Hv ltac:(lia)) as [-> ->].
    reflexivity. }
  split; [| split; [| split; [| split; [| split; [| split; [exact Hminus |]]]]]];
    [| | | | |
     split; [apply (Hminus "128" 128 8 int8_type); [reflexivity .. | cbn; lia] |];
     split; [exact Huplus |]; split; [exact Hiplus |];
     split;
     [exact (proj1 (Huplus "7" 7 8 uint8_type eq_refl eq_refl eq_refl eq_refl))
     | exact (proj1 (Hiplus "7" 7 8 int8_type eq_refl eq_refl eq_refl eq_refl))]].
  - intros rest v. reflexivity.
  - reflexivity.
  - intros body v Hs. unfold resolve_uint, leading_sign in *.
    change (strings.Replace (String "+" body) "_" "")
      with (String "+" (strings.Replace body "_" "")).
    destruct (strings.Replace body "_" "") as [| c s]; [reflexivity |].
    cbn [byte0] in *. apply not_sign in Hs as [Hm Hp].
    rewrite Hm, Hp. reflexivity.
  - intros body v Hs. unfold resolve_int, leading_sign in *.
    change (strings.Replace (String "+" body) "_" "")
      with (String "+" (strings.Replace body "_" "")).
    destruct (strings.Replace body "_" "") as [| c s]; [reflexivity |].
    cbn [byte0] in *. apply not_sign in Hs as [Hm Hp].
    rewrite Hm, Hp. reflexivity.
  - intros body v Hs Hv. unfold resolve_int, leading_sign in *.
    change (strings.Replace (String "-" body) "_" "")
      with (String "-" (strings.Replace body "_" "")).
    destruct (strings.Replace body "_" "") as [| c s]; [reflexivity |].
    cbn [byte0] in *. apply not_sign in Hs as [Hm Hp].
    rewrite Hm, Hp.
    change (Ascii.eqb "-" "-") with true. cbn iota. cbn [slice_from].
    destruct (String.eqb (String c s) "0").
    { rewrite (Zero_64 v Hv). reflexivity. }
    destruct (strings.HasPrefix (String c s) "0b");
      [apply resolve_int_base_neg, Hv |].
    destruct (strings.HasPrefix (String c s) "0x");
      [apply resolve_int_base_neg, Hv |].
    cbn [byte0].
    destruct (Ascii.eqb c "0"); [apply resolve_int_base_neg, Hv |].
    destruct (strings.Contains (String c s) ":");
      [| apply resolve_int_base_neg, Hv].
    destruct (resolve_int_groups v (String c s) (rev (strings.Split (String c s) ":")) 0 1)
      as [early | value] eqn:Hloop.
    + symmetry. exact (resolve_int_groups_early _ _ _ _ _ _ Hloop).
    + rewrite !(SetInt_64 v _ Hv). cbn [negated]. rewrite wrap_int_neg. reflexivity.
Qed.

Lemma sign_handling_witness :
  resolve_uint "+7" uint8_type = resolve_uint "7" uint8_type
  /\ resolve_int "+7" int8_type = resolve_int "7" int8_type
  /\ resolve_int "-10" int64_type = negated (resolve_int "10" int64_type)
  /\ resolve_int "-10" int64_type = Stored (VInt (-10))
  /\ resolve_int "-10" int8_type = Stored (VInt (-10))
  /\ resolve_uint "+255" uint8_type = Stored (VUint 255)
  /\ resolve_uint "255" uint8_type = Stored (VUint 255)
  /\ resolve_int "+127" int8_type = Stored (VInt 127).
Proof.
  destruct sign_handling as (_ & _ & Hu & Hp & Hm & Hw & _ & Huplus & Hiplus & _).
  split; [apply Hu; reflexivity |].
  split; [apply Hp; reflexivity |].
  split; [apply Hm; reflexivity |].
  split; [rewrite (Hm "10" int64_type); reflexivity |].
  split; [apply (Hw "10" 10 8 int8_type); [reflexivity .. | cbn; lia] |].
  split; [exact (proj1 (Huplus "255" 255 8 uint8_type eq_refl eq_refl eq_refl eq_refl)) |].
  split; [exact (proj2 (Huplus "255" 255 8 uint8_type eq_refl eq_refl eq_refl eq_refl)) |].
  exact (proj1 (Hiplus "127" 127 8 int8_type eq_refl eq_refl eq_refl eq_refl)).
Defined.

(** *** Bases and sexagesimal groups, on every width *)










(** *** Sexagesimal floats *)

Lemma ToLower_step (c : ascii) (r : string) :
  strings.ToLower (String c r) = String (strings.lower_byte c) (strings.ToLower r)
  \/ (c = "196"%char
      /\ exists r2, r = String "176" r2
                    /\ strings.ToLower (String c r) = String "i" (strings.ToLower r2))
  \/ (c = "226"%char
      /\ exists r3, r = String "132" (String "170" r3)
                    /\ strings.ToLower (String c r) = String "k" (strings.ToLower r3)).
Proof.
  destruct c as [b0 b1 b2 b3 b4 b5 b6 b7].
  destruct b0, b1, b2, b3, b4, b5, b6, b7; try (left; reflexivity).
  - (* 0xE2 *)
    destruct r as [| [c0 c1 c2 c3 c4 c5 c6 c7] r2]; [left; reflexivity |].
    destruct c0, c1, c2, c3, c4, c5, c6, c7; try (left; reflexivity).
    destruct r2 as [| [d0 d1 d2 d3 d4 d5 d6 d7] r3]; [left; reflexivity |].
    destruct d0, d1, d2, d3, d4, d5, d6, d7; try (left; reflexivity).
    right. right. split; [reflexivity |]. eexists. split; reflexivity.
  - (* 0xC4 *)
    destruct r as [| [c0 c1 c2 c3 c4 c5 c6 c7] r2]; [left; reflexivity |].
    destruct c0, c1, c2, c3, c4, c5, c6, c7; try (left; reflexivity).
    right. left. split; [reflexivity |]. eexists. split; reflexivity.
Qed.

Lemma lower_byte_colon (c : ascii) :
  Ascii.eqb (strings.lower_byte c) ":" = Ascii.eqb c ":".
Proof.
  destruct c as [b0 b1 b2 b3 b4 b5 b6 b7].
  destruct b0, b1, b2, b3, b4, b5, b6, b7; reflexivity.
Qed.

(** Lowering keeps a [:], so that a text with one is no special float. *)
Lemma ToLower_colon (s : string) :
  strings.Contains s ":" = true -> strings.Contains (strings.ToLower s) ":" = true.
Proof.
  assert (forall n t, (String.length t <= n)%nat ->
                      strings.Contains t ":" = true ->
                      strings.Contains (strings.ToLower t) ":" = true) as H.
  { clear s. induction n as [| n IH]; intros s Hlen Hs.
    - destruct s; [discriminate Hs | cbn in Hlen; lia].
    - destruct s as [| c r]; [discriminate Hs |]. cbn [String.length] in Hlen.
      destruct (ToLower_step c r) as [-> | [(-> & r2 & -> & ->) | (-> & r3 & -> & ->)]].
      + cbn [strings.Contains] in *. rewrite lower_byte_colon.
        destruct (Ascii.eqb c ":"); [reflexivity |].
        cbn [orb] in *. apply IH; [lia | exact Hs].
      + cbn [strings.Contains] in *.
        change (Ascii.eqb "196" ":") with false in Hs.
        change (Ascii.eqb "176" ":") with false in Hs.
        change (Ascii.eqb "i" ":") with false. cbn [orb] in *.
        apply IH; [cbn in Hlen; lia | exact Hs].
      + cbn [strings.Contains] in *.
        change (Ascii.eqb "226" ":") with false in Hs.
        change (Ascii.eqb "132" ":") with false in Hs.
        change (Ascii.eqb "170" ":") with false in Hs.
        change (Ascii.eqb "k" ":") with false. cbn [orb] in *.
        apply IH; [cbn in Hlen; lia | exact Hs]. }
  intros Hs. exact (H _ s (le_n _) Hs).
Qed.

Lemma ToLower_not_special (s w : string) :
  strings.Contains s ":" = true -> strings.Contains w ":" = false ->
  String.eqb (strings.ToLower s) w = false.
Proof.
  intros Hs Hw. apply String.eqb_neq. intros H.
  apply ToLower_colon in Hs. rewrite H, Hw in Hs. discriminate Hs.
Qed.

(** The loop of [resolve_float] on groups that [ParseFloat] reads and whose
    terms pass the check. *)
Lemma resolve_float_groups_sum ParseFloat (v : Type_) (val : string) (bits : Z)
    (digits : list string) (fs : list math.float64) :
  reads ParseFloat bits digits fs ->
  forall (j : nat) (value : math.float64),
    float_terms_fit v fs j = true ->
    resolve_float_groups ParseFloat v val bits digits value (float_pow60 j)
    = inr (float_sum_from fs j value).
Proof.
  intros Hall. induction Hall as [| d f digits fs Hd _ IH]; intros j value Hfit.
  - reflexivity.
  - cbn [resolve_float_groups float_sum_from float_terms_fit] in *. rewrite Hd.
    destruct (OverflowFloat v (math.mul f (float_pow60 j))) as [[|] |];
      try discriminate Hfit.
    exact (IH (S j) _ Hfit).
Qed.

Lemma float_terms_fit_64 (v : Type_) (fs : list math.float64) (j : nat) :
  Kind_of v = Float64 -> float_terms_fit v fs j = true.
Proof.
  intros Hk. revert j. induction fs as [| f fs IH]; intros j; [reflexivity |].
  cbn [float_terms_fit]. unfold OverflowFloat. rewrite Hk. apply IH.
Qed.

Lemma reads_rev ParseFloat (bits : Z) (digits : list string) (fs : list math.float64) :
  reads ParseFloat bits digits fs -> reads ParseFloat bits (rev digits) (rev fs).
Proof.
  induction 1 as [| d f digits fs Hd _ IH]; [constructor |].
  cbn [rev]. apply Forall2_app; [exact IH | constructor; [exact Hd | constructor]].
Qed.

(** [resolve_float] once the underscores and the sign are removed, on a
    text with a [:]. *)
Lemma resolve_float_sexagesimal ParseFloat (v : Type_) (sg val : string) (bits : Z) :
  In sg [""; "+"; "-"] ->
  strings.Replace val "_" "" = val ->
  leading_sign val = false ->
  strings.Contains val ":" = true ->
  Bits v = Some bits ->
  resolve_float ParseFloat (sg +:+ val) v =
    match resolve_float_groups ParseFloat v val bits (rev (strings.Split val ":"))
            (S754_zero false) (math.of_int 1) with
    | inl early => early
    | inr value => SetFloat v (math.mul value (math.of_int (with_sign sg)))
    end.
Proof.
  intros Hsg Hrep Hsign Hcolon Hbits.
  pose proof (ToLower_not_special val ".inf" Hcolon eq_refl) as Hinf.
  pose proof (ToLower_not_special val ".nan" Hcolon eq_refl) as Hnan.
  unfold leading_sign in Hsign. rewrite Hrep in Hsign.
  destruct val as [| c r]; [discriminate Hcolon |]. cbn [byte0] in Hsign.
  apply not_sign in Hsign as [Hm Hp].
  cbn [In] in Hsg. destruct Hsg as [<- | [<- | [<- | []]]].
  - change ("" +:+ String c r) with (String c r). unfold resolve_float.
    rewrite Hrep. cbn [byte0]. rewrite Hm, Hp, Hinf, Hnan, Hbits, Hcolon. reflexivity.
  - change ("+" +:+ String c r) with (String "+" (String c r)). unfold resolve_float.
    change (strings.Replace (String "+" (String c r)) "_" "")
      with (String "+" (strings.Replace (String c r) "_" "")).
    rewrite Hrep. cbn [byte0]. change (Ascii.eqb "+" "-") with false.
    change (Ascii.eqb "+" "+") with true. cbn iota. cbn [slice_from].
    rewrite Hinf, Hnan, Hbits, Hcolon. reflexivity.
  - change ("-" +:+ String c r) with (String "-" (String c r)). unfold resolve_float.
    change (strings.Replace (String "-" (String c r)) "_" "")
      with (String "-" (strings.Replace (String c r) "_" "")).
    rewrite Hrep. cbn [byte0]. change (Ascii.eqb "-" "-") with true.
    cbn iota. cbn [slice_from].
    rewrite Hinf, Hnan, Hbits, Hcolon. reflexivity.
Qed.

Lemma float_pow60_exact (k : nat) :
  (k <= 13)%nat -> float_pow60 k = math.of_int (60 ^ Z.of_nat k).
Proof.
  intros Hk.
  do 14 (destruct k as [| k]; [vm_compute; reflexivity |]). lia.
Qed.

(** C7.  On a float target, whatever [ParseFloat] does: every casing of
    [.inf], bare or after [+], gives positive infinity and after [-]
    negative infinity; every casing of [.nan], bare or after either sign,
    gives NaN.  A text of two or more groups separated by [:], bare or
    after a sign, is sexagesimal: where [ParseFloat] reads the groups as the
    numbers [fs] and every term passes the overflow check of the target (on
    a [float64] target every term does), their base-60 combination in
    binary64 arithmetic is stored, negated after [-] and rounded to the
    target; the weights are the powers of 60, exact up to 60^13.  In
    particular, with [ParseFloat] reading [1] as 1 and [30.5] as 30.5, the
    text [1:30.5] gives 90.5 and [-1:30.5] gives -90.5, and with [1], [2]
    and [3] read as they are spelt [1:2:3] gives 3723. *)
Theorem resolve_float_special :
  forall (ParseFloat : string -> Z -> math.float64 * error) (v : Type_),
    Kind_of v = Float32 \/ Kind_of v = Float64 ->
    (forall s, casing_of ".inf" s = true ->
               resolve_float ParseFloat s v = Stored (VFloat (S754_infinity false))
               /\ resolve_float ParseFloat (String "+" s) v
                  = Stored (VFloat (S754_infinity false))
               /\ resolve_float ParseFloat (String "-" s) v
                  = Stored (VFloat (S754_infinity true)))
    /\ (forall s, casing_of ".nan" s = true ->
                  resolve_float ParseFloat s v = Stored (VFloat S754_nan)
                  /\ resolve_float ParseFloat (String "+" s) v = Stored (VFloat S754_nan)
                  /\ resolve_float ParseFloat (String "-" s) v = Stored (VFloat S754_nan))
    /\ (Kind_of v = Float64 ->
        ParseFloat "1" 64 = (math.of_int 1, None) ->
        ParseFloat "30.5" 64 = (float_30_5, None) ->
        resolve_float ParseFloat "1:30.5" v = Stored (VFloat float_90_5))
    /\ (forall sg groups fs bits,
           In sg [""; "+"; "-"] ->
           (2 <= List.length groups)%nat ->
           Forall (fun g => clean g = true) groups ->
           leading_sign (Join groups ":") = false ->
           Bits v = Some bits ->
           reads ParseFloat bits groups fs ->
           float_terms_fit v (rev fs) 0 = true ->
           resolve_float ParseFloat (sg +:+ Join groups ":") v
           = Stored (VFloat
                       (let x := math.mul (float_sexagesimal fs)
                                          (math.of_int (with_sign sg)) in
                        match Kind_of v with
                        | Float32 => math.to_float32 x
                        | _ => x
                        end)))
    /\ (Kind_of v = Float64 -> forall fs, float_terms_fit v (rev fs) 0 = true)
    /\ (forall k, (k <= 13)%nat -> float_pow60 k = math.of_int (60 ^ Z.of_nat k))
    /\ (Kind_of v = Float64 ->
        ParseFloat "1" 64 = (math.of_int 1, None) ->
        ParseFloat "30.5" 64 = (float_30_5, None) ->
        resolve_float ParseFloat "-1:30.5" v = Stored (VFloat (SFopp float_90_5)))
    /\ (Kind_of v = Float64 ->
        ParseFloat "1" 64 = (math.of_int 1, None) ->
        ParseFloat "2" 64 = (math.of_int 2, None) ->
        ParseFloat "3" 64 = (math.of_int 3, None) ->
        resolve_float ParseFloat "1:2:3" v = Stored (VFloat (math.of_int 3723))).
Proof.
  intros ParseFloat v Hk.
  assert (forall sg groups fs bits,
             In sg [""; "+"; "-"] ->
             (2 <= List.length groups)%nat ->
             Forall (fun g => clean g = true) groups ->
             leading_sign (Join groups ":") = false ->
             Bits v = Some bits ->
             reads ParseFloat bits groups fs ->
             float_terms_fit v (rev fs) 0 = true ->
             resolve_float ParseFloat (sg +:+ Join groups ":") v
             = Stored (VFloat
                         (let x := math.mul (float_sexagesimal fs)
                                            (math.of_int (with_sign sg)) in
                          match Kind_of v with
                          | Float32 => math.to_float32 x
                          | _ => x
                          end))) as Hsex.
  { intros sg groups fs bits Hsg Hlen Hclean Hsign Hbits Hreads Hfit.
    assert (strings.Contains (Join groups ":") ":" = true) as Hcolon.
    { destruct groups as [| g [| g' groups]]; [cbn in Hlen; lia | cbn in Hlen; lia |].
      rewrite Join_cons. apply Contains_app_colon. }
    rewrite (resolve_float_sexagesimal ParseFloat v sg _ bits Hsg
               (Replace_Join _ Hclean) Hsign Hcolon Hbits).
    rewrite Split_Join by (assumption || (intros ->; cbn in Hlen; lia)).
    change (math.of_int 1) with (float_pow60 0).
    rewrite (resolve_float_groups_sum ParseFloat v _ bits _ _
               (reads_rev _ _ _ _ Hreads) 0 _ Hfit).
    fold (float_sexagesimal fs). unfold SetFloat.
    destruct Hk as [-> | ->]; reflexivity. }
  assert (Kind_of v = Float64 -> Bits v = Some 64) as Hbits64
    by (intros H; unfold Bits; rewrite H; reflexivity).
  destruct v as [k name methods]. cbn [Kind_of] in *.
  split; [| split; [| split; [| split; [exact Hsex |]]]].
  - intros s Hs. apply casing_of_inf in Hs. cbn [In] in Hs.
    destruct Hk; subst k;
      repeat (destruct Hs as [<- | Hs]; [repeat split; vm_compute; reflexivity |]);
      contradiction.
  - intros s Hs. apply casing_of_nan in Hs. cbn [In] in Hs.
    destruct Hk; subst k;
      repeat (destruct Hs as [<- | Hs]; [repeat split; vm_compute; reflexivity |]);
      contradiction.
  - intros -> H1 H2.
    refine (eq_trans (Hsex "" ["1"; "30.5"] [math.of_int 1; float_30_5] 64 _ _ _ _ _ _ _) _);
      [cbn; tauto | cbn; lia | repeat constructor | reflexivity | reflexivity
       | repeat constructor; assumption | apply float_terms_fit_64; reflexivity
       | vm_compute; reflexivity].
  - split; [intros -> fs; apply float_terms_fit_64; reflexivity |].
    split; [exact float_pow60_exact |].
    split.
    + intros -> H1 H2.
      refine (eq_trans (Hsex "-" ["1"; "30.5"] [math.of_int 1; float_30_5] 64 _ _ _ _ _ _ _) _);
      [cbn; tauto | cbn; lia | repeat constructor | reflexivity | reflexivity
       | repeat constructor; assumption | apply float_terms_fit_64; reflexivity
       | vm_compute; reflexivity].
    + intros -> H1 H2 H3.
      refine (eq_trans (Hsex "" ["1"; "2"; "3"] [math.of_int 1; math.of_int 2; math.of_int 3] 64 _ _ _ _ _ _ _) _);
      [cbn; tauto | cbn; lia | repeat constructor | reflexivity | reflexivity
       | repeat constructor; assumption | apply float_terms_fit_64; reflexivity
       | vm_compute; reflexivity].
Qed.

Lemma resolve_float_special_witness :
  resolve_float ParseFloat_plain ".Inf" float64_type = Stored (VFloat (S754_infinity false))
  /\ resolve_float ParseFloat_plain "-.INF" float64_type = Stored (VFloat (S754_infinity true))
  /\ resolve_float ParseFloat_plain "-.NaN" float64_type = Stored (VFloat S754_nan)
  /\ resolve_float ParseFloat_plain "1:30.5" float64_type = Stored (VFloat float_90_5)
  /\ resolve_float ParseFloat_plain "-2:0:30.5" float64_type
     = Stored (VFloat (math.mul (float_sexagesimal [math.of_int 2; math.of_int 0; float_30_5])
                                (math.of_int (-1))))
  /\ resolve_float ParseFloat_plain "1:2:3" float64_type = Stored (VFloat (math.of_int 3723)).
Proof.
  destruct (resolve_float_special ParseFloat_plain float64_type (or_intror eq_refl))
    as (Hinf & Hnan & Hex & Hsex & Hfit & _ & _ & H123).
  split; [apply (Hinf ".Inf"); reflexivity |].
  split; [apply (Hinf ".INF"); reflexivity |].
  split; [apply (Hnan ".NaN"); reflexivity |].
  split; [apply Hex; reflexivity |].
  split.
  - apply (Hsex "-" ["2"; "0"; "30.5"] [math.of_int 2; math.of_int 0; float_30_5] 64);
      [cbn; tauto | cbn; lia | repeat constructor | reflexivity | reflexivity
       | repeat constructor; vm_compute; reflexivity | apply Hfit; reflexivity].
  - apply H123; vm_compute; reflexivity.
Defined.

(** *** The fraction of a second *)

Lemma digits_in_7_other (i : nat) (x : string) (caps : list string) :
  i <> 7%nat -> digits_in_7 caps -> digits_in_7 (set_group i x caps).
Proof.
  unfold digits_in_7, set_group. intros Hi H.
  rewrite !nth_lookup in *. rewrite list_lookup_insert_ne by exact Hi. exact H.
Qed.

Lemma digits_in_7_set (x : string) (caps : list string) :
  all_digits x = true -> digits_in_7 caps -> digits_in_7 (set_group 7 x caps).
Proof.
  unfold digits_in_7, set_group. intros Hx H. rewrite !nth_lookup in *.
  destruct (decide (7 < length caps)%nat) as [Hlt | Hge].
  - rewrite list_lookup_insert_eq by exact Hlt. exact Hx.
  - rewrite list_insert_ge by lia. exact H.
Qed.

Lemma orelse_Some {A} (x y : option A) (res : A) :
  orelse x y = Some res -> x = Some res \/ y = Some res.
Proof. destruct x; cbn; auto. Qed.

Lemma repeat_loop_keeps (m : string -> list string -> cont -> option (list string)) :
  keeps_digits m ->
  forall fuel s caps (k : cont) res,
    digits_in_7 caps -> repeat_loop m k fuel s caps = Some res ->
    exists s' caps', digits_in_7 caps' /\ k s' caps' = Some res.
Proof.
  intros Hm. induction fuel as [| fuel IH]; intros s caps k res HD H.
  - cbn [repeat_loop] in H. eauto.
  - cbn [repeat_loop] in H. apply orelse_Some in H as [H | H]; [| eauto].
    apply (Hm _ _ _ _ HD) in H as (s1 & caps1 & HD1 & H).
    destruct (String.length s1 <? String.length s)%nat; [| discriminate H].
    exact (IH _ _ _ _ HD1 H).
Qed.

(** The loop over [[0-9]] takes digits only and writes no group. *)
Lemma repeat_loop_digits_inv (fuel : nat) (s : string) (caps : list string) (k : cont)
    (res : list string) :
  repeat_loop (run digit_class) k fuel s caps = Some res ->
  exists p s', s = p +:+ s' /\ all_digits p = true /\ k s' caps = Some res.
Proof.
  revert s. induction fuel as [| fuel IH]; intros s H; cbn [repeat_loop] in H.
  - exists "", s. auto.
  - apply orelse_Some in H as [H | H]; [| exists "", s; auto].
    destruct s as [| c s1]; [discriminate H |]. cbn [run digit_class] in H.
    rewrite in_class_digit in H. destruct (is_digit c) eqn:Hc; [| discriminate H].
    destruct (String.length s1 <? String.length (String c s1))%nat; [| discriminate H].
    apply IH in H as (p & s' & -> & Hp & H).
    exists (String c p), s'. cbn [all_digits]. rewrite Hc, Hp. auto.
Qed.

Lemma run_keeps (r : Regexp) : fraction_group r = true -> keeps_digits (run r).
Proof.
  induction r as [c | ranges | r1 IH1 r2 IH2 | r1 IH1 r2 IH2 | r1 IH1 | r1 IH1 | r1 IH1
                  | i r1 IH1 |]; intros Hr s caps k res HD H; cbn [fraction_group] in Hr.
  - cbn [run] in H. destruct s as [| c' s']; [discriminate H |].
    destruct (Ascii.eqb c c'); [eauto | discriminate H].
  - cbn [run] in H. destruct s as [| c' s']; [discriminate H |].
    destruct (in_class c' ranges); [eauto | discriminate H].
  - apply andb_prop in Hr as [Hr1 Hr2]. cbn [run] in H.
    apply (IH1 Hr1 _ _ _ _ HD) in H as (s1 & caps1 & HD1 & H).
    exact (IH2 Hr2 _ _ _ _ HD1 H).
  - apply andb_prop in Hr as [Hr1 Hr2]. cbn [run] in H.
    apply orelse_Some in H as [H | H]; [exact (IH1 Hr1 _ _ _ _ HD H) |].
    exact (IH2 Hr2 _ _ _ _ HD H).
  - cbn [run] in H. apply orelse_Some in H as [H | H]; [| eauto].
    exact (IH1 Hr _ _ _ _ HD H).
  - cbn [run] in H. exact (repeat_loop_keeps _ (IH1 Hr) _ _ _ _ _ HD H).
  - cbn [run] in H. apply (IH1 Hr _ _ _ _ HD) in H as (s1 & caps1 & HD1 & H).
    exact (repeat_loop_keeps _ (IH1 Hr) _ _ _ _ _ HD1 H).
  - cbn [run] in H. destruct (Nat.eqb_spec i 7) as [-> | Hi].
    + destruct r1 as [| | | | | r0 | | |]; try discriminate Hr.
      destruct r0 as [| [| [lo hi] [|]] | | | | | | |]; try discriminate Hr.
      apply andb_prop in Hr as [Hlo Hhi].
      apply Ascii.eqb_eq in Hlo. apply Ascii.eqb_eq in Hhi. subst lo hi.
      cbn [run] in H. fold digit_class in H.
      apply repeat_loop_digits_inv in H as (p & s' & -> & Hp & H).
      rewrite consumed_app in H.
      exists s', (set_group 7 p caps). split; [| exact H].
      apply digits_in_7_set; assumption.
    + apply (IH1 Hr _ _ _ _ HD) in H as (s1 & caps1 & HD1 & H).
      exists s1, (set_group i (consumed s s1) caps1). split; [| exact H].
      apply digits_in_7_other; assumption.
  - cbn [run] in H. eauto.
Qed.

Lemma timestamp_regexp_digits_in_7 (val : string) (matches : list string) :
  FindStringSubmatch 9 timestamp_regexp val = Some matches ->
  all_digits (group matches 7) = true.
Proof.
  unfold FindStringSubmatch. intros H.
  apply (run_keeps timestamp_regexp eq_refl) in H as (s' & caps' & HD & H);
    [| reflexivity].
  destruct s'; [| discriminate H]. injection H as <-.
  exact (digits_in_7_other 0 val caps' ltac:(lia) HD).
Qed.

Lemma Atoi_ParseInt (s : string) : strconv.Atoi s = strconv.ParseInt s 10 64.
Proof. reflexivity. Qed.

(** The digits after the [.], whatever their number: [Atoi] gives the count
    they spell, or the largest [int64]. *)
Lemma number_digits (frac : string) :
  all_digits frac = true -> frac <> "" -> number frac = milliseconds frac.
Proof.
  intros Hfrac Hne. unfold number, milliseconds.
  rewrite Atoi_ParseInt, (ParseInt_decimal frac Hfrac Hne).
  destruct (Z.ltb_spec (decimal frac) (2 ^ 63)); cbn [fst]; lia.
Qed.

Lemma milliseconds_exact (frac : string) :
  all_digits frac = true -> (String.length frac <= 12)%nat ->
  mul64 (milliseconds frac) time.Millisecond = decimal frac * 1000000.
Proof.
  intros Hfrac Hlen.
  pose proof (decimal_bound frac Hfrac ltac:(lia)) as Hb.
  assert (10 ^ Z.of_nat (String.length frac) <= 10 ^ 12) as Hpow
    by (apply Z.pow_le_mono_r; lia).
  unfold milliseconds, mul64, time.Millisecond.
  rewrite Z.min_l by lia. apply wrap_int_small. lia.
Qed.

(** [resolve_time] on a text that only the second pattern matches. *)
Lemma resolve_time_groups (val : string) (matches : list string) :
  FindStringSubmatch 3 ymd_regexp val = None ->
  FindStringSubmatch 9 timestamp_regexp val = Some matches ->
  resolve_time val Time_type
  = Stored (VTime (time.Date (number (group matches 1)) (number (group matches 2))
                             (number (group matches 3)) (number (group matches 4))
                             (number (group matches 5)) (number (group matches 6))
                             (mul64 (milliseconds (group matches 7)) time.Millisecond)
                             (zone (group matches 8) (group matches 9)))).
Proof.
  intros Hymd Hm. pose proof (timestamp_regexp_digits_in_7 val matches Hm) as Hd.
  unfold resolve_time. rewrite Hymd, Hm. fold (number (group matches 1)).
  fold (number (group matches 2)). fold (number (group matches 3)).
  fold (number (group matches 4)). fold (number (group matches 5)).
  fold (number (group matches 6)). fold (number (group matches 7)).
  fold (number (group matches 9)).
  change (Set_Time Time_type) with (fun x => Stored (VTime x)). cbv beta.
  do 2 f_equal. f_equal.
  - destruct (group matches 7) as [| c r] eqn:H7; [reflexivity |].
    change (negb (String.eqb (String c r) "")) with true. cbn iota.
    rewrite (number_digits _ Hd) by discriminate. reflexivity.
  - unfold zone. destruct (group matches 8) as [| sign rest]; [reflexivity |].
    fold (number rest). destruct (String.eqb (group matches 9) ""); reflexivity.
Qed.

(** The greedy loop over a run of digits takes them all, when what follows
    does not start with a digit and is accepted by the continuation. *)
Lemma repeat_loop_digits_then (frac rest : string) (k : cont) (caps res : list string) :
  all_digits frac = true ->
  no_digit_first rest = true ->
  k rest caps = Some res ->
  forall fuel, (String.length frac <= fuel)%nat ->
    repeat_loop (run digit_class) k fuel (frac +:+ rest) caps = Some res.
Proof.
  intros Hfrac Hrest Hk. induction frac as [| d frac IH]; intros fuel Hfuel.
  - change ("" +:+ rest) with rest.
    destruct fuel as [| fuel]; cbn [repeat_loop]; [exact Hk |].
    destruct rest as [| c rest]; cbn [run digit_class]; [exact Hk |].
    cbn [no_digit_first] in Hrest. apply negb_true_iff in Hrest.
    rewrite in_class_digit, Hrest. cbn [orelse]. exact Hk.
  - cbn [all_digits] in Hfrac. apply andb_prop in Hfrac as [Hd Hfrac].
    cbn [String.length] in Hfuel.
    destruct fuel as [| fuel]; [lia |].
    rewrite append_cons. cbn [repeat_loop]. rewrite (run_digit d _ _ _ Hd).
    cbn [String.length].
    assert ((String.length (frac +:+ rest) <? S (String.length (frac +:+ rest)))%nat
            = true) as -> by (apply Nat.ltb_lt; lia).
    rewrite (IH Hfrac fuel) by lia. reflexivity.
Qed.

Lemma append_nil_l (s : string) : "" +:+ s = s.
Proof. reflexivity. Qed.

Lemma timestamp_regexp_fraction_digits
    (y1 y2 y3 y4 m1 m2 d1 d2 h1 h2 n1 n2 s1 s2 : ascii) (frac suffix : string) :
  is_digit y1 = true -> is_digit y2 = true -> is_digit y3 = true -> is_digit y4 = true ->
  is_digit m1 = true -> is_digit m2 = true -> is_digit d1 = true -> is_digit d2 = true ->
  is_digit h1 = true -> is_digit h2 = true -> is_digit n1 = true -> is_digit n2 = true ->
  is_digit s1 = true -> is_digit s2 = true ->
  all_digits frac = true ->
  suffix = "" \/ suffix = "Z" ->
  FindStringSubmatch 9 timestamp_regexp
    (text4 y1 y2 y3 y4 +:+ "-" +:+ text2 m1 m2 +:+ "-" +:+ text2 d1 d2
     +:+ "T" +:+ text2 h1 h2 +:+ ":" +:+ text2 n1 n2 +:+ ":" +:+ text2 s1 s2
     +:+ "." +:+ frac +:+ suffix)
  = Some [text4 y1 y2 y3 y4 +:+ "-" +:+ text2 m1 m2 +:+ "-" +:+ text2 d1 d2
          +:+ "T" +:+ text2 h1 h2 +:+ ":" +:+ text2 n1 n2 +:+ ":" +:+ text2 s1 s2
          +:+ "." +:+ frac +:+ suffix;
          text4 y1 y2 y3 y4; text2 m1 m2; text2 d1 d2;
          text2 h1 h2; text2 n1 n2; text2 s1 s2; frac; ""; ""].
Proof.
  intros ? ? ? ? ? ? ? ? ? ? ? ? ? ? Hfrac Hsuffix.
  unfold FindStringSubmatch, timestamp_regexp. cbv [text4 text2].
  repeat (rewrite append_cons || rewrite append_nil_l).
  regexp_step.
  change (Ascii.eqb "." ".") with true. cbn iota.
  regexp_step.
  erewrite (repeat_loop_digits_then frac suffix _ _ _ Hfrac).
  - cbn [orelse]. reflexivity.
  - destruct Hsuffix as [-> | ->]; reflexivity.
  - cbv beta. rewrite consumed_app. consumed_step.
    destruct Hsuffix as [-> | ->]; vm_compute; reflexivity.
  - rewrite length_append. lia.
Qed.

Lemma resolve_time_fraction_digits
    (y1 y2 y3 y4 m1 m2 d1 d2 h1 h2 n1 n2 s1 s2 : ascii) (frac suffix : string) :
  is_digit y1 = true -> is_digit y2 = true -> is_digit y3 = true -> is_digit y4 = true ->
  is_digit m1 = true -> is_digit m2 = true -> is_digit d1 = true -> is_digit d2 = true ->
  is_digit h1 = true -> is_digit h2 = true -> is_digit n1 = true -> is_digit n2 = true ->
  is_digit s1 = true -> is_digit s2 = true ->
  all_digits frac = true ->
  suffix = "" \/ suffix = "Z" ->
  resolve_time
    (text4 y1 y2 y3 y4 +:+ "-" +:+ text2 m1 m2 +:+ "-" +:+ text2 d1 d2
     +:+ "T" +:+ text2 h1 h2 +:+ ":" +:+ text2 n1 n2 +:+ ":" +:+ text2 s1 s2
     +:+ "." +:+ frac +:+ suffix) Time_type
  = Stored (VTime (time.Date (decimal (text4 y1 y2 y3 y4)) (decimal (text2 m1 m2))
                             (decimal (text2 d1 d2)) (decimal (text2 h1 h2))
                             (decimal (text2 n1 n2)) (decimal (text2 s1 s2))
                             (mul64 (milliseconds frac) time.Millisecond) time.UTC)).
Proof.
  intros Hy1 Hy2 Hy3 Hy4 Hm1 Hm2 Hd1 Hd2 Hh1 Hh2 Hn1 Hn2 Hs1 Hs2 Hfrac Hsuffix.
  refine (eq_trans
            (resolve_time_groups _ _
               (ymd_regexp_not_time y1 y2 y3 y4 m1 m2 d1 d2
                  (text2 h1 h2 +:+ ":" +:+ text2 n1 n2 +:+ ":" +:+ text2 s1 s2
                   +:+ "." +:+ frac +:+ suffix)
                  Hy1 Hy2 Hy3 Hy4 Hm1 Hm2 Hd1 Hd2)
               (timestamp_regexp_fraction_digits y1 y2 y3 y4 m1 m2 d1 d2 h1 h2 n1 n2
                  s1 s2 frac suffix Hy1 Hy2 Hy3 Hy4 Hm1 Hm2 Hd1 Hd2 Hh1 Hh2 Hn1 Hn2
                  Hs1 Hs2 Hfrac Hsuffix)) _).
  cbn [group nth]. unfold number. rewrite Atoi_4, !Atoi_2 by assumption. reflexivity.
Qed.

(** C4 as the specification words it: the two timestamps are written with
    the fractions [.1] and [.10]; read as milliseconds they are 1 ms and
    10 ms, so the two instants are not the same. *)
Lemma timestamp_instants_counterexample :
  exists t1 t2,
    resolve_time "2001-12-15T02:59:43.1Z" Time_type = Stored (VTime t1)
    /\ resolve_time "2001-12-14t21:59:43.10-05:00" Time_type = Stored (VTime t2)
    /\ instant t1 <> instant t2.
Proof.
  eexists _, _. split; [vm_compute; reflexivity |].
  split; [vm_compute; reflexivity |]. vm_compute. discriminate.
Qed.

(** C4, as the code has it.  [2001-12-15T02:59:43.1Z] is 02:59:43 UTC on
    that day (1008385183 s after the epoch) and 1 ms;
    [2001-12-14t21:59:43.10-05:00] is the same second, once the offset of
    -5 h is applied, and 10 ms, shown in the zone of that offset;
    [2002-12-14] is midnight UTC on that day; [not-a-date] is rejected.  On
    every text that the timestamp pattern matches, group 7, the text after
    the [.], is a run of decimal digits and is read as a count of
    milliseconds: the number the digits spell (the largest [int64] when they
    spell more), times 1000000 in 64-bit arithmetic, is the nanoseconds
    given to [time.Date], which carries the whole seconds; up to 12 digits
    the product is exact.  So it is for every timestamp
    [dddd-dd-ddTdd:dd:dd.f] of decimal digits, with or without a final
    [Z]. *)
Theorem resolve_time_examples :
  resolve_time "2001-12-15T02:59:43.1Z" Time_type
  = Stored (VTime {| time.unix := 1008385183; time.nsec := 1 * time.Millisecond;
                     time.loc := time.UTC |})
  /\ resolve_time "2001-12-14t21:59:43.10-05:00" Time_type
     = Stored (VTime {| time.unix := 1008385183; time.nsec := 10 * time.Millisecond;
                        time.loc := time.FixedZone "" (- (5 * 60 + 0) * 60) |})
  /\ resolve_time "2001-12-15T02:59:43.1Z" Time_type
     = Stored (VTime (time.Date 2001 12 15 2 59 43 (1 * time.Millisecond) time.UTC))
  /\ resolve_time "2002-12-14" Time_type
     = Stored (VTime {| time.unix := 1039824000; time.nsec := 0; time.loc := time.UTC |})
  /\ resolve_time "2002-12-14" Time_type
     = Stored (VTime (time.Date 2002 12 14 0 0 0 0 time.UTC))
  /\ resolve_time "not-a-date" Time_type = Failed "Unexpected timestamp: not-a-date"
  /\ (forall (val : string) (matches : list string),
         FindStringSubmatch 3 ymd_regexp val = None ->
         FindStringSubmatch 9 timestamp_regexp val = Some matches ->
         all_digits (group matches 7) = true
         /\ resolve_time val Time_type
            = Stored (VTime (time.Date
                               (number (group matches 1)) (number (group matches 2))
                               (number (group matches 3)) (number (group matches 4))
                               (number (group matches 5)) (number (group matches 6))
                               (mul64 (milliseconds (group matches 7)) time.Millisecond)
                               (zone (group matches 8) (group matches 9))))
         /\ ((String.length (group matches 7) <= 12)%nat ->
             mul64 (milliseconds (group matches 7)) time.Millisecond
             = decimal (group matches 7) * 1000000))
  /\ (forall (y1 y2 y3 y4 m1 m2 d1 d2 h1 h2 n1 n2 s1 s2 : ascii) (frac suffix : string),
         is_digit y1 = true -> is_digit y2 = true ->
         is_digit y3 = true -> is_digit y4 = true ->
         is_digit m1 = true -> is_digit m2 = true ->
         is_digit d1 = true -> is_digit d2 = true ->
         is_digit h1 = true -> is_digit h2 = true ->
         is_digit n1 = true -> is_digit n2 = true ->
         is_digit s1 = true -> is_digit s2 = true ->
         all_digits frac = true ->
         suffix = "" \/ suffix = "Z" ->
         resolve_time
           (text4 y1 y2 y3 y4 +:+ "-" +:+ text2 m1 m2 +:+ "-" +:+ text2 d1 d2
            +:+ "T" +:+ text2 h1 h2 +:+ ":" +:+ text2 n1 n2 +:+ ":" +:+ text2 s1 s2
            +:+ "." +:+ frac +:+ suffix) Time_type
         = Stored (VTime (time.Date
                            (decimal (text4 y1 y2 y3 y4)) (decimal (text2 m1 m2))
                            (decimal (text2 d1 d2)) (decimal (text2 h1 h2))
                            (decimal (text2 n1 n2)) (decimal (text2 s1 s2))
                            (mul64 (milliseconds frac) time.Millisecond) time.UTC))
         /\ ((String.length frac <= 12)%nat ->
             mul64 (milliseconds frac) time.Millisecond = decimal frac * 1000000))
  /\ (forall frac : string,
         all_digits frac = true -> (String.length frac <= 12)%nat ->
         resolve_time ("2001-12-15T02:59:43." +:+ frac +:+ "Z") Time_type
         = Stored (VTime (time.Date 2001 12 15 2 59 43
                                    (decimal frac * time.Millisecond) time.UTC))).
Proof.
  split; [vm_compute; reflexivity |].
  split; [vm_compute; reflexivity |].
  split; [vm_compute; reflexivity |].
  split; [vm_compute; reflexivity |].
  split; [vm_compute; reflexivity |].
  split; [vm_compute; reflexivity |].
  split.
  { intros val matches Hymd Hm.
    pose proof (timestamp_regexp_digits_in_7 val matches Hm) as Hd.
    split; [exact Hd |].
    split; [exact (resolve_time_groups val matches Hymd Hm) |].
    exact (milliseconds_exact _ Hd). }
  split.
  { intros y1 y2 y3 y4 m1 m2 d1 d2 h1 h2 n1 n2 s1 s2 frac suffix
           Hy1 Hy2 Hy3 Hy4 Hm1 Hm2 Hd1 Hd2 Hh1 Hh2 Hn1 Hn2 Hs1 Hs2 Hfrac Hsuffix.
    split; [| exact (milliseconds_exact _ Hfrac)].
    exact (resolve_time_fraction_digits y1 y2 y3 y4 m1 m2 d1 d2 h1 h2 n1 n2 s1 s2
             frac suffix Hy1 Hy2 Hy3 Hy4 Hm1 Hm2 Hd1 Hd2 Hh1 Hh2 Hn1 Hn2 Hs1 Hs2
             Hfrac Hsuffix). }
  exact resolve_time_fraction.
Qed.

Lemma resolve_time_examples_witness :
  resolve_time "2001-12-15T02:59:43.250Z" Time_type
  = Stored (VTime (time.Date 2001 12 15 2 59 43 250000000 time.UTC))
  /\ resolve_time "1999-01-31T23:59:59.1500" Time_type
     = Stored (VTime (time.Date 1999 1 31 23 59 59 (mul64 1500 time.Millisecond) time.UTC))
  /\ mul64 1500 time.Millisecond = 1500 * 1000000
  /\ resolve_time "2001-12-14t21:59:43.10-05:00" Time_type
     = Stored (VTime (time.Date 2001 12 14 21 59 43 (mul64 10 time.Millisecond)
                                (time.FixedZone "" (- ((5 * 60 + 0) * 60))))).
Proof.
  destruct resolve_time_examples as (_ & _ & _ & _ & _ & _ & Hany & Hdigits & Hfrac).
  split; [apply (Hfrac "250"); [reflexivity | cbn; lia] |].
  destruct (Hdigits "1"%char "9"%char "9"%char "9"%char "0"%char "1"%char "3"%char
              "1"%char "2"%char "3"%char "5"%char "9"%char "5"%char "9"%char "1500" ""
              eq_refl eq_refl eq_refl eq_refl eq_refl eq_refl eq_refl eq_refl
              eq_refl eq_refl eq_refl eq_refl eq_refl eq_refl eq_refl
              (or_introl eq_refl)) as [H1 H2].
  split; [exact H1 |]. split; [apply H2; cbn; lia |].
  destruct (Hany "2001-12-14t21:59:43.10-05:00"
              ["2001-12-14t21:59:43.10-05:00"; "2001"; "12"; "14"; "21"; "59"; "43";
               "10"; "-05"; "00"]
              ltac:(vm_compute; reflexivity) ltac:(vm_compute; reflexivity))
    as (_ & H & _).
  exact H.
Defined.
